(** * GPU droplet lab: the DigitalOcean client, the provisioning workflow
      and the tool dispatch server

    A shallow embedding of [deploy_gpu_droplet.py] and [mcp_server.py].

    Python values that travel through the code (JSON documents, arguments,
    request bodies) are values of [value]; dictionaries are [gmap string _].
    Code that talks to the network, reads the clock or sleeps is written in
    a state-and-exception monad over a [World] holding the clock and the
    log of requests sent so far.  The remote service and the two Python
    runtime functions the repository relies on without defining them
    ([repr] of containers and [json.dumps]) are the fields of a [Host]. *)

From stdpp Require Import gmap strings list fin_maps pretty.
From Stdlib Require Import ZArith Lia Ascii.

#[local] Set Warnings "-register-all".
#[local] Open Scope Z_scope.

(* ===================================================================== *)
(** ** Python values, exceptions and the string methods the code calls    *)
(* ===================================================================== *)

Module Py.

(** What [json.loads] can produce, and so what the documents, the tool
    arguments and the request bodies are made of.  Numbers are the
    integers: no claim depends on a float. *)
Inductive value : Type :=
  | PyNone
  | PyBool (b : bool)
  | PyInt (n : Z)
  | PyStr (s : string)
  | PyList (l : list value)
  | PyDict (m : gmap string value).

(** The exception classes raised by the code, by its uses of the
    built-in operations and by the [requests] library.  Every one of
    them derives from [Exception], so [except Exception] and a bare
    [except:] catch every exception of the model. *)
Inductive exn_class : Type :=
  | Exception
  | ValueError
  | KeyError
  | TypeError
  | AttributeError
  | TimeoutError
  | HTTPError
  | JSONDecodeError
  | RequestException.

#[global] Instance exn_class_eq_dec : EqDecision exn_class.
Proof. solve_decision. Defined.

Inductive result (A : Type) : Type :=
  | Ok (a : A)
  | Raise (c : exn_class) (msg : string).
#[global] Arguments Ok {A} a.
#[global] Arguments Raise {A} c msg.

(** [bool(v)]: the truth value the [if v:] tests use. *)
Definition truthy (v : value) : bool :=
  match v with
  | PyNone => false
  | PyBool b => b
  | PyInt n => negb (n =? 0)
  | PyStr s => negb (String.eqb s "")
  | PyList l => match l with [] => false | _ => true end
  | PyDict m => negb (size m =? 0)%nat
  end.

(** [v == "literal"]: only a [str] with the same characters is equal to
    a string. *)
Definition eq_str (v : value) (s : string) : bool :=
  match v with
  | PyStr t => String.eqb t s
  | _ => false
  end.

Definition type_name (v : value) : string :=
  match v with
  | PyNone => "NoneType"
  | PyBool _ => "bool"
  | PyInt _ => "int"
  | PyStr _ => "str"
  | PyList _ => "list"
  | PyDict _ => "dict"
  end.

Definition no_attribute {A} (v : value) (attr : string) : result A :=
  Raise AttributeError
    ("'" +:+ type_name v +:+ "' object has no attribute '" +:+ attr +:+ "'").

(** [d.get(key, dflt)] *)
Definition get (d : value) (key : string) (dflt : value) : result value :=
  match d with
  | PyDict m => Ok (default dflt (m !! key))
  | _ => no_attribute d "get"
  end.

(** [d[key]] for a string key *)
Definition getitem (d : value) (key : string) : result value :=
  match d with
  | PyDict m =>
      match m !! key with
      | Some v => Ok v
      | None => Raise KeyError ("'" +:+ key +:+ "'")
      end
  | PyList _ =>
      Raise TypeError "list indices must be integers or slices, not str"
  | PyStr _ => Raise TypeError "string indices must be integers, not 'str'"
  | _ => Raise TypeError ("'" +:+ type_name d +:+ "' object is not subscriptable")
  end.

(** *** [str.lower], [str.upper], [str.find], [str.split]

    Strings are byte strings; the case maps act on the ASCII letters and
    leave every other byte alone.  On a string of ASCII characters that is
    what [str.lower] and [str.upper] do; on other strings the methods of
    Python map further characters, so a statement that needs the exact
    case map of a string it does not fix assumes the string to be
    ASCII. *)
Definition ascii_lower (c : ascii) : ascii :=
  let n := nat_of_ascii c in
  if ((65 <=? n) && (n <=? 90))%nat then ascii_of_nat (n + 32) else c.

Definition ascii_upper (c : ascii) : ascii :=
  let n := nat_of_ascii c in
  if ((97 <=? n) && (n <=? 122))%nat then ascii_of_nat (n - 32) else c.

Fixpoint lower (s : string) : string :=
  match s with
  | EmptyString => EmptyString
  | String c s' => String (ascii_lower c) (lower s')
  end.

Fixpoint upper (s : string) : string :=
  match s with
  | EmptyString => EmptyString
  | String c s' => String (ascii_upper c) (upper s')
  end.

(** [s.find(sub)] from offset [i]: the lowest index where [sub] occurs,
    [-1] when it does not. *)
Fixpoint find_from (i : Z) (s sub : string) : Z :=
  if String.prefix sub s then i
  else match s with
       | EmptyString => -1
       | String _ s' => find_from (i + 1) s' sub
       end.

Definition find (s sub : string) : Z := find_from 0 s sub.

(** [s.split(sep)] for a one-character separator *)
Fixpoint split (s : string) (sep : ascii) : list string :=
  match s with
  | EmptyString => [EmptyString]
  | String c s' =>
      if Ascii.eqb c sep then EmptyString :: split s' sep
      else match split s' sep with
           | [] => [String c EmptyString]
           | w :: ws => String c w :: ws
           end
  end.

(** [key in container] for a string key *)
Definition contains (container : value) (key : string) : result bool :=
  match container with
  | PyDict m => Ok (bool_decide (is_Some (m !! key)))
  | PyList l => Ok (existsb (fun v => eq_str v key) l)
  | PyStr s => Ok (negb (find s key =? -1))
  | _ => Raise TypeError
           ("argument of type '" +:+ type_name container +:+ "' is not iterable")
  end.

(** [str(v)], what an f-string shows for [{v}].  For a list or a dict it
    is the container's [repr], which the host supplies. *)
Definition str (repr : value -> string) (v : value) : string :=
  match v with
  | PyNone => "None"
  | PyBool true => "True"
  | PyBool false => "False"
  | PyInt n => pretty n
  | PyStr s => s
  | _ => repr v
  end.

End Py.
Import Py.

(* ===================================================================== *)
(** ** The [requests] library, the clock and the effect monad             *)
(* ===================================================================== *)

Module Http.

(** One call of [requests.get], [.post], [.delete] or [.put].  [body] is
    the [json=] keyword argument: [None] when the call has none. *)
Record Request := {
  method : string;
  url : string;
  headers : gmap string string;
  body : option value
}.

(** The fields and methods of a [requests.Response] the code reads.
    [json] is the outcome of [response.json()]: the parsed body, or the
    decoding error it raises when the body is not valid JSON. *)
Record Response := {
  status_code : Z;
  reason : string;
  final_url : string;
  text : string;
  json : result value
}.

(** What a [requests] call comes back with: a response of any status, or
    a transport failure (connection refused, read timeout, ...), raised
    as a [RequestException] that is not an [HTTPError]. *)
Inductive Reply : Type :=
  | Answer (r : Response)
  | Unreachable (msg : string).

(** Everything outside the repository: the remote service ([respond n]
    answers the [n]-th request of the run), how long each request takes,
    and the runtime's [repr] of containers and [json.dumps(_, indent=2)]. *)
Record Host := {
  respond : nat -> Request -> Reply;
  latency : nat -> Z;
  repr : value -> string;
  dumps : value -> string
}.

(** The clock, and the requests sent so far in the order they left.  Time
    is counted in whole units, the unit of [time.sleep] and of the
    timeout; [time.time()] reads [now]. *)
Record World := {
  now : Z;
  outbox : list Request
}.

Definition M (A : Type) : Type := World -> result A * World.

#[global] Instance M_ret : MRet M := fun A a w => (Ok a, w).

#[global] Instance M_bind : MBind M := fun A B f m w =>
  match m w with
  | (Ok a, w') => f a w'
  | (Raise c msg, w') => (Raise c msg, w')
  end.

#[global] Instance result_ret : MRet result := fun A a => Ok a.

#[global] Instance result_bind : MBind result := fun A B f r =>
  match r with
  | Ok a => f a
  | Raise c msg => Raise c msg
  end.

Definition raise {A} (c : exn_class) (msg : string) : M A :=
  fun w => (Raise c msg, w).

(** A pure computation that may raise, run inside [M]. *)
Definition lift {A} (r : result A) : M A := fun w => (r, w).

(** [try: m  except Exception as e: handler(str(e))] *)
Definition try_except {A} (m : M A) (handler : string -> M A) : M A :=
  fun w =>
    match m w with
    | (Ok a, w') => (Ok a, w')
    | (Raise _ msg, w') => handler msg w'
    end.

Section WithHost.
Context (host : Host).

(** The world once the next request has left and its reply is in. *)
Definition sent (req : Request) (w : World) : World :=
  {| now := now w + latency host (length (outbox w));
     outbox := outbox w ++ [req] |}.

Definition send (req : Request) : M Response :=
  fun w =>
    match respond host (length (outbox w)) req with
    | Answer r => (Ok r, sent req w)
    | Unreachable msg => (Raise RequestException msg, sent req w)
    end.

Definition requests_get (u : string) (h : gmap string string) : M Response :=
  send {| method := "GET"; url := u; headers := h; body := None |}.

Definition requests_post (u : string) (h : gmap string string)
    (data : value) : M Response :=
  send {| method := "POST"; url := u; headers := h; body := Some data |}.

Definition requests_delete (u : string) (h : gmap string string) : M Response :=
  send {| method := "DELETE"; url := u; headers := h; body := None |}.

Definition requests_put (u : string) (h : gmap string string)
    (data : value) : M Response :=
  send {| method := "PUT"; url := u; headers := h; body := Some data |}.

End WithHost.

(** [Response.raise_for_status]: the text of the [HTTPError] it raises
    for a 4xx or 5xx status, [None] when it returns. *)
Definition raise_for_status (r : Response) : option string :=
  if (400 <=? status_code r) && (status_code r <? 500) then
    Some (pretty (status_code r) +:+ " Client Error: " +:+ reason r
            +:+ " for url: " +:+ final_url r)
  else if (500 <=? status_code r) && (status_code r <? 600) then
    Some (pretty (status_code r) +:+ " Server Error: " +:+ reason r
            +:+ " for url: " +:+ final_url r)
  else None.

Definition time_time : M Z := fun w => (Ok (now w), w).

Definition time_sleep (seconds : Z) : M unit :=
  fun w => (Ok tt, {| now := now w + seconds; outbox := outbox w |}).

End Http.
Import Http.

(* ===================================================================== *)
(** ** The parts of [DigitalOceanAPI] the two files have in common        *)
(* ===================================================================== *)

Module Client.

Definition BASE_URL : string := "https://api.digitalocean.com/v2".

Record DigitalOceanAPI := {
  api_token : string;
  api_headers : gmap string string
}.

Definition __init__ (token : string) : DigitalOceanAPI :=
  {| api_token := token;
     api_headers := {[ "Authorization" := "Bearer " +:+ token;
                       "Content-Type" := "application/json" ]} |}.

Section WithHost.
Context (host : Host).

(** The handler of [except requests.exceptions.HTTPError as e].  The
    only [HTTPError] is the one [raise_for_status] raises, so
    [e.response] is the response at hand (and has a [text]) and
    [str(e)] is [http_error_msg].  The inner [try] is the [result]
    computation; the bare [except:] replaces whatever it raised. *)
Definition error_msg_of (http_error_msg : string) (response : Response) : string :=
  let error_msg := "API Error: " +:+ http_error_msg in
  match
    (error_data ← json response;
     has_message ← contains error_data "message";
     if has_message : bool then
       message ← getitem error_data "message";
       mret ("API Error: " +:+ str (repr host) message)
     else mret error_msg)
  with
  | Ok error_msg' => error_msg'
  | Raise _ _ => "API Error: " +:+ text response
  end.

(** [_make_request]; [with_put] tells the two copies apart: the one in
    [mcp_server.py] has the [PUT] branch, the other has not. *)
Definition _make_request (with_put : bool) (self : DigitalOceanAPI)
    (method endpoint : string) (data : value) : M value :=
  let url := BASE_URL +:+ endpoint in
  response ←
    (if String.eqb (upper method) "GET" then
       requests_get host url (api_headers self)
     else if String.eqb (upper method) "POST" then
       requests_post host url (api_headers self) data
     else if String.eqb (upper method) "DELETE" then
       requests_delete host url (api_headers self)
     else if with_put && String.eqb (upper method) "PUT" then
       requests_put host url (api_headers self) data
     else raise ValueError ("Unsupported HTTP method: " +:+ method));
  match raise_for_status response with
  | None => lift (json response)
  | Some http_error_msg =>
      raise Exception (error_msg_of http_error_msg response)
  end.

End WithHost.

(** The condition of the comprehension in [get_gpu_sizes]:
    [size.get("description", "").lower().find("gpu") != -1] *)
Definition is_gpu_size (size : value) : result bool :=
  description ← get size "description" (PyStr "");
  match description with
  | PyStr s => mret (negb (find (lower s) "gpu" =? -1))
  | _ => no_attribute description "lower"
  end.

(** [[x for x in items if cond(x)]] over the elements of a list: the
    first element on which the condition raises ends the comprehension
    with that exception. *)
Fixpoint filter_list (cond : value -> result bool) (items : list value)
    : result (list value) :=
  match items with
  | [] => mret []
  | x :: rest =>
      keep ← cond x;
      kept ← filter_list cond rest;
      mret (if keep : bool then x :: kept else kept)
  end.

Fixpoint characters (s : string) : list value :=
  match s with
  | EmptyString => []
  | String c s' => PyStr (String c EmptyString) :: characters s'
  end.

(** The comprehension over whatever [items] is.  Iterating a dict yields
    its keys, iterating a string its characters; the other values are
    not iterable.  (The keys come in the order of [map_to_list], not in
    insertion order: both conditions below raise the same exception on
    every string, so the order does not show.) *)
Definition comprehension (cond : value -> result bool) (items : value)
    : result value :=
  match items with
  | PyList l => kept ← filter_list cond l; mret (PyList kept)
  | PyDict m =>
      kept ← filter_list cond (PyStr <$> (map_to_list m).*1); mret (PyList kept)
  | PyStr s => kept ← filter_list cond (characters s); mret (PyList kept)
  | _ => Raise TypeError ("'" +:+ type_name items +:+ "' object is not iterable")
  end.

(** The request body [create_droplet] assembles.  An argument the caller
    leaves out is [None] here and takes the default of the signature. *)
Definition droplet_data (name region size image : value)
    (ssh_keys tags user_data : option value)
    (monitoring ipv6 private_networking : option value) : gmap string value :=
  let ssh_keys := default PyNone ssh_keys in
  let tags := default PyNone tags in
  let user_data := default PyNone user_data in
  let monitoring := default (PyBool false) monitoring in
  let ipv6 := default (PyBool false) ipv6 in
  let private_networking := default (PyBool true) private_networking in
  let droplet_data : gmap string value :=
    {[ "name" := name;
       "region" := region;
       "size" := size;
       "image" := image;
       "monitoring" := monitoring;
       "ipv6" := ipv6;
       "private_networking" := private_networking ]} in
  let droplet_data :=
    if truthy ssh_keys then <["ssh_keys" := ssh_keys]> droplet_data
    else droplet_data in
  let droplet_data :=
    if truthy tags then <["tags" := tags]> droplet_data else droplet_data in
  let droplet_data :=
    if truthy user_data then <["user_data" := user_data]> droplet_data
    else droplet_data in
  droplet_data.

End Client.

(* ===================================================================== *)
(** ** [deploy_gpu_droplet.py]                                            *)
(* ===================================================================== *)

Module Deploy.
Import Client.

Section WithHost.
Context (host : Host).

Definition _make_request : DigitalOceanAPI -> string -> string -> value -> M value :=
  Client._make_request host false.

Definition get_regions (self : DigitalOceanAPI) : M value :=
  response ← _make_request self "GET" "/regions" PyNone;
  lift (get response "regions" (PyList [])).

Definition get_gpu_sizes (self : DigitalOceanAPI) : M value :=
  response ← _make_request self "GET" "/sizes" PyNone;
  sizes ← lift (get response "sizes" (PyList []));
  lift (comprehension is_gpu_size sizes).

Definition get_snapshot (self : DigitalOceanAPI) (snapshot_id : value) : M value :=
  response ← _make_request self "GET"
               ("/snapshots/" +:+ str (repr host) snapshot_id) PyNone;
  lift (get response "snapshot" (PyDict ∅)).

Definition create_droplet (self : DigitalOceanAPI)
    (name region size snapshot_id : value)
    (ssh_keys tags user_data : option value)
    (monitoring ipv6 private_networking : option value) : M value :=
  response ← _make_request self "POST" "/droplets"
               (PyDict (droplet_data name region size snapshot_id
                          ssh_keys tags user_data
                          monitoring ipv6 private_networking));
  lift (get response "droplet" (PyDict ∅)).

Definition get_droplet (self : DigitalOceanAPI) (droplet_id : value) : M value :=
  response ← _make_request self "GET"
               ("/droplets/" +:+ str (repr host) droplet_id) PyNone;
  lift (get response "droplet" (PyDict ∅)).

Definition entered_error_state (droplet_id : value) : string :=
  "Droplet " +:+ str (repr host) droplet_id +:+ " entered error state".

Definition did_not_become_active (droplet_id : value) (timeout : Z) : string :=
  "Droplet " +:+ str (repr host) droplet_id
    +:+ " did not become active within " +:+ pretty timeout +:+ " seconds".

(** The body of the [while] loop of [wait_for_droplet]: [Some droplet]
    is [return droplet], [None] is reaching the end of the body. *)
Definition poll_once (self : DigitalOceanAPI) (droplet_id : value)
    : M (option value) :=
  droplet ← get_droplet self droplet_id;
  status ← lift (get droplet "status" (PyStr ""));
  if eq_str status "active" then mret (Some droplet)
  else if eq_str status "error" then
    raise Exception (entered_error_state droplet_id)
  else
    _ ← time_sleep 5; mret None.

(** The [while] loop, at most [fuel] tests of its condition; [None]
    when they do not suffice. *)
Fixpoint wait_loop (fuel : nat) (self : DigitalOceanAPI) (droplet_id : value)
    (timeout start_time : Z) (w : World) : option (result value * World) :=
  match fuel with
  | O => None
  | S fuel' =>
      if now w - start_time <? timeout then
        match poll_once self droplet_id w with
        | (Ok (Some droplet), w') => Some (Ok droplet, w')
        | (Ok None, w') => wait_loop fuel' self droplet_id timeout start_time w'
        | (Raise c msg, w') => Some (Raise c msg, w')
        end
      else
        Some (Raise TimeoutError (did_not_become_active droplet_id timeout), w)
  end.

(** [wait_for_droplet(droplet_id, timeout=300)]; [timeout = None] is a
    call without the argument. *)
Definition wait_for_droplet (fuel : nat) (self : DigitalOceanAPI)
    (droplet_id : value) (timeout : option Z) (w : World)
    : option (result value * World) :=
  let timeout := default 300 timeout in
  let start_time := now w in
  wait_loop fuel self droplet_id timeout start_time w.

End WithHost.

(** [os.getenv(key, dflt)] and [os.getenv(key)] on the process
    environment *)
Definition getenv_or (environ : gmap string string) (key dflt : string) : string :=
  default dflt (environ !! key).

Definition getenv (environ : gmap string string) (key : string) : option string :=
  environ !! key.

(** [bool(os.getenv(key))]: set, and not to the empty string *)
Definition getenv_truthy (environ : gmap string string) (key : string) : bool :=
  match getenv environ key with
  | Some s => negb (String.eqb s "")
  | None => false
  end.

(** The [config] dictionary of [main] *)
Record Config := {
  droplet_name : string;
  region : string;
  size : string;
  snapshot_id : option string;
  ssh_keys : option (list string);
  tags : option (list string);
  monitoring : bool;
  ipv6 : bool;
  private_networking : bool;
  wait_for_active : bool
}.

Definition config (environ : gmap string string) : Config :=
  {| droplet_name := getenv_or environ "DROPLET_NAME" "gpu-droplet";
     region := getenv_or environ "DROPLET_REGION" "nyc1";
     size := getenv_or environ "DROPLET_SIZE" "g-2vcpu-16gb";
     snapshot_id := getenv environ "SNAPSHOT_ID";
     ssh_keys :=
       if getenv_truthy environ "SSH_KEYS"
       then Some (split (getenv_or environ "SSH_KEYS" "") ",")
       else None;
     tags :=
       if getenv_truthy environ "DROPLET_TAGS"
       then Some (split (getenv_or environ "DROPLET_TAGS" "") ",")
       else None;
     monitoring :=
       String.eqb (lower (getenv_or environ "MONITORING" "false")) "true";
     ipv6 := String.eqb (lower (getenv_or environ "IPV6" "false")) "true";
     private_networking :=
       String.eqb (lower (getenv_or environ "PRIVATE_NETWORKING" "true")) "true";
     wait_for_active :=
       String.eqb (lower (getenv_or environ "WAIT_FOR_ACTIVE" "true")) "true"
  |}.

End Deploy.

(* ===================================================================== *)
(** ** [mcp_server.py]                                                    *)
(* ===================================================================== *)

Module Server.
Import Client.

Record TextContent := { type : string; text : string }.

Record Tool := {
  name : string;
  description : string;
  inputSchema : value
}.

Definition no_properties : value :=
  PyDict {[ "type" := PyStr "object"; "properties" := PyDict ∅ ]}.

Definition property (ty descr : string) : value :=
  PyDict {[ "type" := PyStr ty; "description" := PyStr descr ]}.

Definition flag (descr : string) (dflt : bool) : value :=
  PyDict {[ "type" := PyStr "boolean"; "description" := PyStr descr;
            "default" := PyBool dflt ]}.

Definition string_array (descr : string) : value :=
  PyDict {[ "type" := PyStr "array";
            "items" := PyDict {[ "type" := PyStr "string" ]};
            "description" := PyStr descr ]}.

Definition one_required (key : string) (prop : value) : value :=
  PyDict {[ "type" := PyStr "object";
            "properties" := PyDict {[ key := prop ]};
            "required" := PyList [PyStr key] ]}.

(** [list_tools]: the catalog, in the order it is advertised *)
Definition list_tools : list Tool :=
  [ {| name := "do_list_regions";
       description := "List all available DigitalOcean regions";
       inputSchema := no_properties |};
    {| name := "do_list_sizes";
       description := "List all available droplet sizes (including GPU sizes)";
       inputSchema :=
         PyDict {[ "type" := PyStr "object";
                   "properties" :=
                     PyDict {[ "gpu_only" :=
                                 flag "If true, only return GPU-enabled sizes" false ]} ]} |};
    {| name := "do_list_snapshots";
       description := "List all available snapshots";
       inputSchema := no_properties |};
    {| name := "do_get_snapshot";
       description := "Get information about a specific snapshot by ID";
       inputSchema :=
         one_required "snapshot_id" (property "string" "Snapshot ID or slug") |};
    {| name := "do_list_droplets";
       description := "List all droplets in your account";
       inputSchema := no_properties |};
    {| name := "do_get_droplet";
       description := "Get information about a specific droplet by ID";
       inputSchema := one_required "droplet_id" (property "integer" "Droplet ID") |};
    {| name := "do_create_droplet";
       description := "Create a new droplet";
       inputSchema :=
         PyDict {[ "type" := PyStr "object";
                   "properties" :=
                     PyDict {[ "name" := property "string" "Droplet name";
                               "region" :=
                                 property "string" "Region slug (e.g., 'nyc1', 'sfo3')";
                               "size" :=
                                 property "string"
                                   "Droplet size slug (e.g., 's-1vcpu-1gb', 'g-2vcpu-16gb')";
                               "image" :=
                                 property "string" "Image ID, snapshot ID, or image slug";
                               "ssh_keys" :=
                                 string_array "Optional list of SSH key IDs or fingerprints";
                               "tags" := string_array "Optional list of tags";
                               "user_data" :=
                                 property "string" "Optional cloud-init user data";
                               "monitoring" := flag "Enable monitoring" false;
                               "ipv6" := flag "Enable IPv6" false;
                               "private_networking" :=
                                 flag "Enable private networking" true ]};
                   "required" :=
                     PyList [PyStr "name"; PyStr "region"; PyStr "size"; PyStr "image"] ]} |};
    {| name := "do_delete_droplet";
       description := "Delete a droplet by ID";
       inputSchema :=
         one_required "droplet_id" (property "integer" "Droplet ID to delete") |};
    {| name := "do_list_ssh_keys";
       description := "List all SSH keys in your account";
       inputSchema := no_properties |};
    {| name := "do_get_account_info";
       description := "Get account information";
       inputSchema := no_properties |} ].

(** [get_api_client]: the result, and the module-level [api_client]
    after the call. *)
Definition get_api_client (environ : gmap string string)
    (api_client : option DigitalOceanAPI)
    : result DigitalOceanAPI * option DigitalOceanAPI :=
  match api_client with
  | None =>
      match environ !! "DIGITALOCEAN_API_TOKEN" with
      | Some api_token =>
          if String.eqb api_token "" then
            (Raise ValueError
               "DIGITALOCEAN_API_TOKEN environment variable is not set", None)
          else (Ok (__init__ api_token), Some (__init__ api_token))
      | None =>
          (Raise ValueError
             "DIGITALOCEAN_API_TOKEN environment variable is not set", None)
      end
  | Some api => (Ok api, Some api)
  end.

(** The condition of the comprehension in [get_snapshots]:
    [img.get("type") == "snapshot"] *)
Definition is_snapshot (img : value) : result bool :=
  ty ← get img "type" PyNone;
  mret (eq_str ty "snapshot").

Section WithHost.
Context (host : Host).

Definition _make_request : DigitalOceanAPI -> string -> string -> value -> M value :=
  Client._make_request host true.

Definition get_regions (self : DigitalOceanAPI) : M value :=
  response ← _make_request self "GET" "/regions" PyNone;
  lift (get response "regions" (PyList [])).

Definition get_sizes (self : DigitalOceanAPI) : M value :=
  response ← _make_request self "GET" "/sizes" PyNone;
  lift (get response "sizes" (PyList [])).

Definition get_gpu_sizes (self : DigitalOceanAPI) : M value :=
  sizes ← get_sizes self;
  lift (comprehension is_gpu_size sizes).

Definition get_images (self : DigitalOceanAPI) : M value :=
  response ← _make_request self "GET" "/images" PyNone;
  lift (get response "images" (PyList [])).

Definition get_snapshots (self : DigitalOceanAPI) : M value :=
  images ← get_images self;
  lift (comprehension is_snapshot images).

Definition get_snapshot (self : DigitalOceanAPI) (snapshot_id : value) : M value :=
  response ← _make_request self "GET"
               ("/snapshots/" +:+ str (repr host) snapshot_id) PyNone;
  lift (get response "snapshot" (PyDict ∅)).

Definition get_droplets (self : DigitalOceanAPI) : M value :=
  response ← _make_request self "GET" "/droplets" PyNone;
  lift (get response "droplets" (PyList [])).

Definition get_droplet (self : DigitalOceanAPI) (droplet_id : value) : M value :=
  response ← _make_request self "GET"
               ("/droplets/" +:+ str (repr host) droplet_id) PyNone;
  lift (get response "droplet" (PyDict ∅)).

Definition create_droplet (self : DigitalOceanAPI)
    (name region size image : value)
    (ssh_keys tags user_data : option value)
    (monitoring ipv6 private_networking : option value) : M value :=
  response ← _make_request self "POST" "/droplets"
               (PyDict (droplet_data name region size image
                          ssh_keys tags user_data
                          monitoring ipv6 private_networking));
  lift (get response "droplet" (PyDict ∅)).

Definition delete_droplet (self : DigitalOceanAPI) (droplet_id : value) : M value :=
  _make_request self "DELETE"
    ("/droplets/" +:+ str (repr host) droplet_id) PyNone.

Definition get_ssh_keys (self : DigitalOceanAPI) : M value :=
  response ← _make_request self "GET" "/account/keys" PyNone;
  lift (get response "ssh_keys" (PyList [])).

Definition get_account_info (self : DigitalOceanAPI) : M value :=
  response ← _make_request self "GET" "/account" PyNone;
  lift (get response "account" (PyDict ∅)).

(** [[TextContent(type="text", text=json.dumps(v, indent=2))]] *)
Definition as_json (v : value) : list TextContent :=
  [ {| type := "text"; text := dumps host v |} ].

Definition as_text (s : string) : list TextContent :=
  [ {| type := "text"; text := s |} ].

(** [arguments.get(key)] and [arguments.get(key, dflt)] on the
    arguments dictionary *)
Definition arg (arguments : gmap string value) (key : string) : value :=
  default PyNone (arguments !! key).

Definition arg_or (arguments : gmap string value) (key : string)
    (dflt : value) : value :=
  default dflt (arguments !! key).

(** The [if]/[elif] chain inside the second [try] of [call_tool] *)
Definition dispatch (api : DigitalOceanAPI) (name : string)
    (arguments : gmap string value) : M (list TextContent) :=
  if String.eqb name "do_list_regions" then
    regions ← get_regions api; mret (as_json regions)
  else if String.eqb name "do_list_sizes" then
    let gpu_only := arg_or arguments "gpu_only" (PyBool false) in
    sizes ← (if truthy gpu_only then get_gpu_sizes api else get_sizes api);
    mret (as_json sizes)
  else if String.eqb name "do_list_snapshots" then
    snapshots ← get_snapshots api; mret (as_json snapshots)
  else if String.eqb name "do_get_snapshot" then
    let snapshot_id := arg arguments "snapshot_id" in
    snapshot ← get_snapshot api snapshot_id; mret (as_json snapshot)
  else if String.eqb name "do_list_droplets" then
    droplets ← get_droplets api; mret (as_json droplets)
  else if String.eqb name "do_get_droplet" then
    let droplet_id := arg arguments "droplet_id" in
    droplet ← get_droplet api droplet_id; mret (as_json droplet)
  else if String.eqb name "do_create_droplet" then
    arg_name ← lift (getitem (PyDict arguments) "name");
    arg_region ← lift (getitem (PyDict arguments) "region");
    arg_size ← lift (getitem (PyDict arguments) "size");
    arg_image ← lift (getitem (PyDict arguments) "image");
    droplet ← create_droplet api arg_name arg_region arg_size arg_image
                (Some (arg arguments "ssh_keys"))
                (Some (arg arguments "tags"))
                (Some (arg arguments "user_data"))
                (Some (arg_or arguments "monitoring" (PyBool false)))
                (Some (arg_or arguments "ipv6" (PyBool false)))
                (Some (arg_or arguments "private_networking" (PyBool true)));
    mret (as_json droplet)
  else if String.eqb name "do_delete_droplet" then
    let droplet_id := arg arguments "droplet_id" in
    result ← delete_droplet api droplet_id; mret (as_json result)
  else if String.eqb name "do_list_ssh_keys" then
    ssh_keys ← get_ssh_keys api; mret (as_json ssh_keys)
  else if String.eqb name "do_get_account_info" then
    account ← get_account_info api; mret (as_json account)
  else
    mret (as_text ("Unknown tool: " +:+ name)).

(** [call_tool]: what it returns or raises, the module-level
    [api_client] afterwards, and the world afterwards. *)
Definition call_tool (environ : gmap string string)
    (name : string) (arguments : gmap string value)
    (api_client : option DigitalOceanAPI) (w : World)
    : result (list TextContent) * option DigitalOceanAPI * World :=
  match get_api_client environ api_client with
  | (Raise c msg, api_client') =>
      if decide (c = ValueError)
      then (Ok (as_text ("Error: " +:+ msg)), api_client', w)
      else (Raise c msg, api_client', w)
  | (Ok api, api_client') =>
      let (outcome, w') :=
        try_except (dispatch api name arguments)
          (fun msg => mret (as_text ("Error: " +:+ msg))) w in
      (outcome, api_client', w')
  end.

End WithHost.

End Server.

(* ===================================================================== *)
(** ** Simulated hosts for the examples                                   *)
(* ===================================================================== *)

Module Sim.

(** A response with the given status whose body parses to [v]. *)
Definition response (code : Z) (phrase : string) (v : value) : Response :=
  {| status_code := code; reason := phrase;
     final_url := "https://api.digitalocean.com/v2";
     text := "<json>"; json := Ok v |}.

(** A response with the given status whose body is not JSON. *)
Definition garbled (code : Z) (phrase raw : string) : Response :=
  {| status_code := code; reason := phrase;
     final_url := "https://api.digitalocean.com/v2";
     text := raw;
     json := Raise JSONDecodeError "Expecting value: line 1 column 1 (char 0)" |}.

Definition ok (v : value) : Reply := Answer (response 200 "OK" v).

(** A droplet document with the given status, in its envelope. *)
Definition droplet (status : string) : value :=
  PyDict {[ "status" := PyStr status ]}.

Definition droplet_reply (status : string) : Reply :=
  ok (PyDict {[ "droplet" := droplet status ]}).

(** The host that answers the [n]-th request with the [n]-th reply of a
    script, at once, and is unreachable when the script is over.  The
    runtime functions are those of [rt]. *)
Definition scripted (replies : list Reply) (rt : Host) : Host :=
  {| respond n _ := default (Unreachable "script exhausted") (replies !! n);
     latency _ := 0;
     repr := repr rt;
     dumps := dumps rt |}.

(** A host that is never reachable, with runtime functions that print
    nothing. *)
Definition offline : Host :=
  {| respond _ _ := Unreachable "offline";
     latency _ := 0;
     repr _ := "";
     dumps _ := "" |}.

(** The world at the start of a run *)
Definition dawn : World := {| now := 0; outbox := [] |}.

End Sim.

(* ===================================================================== *)
(** ** Vocabulary of the specification                                    *)
(* ===================================================================== *)

(** [needle] occurs in [s] when the case of the ASCII letters is ignored:
    some stretch of [s] lower-cases to [needle]. *)
Definition occurs_caseless (needle s : string) : Prop :=
  exists pre mid suf, s = pre +:+ mid +:+ suf /\ lower mid = needle.

(** The sixteen spellings of the word [true]. *)
Definition true_spellings : list string :=
  [ "true"; "truE"; "trUe"; "trUE"; "tRue"; "tRuE"; "tRUe"; "tRUE";
    "True"; "TruE"; "TrUe"; "TrUE"; "TRue"; "TRuE"; "TRUe"; "TRUE" ].

(** How a flag relates to its variable: set, the flag is on exactly for
    the spellings of [true]; unset, the flag is [unset_default]. *)
Definition flag_reads (environ : gmap string string) (key : string)
    (unset_default flag : bool) : Prop :=
  match environ !! key with
  | Some v => flag = true <-> v ∈ true_spellings
  | None => flag = unset_default
  end.


(** A size as the provider documents it: a dictionary whose description,
    when there is one, is a string. *)
Definition size_document (size : value) : Prop :=
  exists m, size = PyDict m /\
    (m !! "description" = None \/ exists s, m !! "description" = Some (PyStr s)).

Definition description_of (size : value) : string :=
  match size with
  | PyDict m => match m !! "description" with Some (PyStr s) => s | _ => "" end
  | _ => ""
  end.

Definition gpu_enabled (size : value) : Prop :=
  occurs_caseless "gpu" (description_of size).

(** [keeps P l kept]: [kept] holds exactly the entries of [l] that satisfy
    [P], as often and in the order they occur in [l]. *)
Inductive keeps {A : Type} (P : A -> Prop) : list A -> list A -> Prop :=
  | keeps_nil : keeps P [] []
  | keeps_take x l kept : P x -> keeps P l kept -> keeps P (x :: l) (x :: kept)
  | keeps_drop x l kept : ~ P x -> keeps P l kept -> keeps P (x :: l) kept.

(** The [GET] request the client sends for an endpoint *)
Definition get_request (api : Client.DigitalOceanAPI) (endpoint : string) : Request :=
  {| method := "GET"; url := Client.BASE_URL +:+ endpoint;
     headers := Client.api_headers api; body := None |}.

(** A size document with the given description *)
Definition size_described (slug descr : string) : value :=
  PyDict {[ "slug" := PyStr slug; "description" := PyStr descr ]}.

(** The [POST] request the client sends for an endpoint and a body *)
Definition post_request (api : Client.DigitalOceanAPI) (endpoint : string)
    (data : value) : Request :=
  {| method := "POST"; url := Client.BASE_URL +:+ endpoint;
     headers := Client.api_headers api; body := Some data |}.

(** An optional input of create-droplet that is absent (left out, or
    [None]) or empty (no element, no character). *)
Definition absent_or_empty (given : option value) : Prop :=
  given = None \/ given = Some PyNone \/
  given = Some (PyList []) \/ given = Some (PyStr "").

(** An optional input of create-droplet supplied as a list with an element
    or as a string with a character. *)
Definition supplied (given : option value) (v : value) : Prop :=
  given = Some v /\
  ((exists x l, v = PyList (x :: l)) \/ (exists c s, v = PyStr (String c s))).

(** The methods a copy of [_make_request] has a branch for, in any mix of
    cases. *)
Definition supported (with_put : bool) (method : string) : Prop :=
  upper method = "GET" \/ upper method = "POST" \/ upper method = "DELETE" \/
  (with_put = true /\ upper method = "PUT").

(** A response [raise_for_status] rejects: a 4xx or a 5xx. *)
Definition non_success (r : Response) : Prop :=
  400 <= status_code r < 600.

(** The names of the catalog *)
Definition catalog_names : list string := Server.name <$> Server.list_tools.

(** No usable credential in the environment: the variable is unset, or
    set to the empty string. *)
Definition credential_absent (environ : gmap string string) : Prop :=
  environ !! "DIGITALOCEAN_API_TOKEN" = None \/
  environ !! "DIGITALOCEAN_API_TOKEN" = Some "".

Definition credential_error : list Server.TextContent :=
  Server.as_text "Error: DIGITALOCEAN_API_TOKEN environment variable is not set".

(** The arguments create-droplet reads with [arguments[...]], in the order
    it reads them *)
Definition create_required : list string := ["name"; "region"; "size"; "image"].

(** [client_ready environ api_client api]: a call finds the client [api],
    either the one created earlier or one it can create from the
    credential in the environment. *)
Definition client_ready (environ : gmap string string)
    (api_client : option Client.DigitalOceanAPI) (api : Client.DigitalOceanAPI) : Prop :=
  api_client = Some api \/
  (api_client = None /\
   exists t, environ !! "DIGITALOCEAN_API_TOKEN" = Some t /\ t <> "" /\
             api = Client.__init__ t).

(** *** The poll loop, poll by poll *)

Section Polling.
Context (host : Host) (api : Client.DigitalOceanAPI) (droplet_id : value).

(** What the poll taken in world [w] fetches, and the world once it is
    back *)
Definition polled (w : World) : result value :=
  (Deploy.get_droplet host api droplet_id w).1.

Definition fetched (w : World) : World :=
  (Deploy.get_droplet host api droplet_id w).2.

(** The poll taken in [w] fetches the document [d], whose status reads
    [s]. *)
Definition poll_reads (w : World) (d s : value) : Prop :=
  polled w = Ok d /\ get d "status" (PyStr "") = Ok s.

Definition active_at (w : World) (d : value) : Prop :=
  poll_reads w d (PyStr "active").

Definition error_at (w : World) (d : value) : Prop :=
  poll_reads w d (PyStr "error").

Definition pending_at (w : World) : Prop :=
  exists d s, poll_reads w d s /\ s <> PyStr "active" /\ s <> PyStr "error".

(** One round of the loop that finds the droplet pending: the fetch, then
    the sleep of 5. *)
Definition round (w : World) : World := (time_sleep 5 (fetched w)).2.

Fixpoint after_rounds (n : nat) (w : World) : World :=
  match n with
  | O => w
  | S n' => after_rounds n' (round w)
  end.

(** The request of every poll *)
Definition poll_request : Request :=
  get_request api ("/droplets/" +:+ str (repr host) droplet_id).

End Polling.

(** The host that gives every request the same reply, at once *)
Definition steady (reply : Reply) (rt : Host) : Host :=
  {| respond _ _ := reply; latency _ := 0; repr := repr rt; dumps := dumps rt |}.

(* ===================================================================== *)
(** ** Vocabulary for the rest of the client                              *)
(* ===================================================================== *)

(** The request [_make_request] hands to [requests] for a supported
    method: the verb in upper case, the endpoint under the base URL, the
    client's headers, and the data as body for POST and PUT only. *)
Definition request_of (api : Client.DigitalOceanAPI) (method endpoint : string)
    (data : value) : Request :=
  {| method := upper method;
     url := Client.BASE_URL +:+ endpoint;
     headers := Client.api_headers api;
     body := if String.eqb (upper method) "POST" || String.eqb (upper method) "PUT"
             then Some data else None |}.

(** The text of the [HTTPError] for a 4xx or 5xx response *)
Definition status_line (r : Response) : string :=
  pretty (status_code r)
    +:+ (if status_code r <? 500 then " Client Error: " else " Server Error: ")
    +:+ reason r +:+ " for url: " +:+ final_url r.

(** A JSON value that is neither an object, an array nor a string *)
Definition scalar (v : value) : Prop :=
  match v with
  | PyNone | PyBool _ | PyInt _ => True
  | _ => False
  end.

(** An image whose type field is the string snapshot *)
Definition snapshot_image (img : value) : Prop :=
  exists m, img = PyDict m /\ m !! "type" = Some (PyStr "snapshot").

Definition dictionary (v : value) : Prop := exists m, v = PyDict m.

(** The remote service answers the next request, a GET of [endpoint],
    with a success whose body parses to [v]. *)
Definition answers_get (host : Host) (api : Client.DigitalOceanAPI) (w : World)
    (endpoint : string) (v : value) : Prop :=
  exists r, respond host (length (outbox w)) (get_request api endpoint) = Answer r /\
            raise_for_status r = None /\ json r = Ok v.

(** A size entry the condition of the GPU filter cannot handle: not a
    dictionary, or with a description that is not a string. *)
Definition malformed_size (size : value) : Prop :=
  ~ dictionary size \/
  exists m d, size = PyDict m /\ m !! "description" = Some d /\
              forall s, d <> PyStr s.

(** The [DELETE] request the client sends for an endpoint *)
Definition delete_request (api : Client.DigitalOceanAPI) (endpoint : string) : Request :=
  {| method := "DELETE"; url := Client.BASE_URL +:+ endpoint;
     headers := Client.api_headers api; body := None |}.

(** The request each tool of the catalog makes, [None] for a name the
    dispatcher does not know.  Create-droplet is listed with the body it
    sends when its four required arguments are there. *)
Definition tool_request (host : Host) (api : Client.DigitalOceanAPI)
    (name : string) (arguments : gmap string value) : option Request :=
  let id_of key := str (repr host) (default PyNone (arguments !! key)) in
  if String.eqb name "do_list_regions" then Some (get_request api "/regions")
  else if String.eqb name "do_list_sizes" then Some (get_request api "/sizes")
  else if String.eqb name "do_list_snapshots" then Some (get_request api "/images")
  else if String.eqb name "do_get_snapshot" then
    Some (get_request api ("/snapshots/" +:+ id_of "snapshot_id"))
  else if String.eqb name "do_list_droplets" then Some (get_request api "/droplets")
  else if String.eqb name "do_get_droplet" then
    Some (get_request api ("/droplets/" +:+ id_of "droplet_id"))
  else if String.eqb name "do_create_droplet" then
    Some (post_request api "/droplets"
            (PyDict (Client.droplet_data
                       (default PyNone (arguments !! "name"))
                       (default PyNone (arguments !! "region"))
                       (default PyNone (arguments !! "size"))
                       (default PyNone (arguments !! "image"))
                       (Some (default PyNone (arguments !! "ssh_keys")))
                       (Some (default PyNone (arguments !! "tags")))
                       (Some (default PyNone (arguments !! "user_data")))
                       (Some (default (PyBool false) (arguments !! "monitoring")))
                       (Some (default (PyBool false) (arguments !! "ipv6")))
                       (Some (default (PyBool true) (arguments !! "private_networking"))))))
  else if String.eqb name "do_delete_droplet" then
    Some (delete_request api ("/droplets/" +:+ id_of "droplet_id"))
  else if String.eqb name "do_list_ssh_keys" then Some (get_request api "/account/keys")
  else if String.eqb name "do_get_account_info" then Some (get_request api "/account")
  else None.

(** The arguments a call needs to get as far as its request: the four
    required ones for create-droplet, none for the other tools. *)
Definition arguments_complete (name : string) (arguments : gmap string value) : Prop :=
  name = "do_create_droplet" -> forall key, key ∈ create_required -> is_Some (arguments !! key).

(** The keys every create-droplet body has *)
Definition base_keys : gset string :=
  {[ "name"; "region"; "size"; "image"; "monitoring"; "ipv6"; "private_networking" ]}.

(** The key of an optional input, when the input is sent *)
Definition optional_key (key : string) (given : option value) : gset string :=
  if truthy (default PyNone given) then {[ key ]} else ∅.

(** *** How a run of the poll loop can end *)

Section PollOutcomes.
Context (host : Host) (api : Client.DigitalOceanAPI) (droplet_id : value).

(** The poll taken in [w] fails: the fetch raises, or the fetched value
    is not a dictionary and reading its status raises. *)
Definition poll_fails (w : World) (c : exn_class) (msg : string) : Prop :=
  polled host api droplet_id w = Raise c msg \/
  exists d, polled host api droplet_id w = Ok d /\
            get d "status" (PyStr "") = Raise c msg.

(** What the poll taken in [w] makes of the loop when it does not fall
    through to the next round: [r] is what [wait_for_droplet] then returns
    or raises. *)
Definition poll_ends (w : World) (r : result value) : Prop :=
  (exists d, r = Ok d /\ active_at host api droplet_id w d) \/
  (exists d, r = Raise Exception (Deploy.entered_error_state host droplet_id) /\
             error_at host api droplet_id w d) \/
  (exists c msg, r = Raise c msg /\ poll_fails w c msg).

(** [ends_after timeout start n w r w']: the run from [w] makes [n] rounds
    that find the droplet pending, each within budget, and then ends with
    [r] in world [w']: by the timeout, before any further fetch, or by the
    next poll. *)
Definition ends_after (timeout start_time : Z) (n : nat) (w : World)
    (r : result value) (w' : World) : Prop :=
  (forall i, (i < n)%nat ->
     pending_at host api droplet_id (after_rounds host api droplet_id i w) /\
     now (after_rounds host api droplet_id i w) - start_time < timeout) /\
  let wn := after_rounds host api droplet_id n w in
  ((timeout <= now wn - start_time /\
    r = Raise TimeoutError (Deploy.did_not_become_active host droplet_id timeout) /\
    w' = wn) \/
   (now wn - start_time < timeout /\ poll_ends wn r /\
    w' = fetched host api droplet_id wn)).

End PollOutcomes.

(* ===================================================================== *)
(** ** [deploy_gpu_droplet.py]: [main]                                    *)
(* ===================================================================== *)

Module Script.
Import Client.

(** The process as [main] sees it: the lines written to the standard
    stream and to the error stream, one entry per [print], and the world
    of the client. *)
Record Process := {
  stdout : list string;
  stderr : list string;
  world : World
}.

(** How [main] ends: by returning, or by [sys.exit(code)]. *)
Inductive Ending : Type :=
  | Returns
  | Exits (code : Z).

(** The exit status of the process *)
Definition exit_status (e : Ending) : Z :=
  match e with
  | Returns => 0
  | Exits code => code
  end.

(** Statements of [main]: they may raise, and they may run out of the
    fuel of the poll loop ([None]). *)
Definition S (A : Type) : Type := Process -> option (result A * Process).

#[global] Instance S_ret : MRet S := fun A a p => Some (Ok a, p).

#[global] Instance S_bind : MBind S := fun A B f m p =>
  match m p with
  | Some (Ok a, p') => f a p'
  | Some (Raise c msg, p') => Some (Raise c msg, p')
  | None => None
  end.

(** The process once a line is printed, once a line is printed to the
    error stream, and once the client has moved the world on *)
Definition said (line : string) (p : Process) : Process :=
  {| stdout := stdout p ++ [line]; stderr := stderr p; world := world p |}.

Definition complain (line : string) (p : Process) : Process :=
  {| stdout := stdout p; stderr := stderr p ++ [line]; world := world p |}.

Definition moved (w' : World) (p : Process) : Process :=
  {| stdout := stdout p; stderr := stderr p; world := w' |}.

(** [print(line)] *)
Definition say (line : string) : S unit := fun p => Some (Ok tt, said line p).

(** A call of the client *)
Definition call {A} (m : M A) : S A :=
  fun p => let (r, w') := m (world p) in Some (r, moved w' p).

(** An expression that may raise *)
Definition eval {A} (r : result A) : S A := fun p => Some (r, p).

Definition nl : string := String (ascii_of_nat 10) EmptyString.

(** [s * n] *)
Fixpoint times (s : string) (n : nat) : string :=
  match n with
  | O => EmptyString
  | Datatypes.S n' => s +:+ times s n'
  end.

(** [for x in items: body(x)] over the elements of a list *)
Fixpoint for_each (items : list value) (body : value -> S unit) : S unit :=
  match items with
  | [] => mret tt
  | x :: rest => _ ← body x; for_each rest body
  end.

(** What a [for] loop iterates over: the elements of a list, the keys of
    a dictionary (in the order of [map_to_list]), the characters of a
    string; the other values are not iterable. *)
Definition iterate (v : value) : result (list value) :=
  match v with
  | PyList l => Ok l
  | PyDict m => Ok (PyStr <$> (map_to_list m).*1)
  | PyStr s => Ok (characters s)
  | _ => Raise TypeError ("'" +:+ type_name v +:+ "' object is not iterable")
  end.

(** [v[:5]] for the list [get_gpu_sizes] returns; the other values do not
    come out of it. *)
Definition first_five (v : value) : result (list value) :=
  match v with
  | PyList l => Ok (take 5 l)
  | _ => Raise TypeError ("'" +:+ type_name v +:+ "' object is not subscriptable")
  end.

(** [v.upper()] *)
Definition str_upper (v : value) : result string :=
  match v with
  | PyStr s => Ok (upper s)
  | _ => no_attribute v "upper"
  end.

(** [config["ssh_keys"]] and [config["tags"]] as Python values *)
Definition list_value (l : option (list string)) : value :=
  match l with
  | Some keys => PyList (PyStr <$> keys)
  | None => PyNone
  end.

Section WithHost.
Context (host : Host).

Definition show (v : value) : string := str (repr host) v.

(** Lines 231 to 234: the snapshot is looked up. *)
Definition verify_snapshot (api : DigitalOceanAPI) (snapshot_id : string) : S unit :=
  _ ← say ("Verifying snapshot: " +:+ snapshot_id);
  snapshot ← call (Deploy.get_snapshot host api (PyStr snapshot_id));
  name ← eval (get snapshot "name" (PyStr "N/A"));
  id ← eval (get snapshot "id" (PyStr "N/A"));
  say ("Snapshot found: " +:+ show name +:+ " (" +:+ show id +:+ ")").

(** Lines 236 to 244: the GPU sizes are listed, five at most. *)
Definition show_gpu_sizes (api : DigitalOceanAPI) : S unit :=
  _ ← say (nl +:+ "Fetching available GPU sizes...");
  gpu_sizes ← call (Deploy.get_gpu_sizes host api);
  if truthy gpu_sizes then
    _ ← say "Available GPU sizes:";
    shown ← eval (first_five gpu_sizes);
    for_each shown (fun size =>
      slug ← eval (get size "slug" PyNone);
      description ← eval (get size "description" PyNone);
      say ("  - " +:+ show slug +:+ ": " +:+ show description))
  else
    say "Warning: No GPU sizes found. Make sure you're using a GPU-enabled size slug.".

(** The call of [create_droplet] in [main]: [user_data] is not passed. *)
Definition create_from_config (api : DigitalOceanAPI) (config : Deploy.Config)
    (snapshot_id : string) : M value :=
  Deploy.create_droplet host api
    (PyStr (Deploy.droplet_name config))
    (PyStr (Deploy.region config))
    (PyStr (Deploy.size config))
    (PyStr snapshot_id)
    (Some (list_value (Deploy.ssh_keys config)))
    (Some (list_value (Deploy.tags config)))
    None
    (Some (PyBool (Deploy.monitoring config)))
    (Some (PyBool (Deploy.ipv6 config)))
    (Some (PyBool (Deploy.private_networking config))).

(** Lines 246 to 268: the droplet is created; the result is the droplet
    and its id. *)
Definition create (api : DigitalOceanAPI) (config : Deploy.Config)
    (snapshot_id : string) : S (value * value) :=
  _ ← say (nl +:+ "Creating droplet '" +:+ Deploy.droplet_name config +:+ "'...");
  _ ← say ("  Region: " +:+ Deploy.region config);
  _ ← say ("  Size: " +:+ Deploy.size config);
  _ ← say ("  Snapshot: " +:+ snapshot_id);
  droplet ← call (create_from_config api config snapshot_id);
  droplet_id ← eval (get droplet "id" PyNone);
  _ ← say (nl +:+ "✓ Droplet created successfully!");
  _ ← say ("  Droplet ID: " +:+ show droplet_id);
  name ← eval (get droplet "name" PyNone);
  _ ← say ("  Name: " +:+ show name);
  status ← eval (get droplet "status" PyNone);
  _ ← say ("  Status: " +:+ show status);
  mret (droplet, droplet_id).

(** Lines 272 to 285: the wait, with the default timeout, and the
    addresses of the active droplet. *)
Definition await (fuel : nat) (api : DigitalOceanAPI) (droplet_id : value) : S value :=
  _ ← say (nl +:+ "Waiting for droplet to become active...");
  droplet ← (fun p =>
               match Deploy.wait_for_droplet host fuel api droplet_id None (world p) with
               | Some (r, w') => Some (r, moved w' p)
               | None => None
               end);
  _ ← say "✓ Droplet is now active!";
  networks ← eval (get droplet "networks" (PyDict ∅));
  v4_addresses ← eval (get networks "v4" (PyList []));
  _ ← (if truthy v4_addresses then
         _ ← say (nl +:+ "Network Information:");
         addresses ← eval (iterate v4_addresses);
         for_each addresses (fun addr =>
           addr_type ← eval (get addr "type" (PyStr "unknown"));
           ip ← eval (get addr "ip_address" (PyStr "N/A"));
           shouted ← eval (str_upper addr_type);
           say ("  " +:+ shouted +:+ ": " +:+ show ip))
       else mret tt);
  mret droplet.

(** Lines 287 to 290: the droplet is written out. *)
Definition report (droplet : value) : S unit :=
  _ ← say (nl +:+ times "=" 50);
  _ ← say "Droplet Information (JSON):";
  say (dumps host droplet).

(** The [try] block of [main] *)
Definition attempt (fuel : nat) (api : DigitalOceanAPI) (config : Deploy.Config)
    (snapshot_id : string) : S unit :=
  _ ← verify_snapshot api snapshot_id;
  _ ← show_gpu_sizes api;
  created ← create api config snapshot_id;
  droplet ← (if Deploy.wait_for_active config
             then await fuel api created.2
             else mret created.1);
  report droplet.

(** The two lines and the [sys.exit(1)] of a missing setting *)
Definition refuse (first second : string) (p : Process) : option (Ending * Process) :=
  match (_ ← say first; say second) p with
  | Some (_, p') => Some (Exits 1, p')
  | None => None
  end.

Definition snapshot_required : Process -> option (Ending * Process) :=
  refuse "Error: SNAPSHOT_ID environment variable is required"
         "Please set it using: export SNAPSHOT_ID='snapshot-id-or-slug'".

(** [main]: how it ends and the process afterwards, [None] when the fuel
    of the poll loop does not suffice. *)
Definition main (fuel : nat) (environ : gmap string string) (p : Process)
    : option (Ending * Process) :=
  if negb (Deploy.getenv_truthy environ "DIGITALOCEAN_API_TOKEN") then
    refuse "Error: DIGITALOCEAN_API_TOKEN environment variable not set"
           "Please set it using: export DIGITALOCEAN_API_TOKEN='your-token'" p
  else
    let api_token := Deploy.getenv_or environ "DIGITALOCEAN_API_TOKEN" "" in
    let config := Deploy.config environ in
    match Deploy.snapshot_id config with
    | None => snapshot_required p
    | Some snapshot_id =>
        if String.eqb snapshot_id "" then snapshot_required p
        else
          match
            (_ ← say "Initializing DigitalOcean API client...";
             attempt fuel (__init__ api_token) config snapshot_id) p
          with
          | Some (Ok _, p') => Some (Returns, p')
          | Some (Raise _ msg, p') =>
              Some (Exits 1, complain (nl +:+ "✗ Error: " +:+ msg) p')
          | None => None
          end
    end.

End WithHost.

End Script.

(** [sep.join(pieces)] *)
Fixpoint join (sep : string) (pieces : list string) : string :=
  match pieces with
  | [] => EmptyString
  | [piece] => piece
  | piece :: rest => piece +:+ sep +:+ join sep rest
  end.

(** The character [c] occurs in [s]. *)
Definition has_char (c : ascii) (s : string) : Prop :=
  In c (String.list_ascii_of_string s).

(** How a list setting relates to its variable: unset or empty, there is
    no list; otherwise the list is not empty, its pieces hold no comma,
    and joined by commas they give the variable back. *)
Definition list_reads (environ : gmap string string) (key : string)
    (setting : option (list string)) : Prop :=
  match environ !! key with
  | None => setting = None
  | Some v =>
      if String.eqb v "" then setting = None
      else exists pieces,
             setting = Some pieces /\ pieces <> [] /\
             join "," pieces = v /\
             Forall (fun piece => ~ has_char "," piece) pieces
  end.

(** A statement that ends, touches neither the world nor the error stream,
    and only adds to what is printed *)
Definition quiet {A : Type} (m : Script.S A) : Prop :=
  forall p, exists r p',
    m p = Some (r, p') /\ Script.world p' = Script.world p /\
    Script.stderr p' = Script.stderr p.

(** The requests of a run of [main], in the order it makes them *)
Definition snapshot_request (api : Client.DigitalOceanAPI) (snapshot_id : string) : Request :=
  get_request api ("/snapshots/" +:+ snapshot_id).

Definition sizes_request (api : Client.DigitalOceanAPI) : Request :=
  get_request api "/sizes".

(** The body of the creation request of [main] *)
Definition creation_body (config : Deploy.Config) (snapshot_id : string)
    : gmap string value :=
  Client.droplet_data
    (PyStr (Deploy.droplet_name config)) (PyStr (Deploy.region config))
    (PyStr (Deploy.size config)) (PyStr snapshot_id)
    (Some (Script.list_value (Deploy.ssh_keys config)))
    (Some (Script.list_value (Deploy.tags config)))
    None
    (Some (PyBool (Deploy.monitoring config)))
    (Some (PyBool (Deploy.ipv6 config)))
    (Some (PyBool (Deploy.private_networking config))).

Definition creation_request (api : Client.DigitalOceanAPI) (config : Deploy.Config)
    (snapshot_id : string) : Request :=
  post_request api "/droplets" (PyDict (creation_body config snapshot_id)).

(** The credential and the snapshot id are both set and not empty. *)
Definition configured (environ : gmap string string) (token snapshot_id : string) : Prop :=
  environ !! "DIGITALOCEAN_API_TOKEN" = Some token /\ token <> "" /\
  environ !! "SNAPSHOT_ID" = Some snapshot_id /\ snapshot_id <> "".

(** A setting that is unset or empty *)
Definition unset_or_empty (environ : gmap string string) (key : string) : Prop :=
  environ !! key = None \/ environ !! key = Some "".

(** An address entry [main] can print: a dictionary whose type, when
    there is one, is a string. *)
Definition address_entry (addr : value) : Prop :=
  exists ma, addr = PyDict ma /\
    (ma !! "type" = None \/ exists s, ma !! "type" = Some (PyStr s)).

(** A droplet whose addresses [main] can print: a dictionary without
    networks, or with networks that are a dictionary without a v4 entry
    or with a list of address entries under it. *)
Definition networks_printable (droplet : value) : Prop :=
  exists m, droplet = PyDict m /\
    match m !! "networks" with
    | None => True
    | Some (PyDict mn) =>
        match mn !! "v4" with
        | None => True
        | Some (PyList addrs) => Forall address_entry addrs
        | Some _ => False
        end
    | Some _ => False
    end.

(** How a list entry of the creation body relates to its variable: unset
    or empty, the key is not in the body; otherwise the body has the list
    of the pieces between the commas. *)
Definition body_list_reads (environ : gmap string string) (variable : string)
    (entry : option value) : Prop :=
  match environ !! variable with
  | None => entry = None
  | Some v =>
      if String.eqb v "" then entry = None
      else entry = Some (PyList (PyStr <$> split v ","))
  end.

(** A string of ASCII characters: on these the case maps of the model are
    those of Python. *)
Definition ascii_only (s : string) : Prop :=
  forallb (fun c => (nat_of_ascii c <? 128)%nat) (String.list_ascii_of_string s) = true.

(** The arguments the catalog declares as required for a tool: the
    strings under the key required of its input schema, none for a name
    that is not in the catalog. *)
Definition required_arguments (name : string) : list string :=
  match List.find (fun tool => String.eqb (Server.name tool) name) Server.list_tools with
  | Some tool =>
      match Server.inputSchema tool with
      | PyDict schema =>
          match schema !! "required" with
          | Some (PyList keys) =>
              omap (fun key => match key with PyStr s => Some s | _ => None end) keys
          | _ => []
          end
      | _ => []
      end
  | None => []
  end.
(* ===================================================================== *)
(** ** Facts about the string methods                                     *)
(* ===================================================================== *)

Section StringFacts.

Lemma prefix_app_iff (p s : string) :
  String.prefix p s = true <-> exists suf, s = p +:+ suf.
Proof.
  revert s; induction p as [|a p IH]; intros s.
  - destruct s; simpl; split; eauto.
  - destruct s as [|b s]; simpl.
    + split; [discriminate | intros [suf H]; discriminate].
    + destruct (ascii_dec a b) as [->|Hab].
      * rewrite IH. split; intros [suf H]; exists suf.
        -- by rewrite H.
        -- by injection H.
      * split; [discriminate | intros [suf H]; injection H; congruence].
Qed.

Lemma find_from_range (i : Z) (s sub : string) :
  0 <= i -> find_from i s sub = -1 \/ i <= find_from i s sub.
Proof.
  revert i; induction s as [|c s IH]; intros i Hi; cbn [find_from].
  - destruct (String.prefix sub ""); lia.
  - destruct (String.prefix sub (String c s)); [lia|].
    destruct (IH (i + 1)); lia.
Qed.

(** [find] answers [-1] exactly when the needle occurs nowhere. *)
Lemma find_from_found (i : Z) (s sub : string) :
  0 <= i ->
  find_from i s sub <> -1 <-> exists pre suf, s = pre +:+ sub +:+ suf.
Proof.
  revert i; induction s as [|c s IH]; intros i Hi; cbn [find_from].
  - destruct (String.prefix sub "") eqn:Hp.
    + apply prefix_app_iff in Hp as [suf Hs].
      split; [intros _; by exists "", suf | lia].
    + split; [done|]. intros (pre & suf & Hs).
      destruct pre; [|discriminate]. simpl in Hs.
      assert (String.prefix sub "" = true) by (apply prefix_app_iff; eauto).
      congruence.
  - destruct (String.prefix sub (String c s)) eqn:Hp.
    + apply prefix_app_iff in Hp as [suf Hs].
      split; [intros _; by exists "", suf | lia].
    + rewrite IH by lia. split; intros (pre & suf & Hs).
      * exists (String c pre), suf. simpl. by rewrite Hs.
      * destruct pre as [|c' pre]; simpl in Hs.
        -- assert (String.prefix sub (String c s) = true)
             by (apply prefix_app_iff; eauto).
           congruence.
        -- injection Hs as _ Hs. eauto.
Qed.

Lemma find_found (s sub : string) :
  find s sub <> -1 <-> exists pre suf, s = pre +:+ sub +:+ suf.
Proof. by apply find_from_found. Qed.

Lemma lower_app (a b : string) : lower (a +:+ b) = lower a +:+ lower b.
Proof. induction a as [|c a IH]; simpl; [done | by rewrite IH]. Qed.

Lemma lower_app_inv (s a b : string) :
  lower s = a +:+ b ->
  exists a' b', s = a' +:+ b' /\ lower a' = a /\ lower b' = b.
Proof.
  revert s; induction a as [|c a IH]; intros s H; simpl in H.
  - by exists "", s.
  - destruct s as [|d s]; [discriminate|]. simpl in H.
    injection H as Hc Hs. destruct (IH _ Hs) as (a' & b' & -> & <- & <-).
    exists (String d a'), b'. simpl. by rewrite Hc.
Qed.

(** A letter and its lower case: the byte itself or its upper case. *)
Lemma ascii_lower_inv (c x : ascii) :
  ascii_lower c = x -> c = x \/ c = ascii_upper x.
Proof.
  intros <-.
  destruct c as [[] [] [] [] [] [] [] []]; vm_compute; auto.
Qed.

End StringFacts.


Lemma occurs_caseless_find (needle s : string) :
  find (lower s) needle <> -1 <-> occurs_caseless needle s.
Proof.
  rewrite find_found. split.
  - intros (pre & suf & H).
    apply lower_app_inv in H as (pre' & rest & -> & _ & H).
    apply lower_app_inv in H as (mid & suf' & -> & Hm & _).
    by exists pre', mid, suf'.
  - intros (pre & mid & suf & -> & <-).
    exists (lower pre), (lower suf). by rewrite !lower_app.
Qed.


Lemma lower_true_spellings (v : string) :
  String.eqb (lower v) "true" = true <-> v ∈ true_spellings.
Proof.
  rewrite String.eqb_eq. split.
  - intros H.
    destruct v as [|c1 [|c2 [|c3 [|c4 [|c5 v]]]]]; try discriminate.
    simpl in H. injection H as H1 H2 H3 H4.
    apply ascii_lower_inv in H1, H2, H3, H4.
    unfold true_spellings.
    destruct H1 as [-> | ->], H2 as [-> | ->], H3 as [-> | ->], H4 as [-> | ->];
      vm_compute; set_solver.
  - unfold true_spellings. intros H.
    repeat (apply elem_of_cons in H as [-> | H]; [reflexivity|]).
    by apply elem_of_nil in H.
Qed.


(* ===================================================================== *)
(** ** Environment flags of the provisioning workflow                     *)
(* ===================================================================== *)

Section ConfigFlags.
Import Deploy.


Lemma flag_reads_getenv (environ : gmap string string) (key dflt : string) :
  flag_reads environ key (String.eqb (lower dflt) "true")
    (String.eqb (lower (getenv_or environ key dflt)) "true").
Proof.
  unfold flag_reads, getenv_or.
  destruct (environ !! key) as [v|]; simpl; [|done].
  apply lower_true_spellings.
Qed.

End ConfigFlags.

(** C9, as the claim states it, fails: with nothing set in the environment
    the monitoring flag is off, so the four flags do not all default to
    on. *)
Lemma config_flags_all_default_true_counterexample :
  ~ (forall environ : gmap string string,
       flag_reads environ "MONITORING" true (Deploy.monitoring (Deploy.config environ)) /\
       flag_reads environ "IPV6" true (Deploy.ipv6 (Deploy.config environ)) /\
       flag_reads environ "PRIVATE_NETWORKING" true
         (Deploy.private_networking (Deploy.config environ)) /\
       flag_reads environ "WAIT_FOR_ACTIVE" true
         (Deploy.wait_for_active (Deploy.config environ))).
Proof.
  intros H. destruct (H ∅) as [Hm _].
  vm_compute in Hm. discriminate.
Qed.

(** C9 (amended): each of the four flags is on exactly when its variable
    is set to a spelling of [true] in any mix of cases; with the variable
    unset, monitoring and ipv6 are off, private networking and
    wait-for-active are on. *)
Theorem config_flags (environ : gmap string string) :
  flag_reads environ "MONITORING" false (Deploy.monitoring (Deploy.config environ)) /\
  flag_reads environ "IPV6" false (Deploy.ipv6 (Deploy.config environ)) /\
  flag_reads environ "PRIVATE_NETWORKING" true
    (Deploy.private_networking (Deploy.config environ)) /\
  flag_reads environ "WAIT_FOR_ACTIVE" true
    (Deploy.wait_for_active (Deploy.config environ)).
Proof.
  repeat split.
  - apply (flag_reads_getenv environ "MONITORING" "false").
  - apply (flag_reads_getenv environ "IPV6" "false").
  - apply (flag_reads_getenv environ "PRIVATE_NETWORKING" "true").
  - apply (flag_reads_getenv environ "WAIT_FOR_ACTIVE" "true").
Qed.

(* ===================================================================== *)
(** ** The request primitive                                              *)
(* ===================================================================== *)

Section MakeRequest.
Import Client.
Context (host : Host).

Lemma send_answer (req : Request) (w : World) (r : Response) :
  respond host (length (outbox w)) req = Answer r ->
  send host req w = (Ok r, sent host req w).
Proof. intros H. unfold send. by rewrite H. Qed.

Lemma send_unreachable (req : Request) (w : World) (msg : string) :
  respond host (length (outbox w)) req = Unreachable msg ->
  send host req w = (Raise RequestException msg, sent host req w).
Proof. intros H. unfold send. by rewrite H. Qed.

(** A [GET] in either copy of the client: one request, then the outcome
    is read off the response. *)
Lemma make_request_get (with_put : bool) (api : DigitalOceanAPI)
    (endpoint : string) (data : value) (w : World) :
  _make_request host with_put api "GET" endpoint data w =
  match respond host (length (outbox w)) (get_request api endpoint) with
  | Answer r =>
      match raise_for_status r with
      | None => (json r, sent host (get_request api endpoint) w)
      | Some e => (Raise Exception (error_msg_of host e r),
                   sent host (get_request api endpoint) w)
      end
  | Unreachable msg => (Raise RequestException msg, sent host (get_request api endpoint) w)
  end.
Proof.
  unfold _make_request, mbind, M_bind. simpl.
  unfold requests_get, send. fold (get_request api endpoint).
  destruct (respond host (length (outbox w)) (get_request api endpoint)) as [r|msg];
    [|done].
  by destruct (raise_for_status r).
Qed.

End MakeRequest.

(* ===================================================================== *)
(** ** GPU sizes                                                          *)
(* ===================================================================== *)

Section GpuSizes.
Import Client.

Lemma is_gpu_size_document (size : value) :
  size_document size ->
  exists keep, is_gpu_size size = Ok keep /\ (keep = true <-> gpu_enabled size).
Proof.
  intros (m & -> & Hd). unfold is_gpu_size, gpu_enabled, description_of. simpl.
  assert (exists s, default (PyStr "") (m !! "description") = PyStr s /\
                    match m !! "description" with Some (PyStr s) => s | _ => "" end = s)
    as (s & -> & ->).
  { destruct Hd as [-> | [s ->]]; simpl; eauto. }
  eexists; split; [reflexivity|].
  rewrite <- occurs_caseless_find, negb_true_iff, Z.eqb_neq. done.
Qed.

Lemma filter_list_gpu (sizes : list value) :
  Forall size_document sizes ->
  exists kept, filter_list is_gpu_size sizes = Ok kept /\ keeps gpu_enabled sizes kept.
Proof.
  induction 1 as [|size sizes Hd _ (kept & IHeq & IHk)]; simpl.
  - exists []. split; [done | constructor].
  - destruct (is_gpu_size_document _ Hd) as (keep & -> & Hkeep). simpl.
    rewrite IHeq. simpl. destruct keep.
    + exists (size :: kept). split; [done|]. constructor; [by apply Hkeep | done].
    + exists kept. split; [done|]. constructor; [|done].
      intros Hg. apply Hkeep in Hg. discriminate.
Qed.

(** What is kept is determined by the list. *)
Lemma keeps_functional {A} (P : A -> Prop) (l k1 k2 : list A) :
  keeps P l k1 -> keeps P l k2 -> k1 = k2.
Proof.
  intros H1; revert k2; induction H1; inversion 1; subst;
    try done; try (f_equal; eauto); eauto.
Qed.

End GpuSizes.

(** C8: once the sizes are fetched, both copies of [get_gpu_sizes] return
    exactly the sizes whose description mentions gpu in any mix of cases,
    in their original order; descriptions Basic, GPU Accelerated and
    gpu-optimized yield the latter two. *)
Theorem gpu_size_filtering :
  (forall (host : Host) (api : Client.DigitalOceanAPI) (w : World)
          (r : Response) (m : gmap string value) (sizes : list value),
      respond host (length (outbox w)) (get_request api "/sizes") = Answer r ->
      raise_for_status r = None ->
      json r = Ok (PyDict m) ->
      m !! "sizes" = Some (PyList sizes) ->
      Forall size_document sizes ->
      exists kept,
        keeps gpu_enabled sizes kept /\
        (Deploy.get_gpu_sizes host api w).1 = Ok (PyList kept) /\
        (Server.get_gpu_sizes host api w).1 = Ok (PyList kept)) /\
  (forall (rt : Host) (api : Client.DigitalOceanAPI),
      let basic := size_described "s-1vcpu-1gb" "Basic" in
      let accelerated := size_described "g-2vcpu-16gb" "GPU Accelerated" in
      let optimized := size_described "gpu-h100x1-80gb" "gpu-optimized" in
      let host :=
        Sim.scripted
          [Sim.ok (PyDict {[ "sizes" := PyList [basic; accelerated; optimized] ]})] rt in
      (Deploy.get_gpu_sizes host api Sim.dawn).1 = Ok (PyList [accelerated; optimized]) /\
      (Server.get_gpu_sizes host api Sim.dawn).1 = Ok (PyList [accelerated; optimized])).
Proof.
  split.
  - intros host api w r m sizes Hr Hs Hj Hm Hdocs.
    destruct (filter_list_gpu sizes Hdocs) as (kept & Hf & Hk).
    exists kept. split; [done|].
    unfold Deploy.get_gpu_sizes, Server.get_gpu_sizes, Server.get_sizes,
      Deploy._make_request, Server._make_request, mbind, M_bind.
    rewrite !make_request_get, Hr, Hs, Hj. simpl.
    rewrite Hm. simpl. rewrite Hf. done.
  - intros rt api. simpl. split; reflexivity.
Qed.

Lemma gpu_size_filtering_witness :
  exists kept,
    keeps gpu_enabled
      [size_described "s-1vcpu-1gb" "Basic"; size_described "gpu-l40sx1-48gb" "L40S GPU"]
      kept /\
    (Deploy.get_gpu_sizes
       (Sim.scripted
          [Sim.ok (PyDict {[ "sizes" :=
             PyList [size_described "s-1vcpu-1gb" "Basic";
                     size_described "gpu-l40sx1-48gb" "L40S GPU"] ]})]
          Sim.offline)
       (Client.__init__ "token") Sim.dawn).1 = Ok (PyList kept) /\
    (Server.get_gpu_sizes
       (Sim.scripted
          [Sim.ok (PyDict {[ "sizes" :=
             PyList [size_described "s-1vcpu-1gb" "Basic";
                     size_described "gpu-l40sx1-48gb" "L40S GPU"] ]})]
          Sim.offline)
       (Client.__init__ "token") Sim.dawn).1 = Ok (PyList kept).
Proof.
  eapply (proj1 gpu_size_filtering); try reflexivity.
  repeat constructor;
    (eexists; split; [reflexivity | right; eexists; reflexivity]).
Defined.

(** Outside the hypothesis of the theorem: a description that is not a
    string has no [lower], and the comprehension raises. *)
Example gpu_filter_null_description :
  Client.comprehension Client.is_gpu_size
    (PyList [PyDict {[ "description" := PyNone ]}])
  = Raise AttributeError "'NoneType' object has no attribute 'lower'".
Proof. reflexivity. Qed.

(* ===================================================================== *)
(** ** The body of the create-droplet request                             *)
(* ===================================================================== *)

Section CreateDroplet.
Import Client.
Context (host : Host).

(** A [POST] in either copy of the client sends one request with the
    data as its body, whatever comes back. *)
Lemma make_request_post_world (with_put : bool) (api : DigitalOceanAPI)
    (endpoint : string) (data : value) (w : World) :
  (_make_request host with_put api "POST" endpoint data w).2 =
  sent host (post_request api endpoint data) w.
Proof.
  unfold _make_request, mbind, M_bind. simpl.
  unfold requests_post, send. fold (post_request api endpoint data).
  destruct (respond host (length (outbox w)) (post_request api endpoint data)) as [r|msg];
    [|done].
  by destruct (raise_for_status r).
Qed.

Lemma lift_after_world {A B} (m : M A) (f : A -> result B) (w : World) :
  ((a ← m; lift (f a)) w).2 = (m w).2.
Proof.
  unfold mbind, M_bind, lift. destruct (m w) as [[a|c msg] w']; done.
Qed.

Lemma truthy_absent_or_empty (given : option value) :
  absent_or_empty given -> truthy (default PyNone given) = false.
Proof. intros [-> | [-> | [-> | ->]]]; reflexivity. Qed.

Lemma truthy_supplied (given : option value) (v : value) :
  supplied given v -> default PyNone given = v /\ truthy v = true.
Proof.
  intros [-> [(x & l & ->) | (c & s & ->)]]; split; reflexivity.
Qed.

End CreateDroplet.

(** C5: both copies of [create_droplet] send one POST whose body is the
    assembled dictionary; the dictionary has no ssh_keys, tags or
    user_data key when that input is absent or empty, has the input itself
    when it is supplied non-empty, and always has monitoring, ipv6 and
    private_networking, which are false, false and true unless given. *)
Theorem create_droplet_body (host : Host) (api : Client.DigitalOceanAPI)
    (name region size image : value)
    (ssh_keys tags user_data monitoring ipv6 private_networking : option value)
    (w : World) :
  let d := Client.droplet_data name region size image ssh_keys tags user_data
             monitoring ipv6 private_networking in
  ((Deploy.create_droplet host api name region size image ssh_keys tags user_data
      monitoring ipv6 private_networking w).2
   = sent host (post_request api "/droplets" (PyDict d)) w /\
   (Server.create_droplet host api name region size image ssh_keys tags user_data
      monitoring ipv6 private_networking w).2
   = sent host (post_request api "/droplets" (PyDict d)) w) /\
  ((absent_or_empty ssh_keys -> d !! "ssh_keys" = None) /\
   (absent_or_empty tags -> d !! "tags" = None) /\
   (absent_or_empty user_data -> d !! "user_data" = None)) /\
  ((forall v, supplied ssh_keys v -> d !! "ssh_keys" = Some v) /\
   (forall v, supplied tags v -> d !! "tags" = Some v) /\
   (forall v, supplied user_data v -> d !! "user_data" = Some v)) /\
  (d !! "monitoring" = Some (default (PyBool false) monitoring) /\
   d !! "ipv6" = Some (default (PyBool false) ipv6) /\
   d !! "private_networking" = Some (default (PyBool true) private_networking)).
Proof.
  intros d. split; [|split; [|split]].
  - unfold Deploy.create_droplet, Server.create_droplet,
      Deploy._make_request, Server._make_request.
    rewrite !lift_after_world, !make_request_post_world. done.
  - repeat split; intros H%truthy_absent_or_empty;
      subst d; unfold Client.droplet_data; rewrite H;
      repeat case_match; by simplify_map_eq.
  - repeat split; intros v [Hv Ht]%truthy_supplied;
      subst d; unfold Client.droplet_data; rewrite Hv, Ht;
      repeat case_match; by simplify_map_eq.
  - repeat split; subst d; unfold Client.droplet_data;
      repeat case_match; by simplify_map_eq.
Qed.

Lemma create_droplet_body_witness :
  let d := Client.droplet_data (PyStr "gpu-droplet") (PyStr "nyc1")
             (PyStr "g-2vcpu-16gb") (PyStr "snap-1")
             (Some (PyList [])) (Some (PyList [PyStr "lab"])) None None None None in
  d !! "ssh_keys" = None /\ d !! "tags" = Some (PyList [PyStr "lab"]) /\
  d !! "user_data" = None.
Proof.
  intros d.
  destruct (create_droplet_body Sim.offline (Client.__init__ "token")
              (PyStr "gpu-droplet") (PyStr "nyc1") (PyStr "g-2vcpu-16gb")
              (PyStr "snap-1") (Some (PyList [])) (Some (PyList [PyStr "lab"]))
              None None None None Sim.dawn)
    as (_ & (Hkeys & _ & Hdata) & (_ & Htags & _) & _).
  split; [|split].
  - apply Hkeys. right; right; left; reflexivity.
  - apply Htags. split; [reflexivity | left; eauto].
  - apply Hdata. left; reflexivity.
Defined.

(* ===================================================================== *)
(** ** Error normalisation in the request primitive                       *)
(* ===================================================================== *)

Section ErrorNormalisation.
Import Client.
Context (host : Host).

Lemma raise_for_status_non_success (r : Response) :
  non_success r -> exists e, raise_for_status r = Some e.
Proof.
  unfold non_success, raise_for_status. intros H.
  destruct (400 <=? status_code r) eqn:H1; [|lia].
  destruct (status_code r <? 500) eqn:H2; simpl; [eauto|].
  destruct (500 <=? status_code r) eqn:H3; [|lia].
  destruct (status_code r <? 600) eqn:H4; simpl; [eauto | lia].
Qed.

(** With a supported method and a host whose next reply is [r], the
    outcome is read off [r]. *)
Lemma make_request_outcome (with_put : bool) (api : DigitalOceanAPI)
    (method endpoint : string) (data : value) (w : World) (r : Response) :
  supported with_put method ->
  (forall req, respond host (length (outbox w)) req = Answer r) ->
  (_make_request host with_put api method endpoint data w).1 =
  match raise_for_status r with
  | None => json r
  | Some e => Raise Exception (error_msg_of host e r)
  end.
Proof.
  intros Hm Hr. unfold _make_request, mbind, M_bind.
  assert (forall req, send host req w = (Ok r, sent host req w)) as Hsend
    by (intros req; apply send_answer, Hr).
  unfold requests_get, requests_post, requests_delete, requests_put.
  destruct (String.eqb_spec (upper method) "GET");
    [rewrite Hsend; by destruct (raise_for_status r)|].
  destruct (String.eqb_spec (upper method) "POST");
    [rewrite Hsend; by destruct (raise_for_status r)|].
  destruct (String.eqb_spec (upper method) "DELETE");
    [rewrite Hsend; by destruct (raise_for_status r)|].
  destruct Hm as [?|[?|[?|[-> Hput]]]]; try done.
  rewrite Hput. simpl. rewrite Hsend. by destruct (raise_for_status r).
Qed.

Lemma error_msg_of_message (e : string) (r : Response)
    (m : gmap string value) (v : value) :
  json r = Ok (PyDict m) -> m !! "message" = Some v ->
  error_msg_of host e r = "API Error: " +:+ str (repr host) v.
Proof.
  intros Hj Hm. unfold error_msg_of. rewrite Hj. simpl. by rewrite Hm.
Qed.

Lemma error_msg_of_not_json (e : string) (r : Response) (c : exn_class) (msg : string) :
  json r = Raise c msg -> error_msg_of host e r = "API Error: " +:+ text r.
Proof. intros Hj. unfold error_msg_of. by rewrite Hj. Qed.

End ErrorNormalisation.

(** C4, as the claim states it, fails: for a 404 whose JSON body carries
    a message, the text of the raised error is not that message. *)
Lemma error_text_equals_message_counterexample :
  ~ (forall (host : Host) (with_put : bool) (api : Client.DigitalOceanAPI)
            (endpoint : string) (w : World) (r : Response)
            (m : gmap string value) (s : string),
        (forall req, respond host (length (outbox w)) req = Answer r) ->
        non_success r ->
        json r = Ok (PyDict m) -> m !! "message" = Some (PyStr s) ->
        (Client._make_request host with_put api "GET" endpoint PyNone w).1
        = Raise Exception s).
Proof.
  intros H.
  set (m := {[ "id" := PyStr "not_found";
               "message" := PyStr "The resource you were accessing could not be found." ]}
            : gmap string value).
  set (r := Sim.response 404 "Not Found" (PyDict m)).
  specialize (H {| respond _ _ := Answer r; latency _ := 0;
                   repr _ := EmptyString; dumps _ := EmptyString |}
                false (Client.__init__ "token") "/droplets/1" Sim.dawn r m
                "The resource you were accessing could not be found.").
  simpl in H.
  assert (non_success r) as Hns by (unfold non_success; simpl; lia).
  specialize (H (fun _ => eq_refl) Hns eq_refl eq_refl).
  vm_compute in H. discriminate H.
Qed.

(** C4 (amended): for a 4xx or 5xx response to a supported method, the
    client raises one [Exception]; its text is [API Error: ] followed by
    the value of the message field when the body parses as a JSON object
    with that field, and [API Error: ] followed by the raw body text when
    the body is not valid JSON. *)
Theorem request_error_text (host : Host) (with_put : bool)
    (api : Client.DigitalOceanAPI) (method endpoint : string) (data : value)
    (w : World) (r : Response) :
  supported with_put method ->
  (forall req, respond host (length (outbox w)) req = Answer r) ->
  non_success r ->
  (forall (m : gmap string value) (v : value),
      json r = Ok (PyDict m) -> m !! "message" = Some v ->
      (Client._make_request host with_put api method endpoint data w).1
      = Raise Exception ("API Error: " +:+ str (repr host) v)) /\
  (forall (c : exn_class) (msg : string),
      json r = Raise c msg ->
      (Client._make_request host with_put api method endpoint data w).1
      = Raise Exception ("API Error: " +:+ text r)).
Proof.
  intros Hm Hr Hns.
  destruct (raise_for_status_non_success r Hns) as [e He].
  split.
  - intros m v Hj Hv.
    rewrite (make_request_outcome host with_put api method endpoint data w r Hm Hr), He.
    by rewrite (error_msg_of_message host e r m v).
  - intros c msg Hj.
    rewrite (make_request_outcome host with_put api method endpoint data w r Hm Hr), He.
    by rewrite (error_msg_of_not_json host e r c msg).
Qed.

Lemma request_error_text_witness :
  let r := Sim.response 422 "Unprocessable Entity"
             (PyDict {[ "id" := PyStr "unprocessable_entity";
                        "message" := PyStr "Size is not available in this region." ]}) in
  let host := {| respond _ _ := Answer r; latency _ := 0;
                 repr _ := EmptyString; dumps _ := EmptyString |} in
  (Client._make_request host true (Client.__init__ "token") "post" "/droplets"
     PyNone Sim.dawn).1
  = Raise Exception "API Error: Size is not available in this region.".
Proof.
  intros r host.
  refine (proj1 (request_error_text host true (Client.__init__ "token") "post"
                   "/droplets" PyNone Sim.dawn r _ _ _)
            {[ "id" := PyStr "unprocessable_entity";
               "message" := PyStr "Size is not available in this region." ]}
            (PyStr "Size is not available in this region.") _ _).
  - right; left; reflexivity.
  - intros req; reflexivity.
  - unfold non_success; simpl; lia.
  - reflexivity.
  - reflexivity.
Defined.

(* ===================================================================== *)
(** ** The dispatcher                                                     *)
(* ===================================================================== *)

(** Membership of a literal in a list of literals, and its negation *)
Ltac in_list := by repeat constructor.
Ltac not_in_list :=
  let H := fresh in
  intros H;
  repeat (apply elem_of_cons in H as [H|H]; [discriminate H|]);
  by apply elem_of_nil in H.

Section Dispatch.
Import Client Server.
Context (host : Host).

Lemma get_api_client_cases (environ : gmap string string)
    (api_client : option DigitalOceanAPI) :
  (exists api, get_api_client environ api_client = (Ok api, Some api) /\
     (api_client = Some api \/
      api_client = None /\ exists t, environ !! "DIGITALOCEAN_API_TOKEN" = Some t /\
                                     t <> "" /\ api = __init__ t)) \/
  (get_api_client environ api_client =
     (Raise ValueError "DIGITALOCEAN_API_TOKEN environment variable is not set", None) /\
   api_client = None /\ credential_absent environ).
Proof.
  unfold get_api_client, credential_absent.
  destruct api_client as [api|]; [left; eauto|].
  destruct (environ !! "DIGITALOCEAN_API_TOKEN") as [t|]; [|right; eauto].
  destruct (String.eqb_spec t ""); [subst; right; eauto|].
  left. eexists. split; [done|]. right. eauto.
Qed.

Lemma get_api_client_absent (environ : gmap string string) :
  credential_absent environ ->
  get_api_client environ None =
    (Raise ValueError "DIGITALOCEAN_API_TOKEN environment variable is not set", None).
Proof. unfold get_api_client. by intros [-> | ->]. Qed.

(** With a client at hand, [call_tool] is its second [try] statement. *)
Lemma call_tool_with_client (environ : gmap string string) (name : string)
    (arguments : gmap string value) (api_client : option DigitalOceanAPI)
    (api : DigitalOceanAPI) (w : World) :
  get_api_client environ api_client = (Ok api, Some api) ->
  call_tool host environ name arguments api_client w =
  match dispatch host api name arguments w with
  | (Ok tc, w') => (Ok tc, Some api, w')
  | (Raise _ msg, w') => (Ok (as_text ("Error: " +:+ msg)), Some api, w')
  end.
Proof.
  intros Hc. unfold call_tool, try_except. rewrite Hc.
  by destruct (dispatch host api name arguments w) as [[tc|c msg] w'].
Qed.

Lemma call_tool_without_credential (environ : gmap string string) (name : string)
    (arguments : gmap string value) (w : World) :
  credential_absent environ ->
  call_tool host environ name arguments None w = (Ok credential_error, None, w).
Proof.
  intros Ha. unfold call_tool. by rewrite (get_api_client_absent environ Ha).
Qed.

(** Whatever [dispatch] returns is one text item. *)
Lemma dispatch_returns_text (api : DigitalOceanAPI) (name : string)
    (arguments : gmap string value) (w w' : World) (tc : list TextContent) :
  dispatch host api name arguments w = (Ok tc, w') -> exists t, tc = as_text t.
Proof.
  unfold dispatch, as_json, mbind, M_bind, mret, M_ret. intros H.
  repeat case_match; simplify_eq; eauto.
Qed.

Lemma dispatch_unknown (api : DigitalOceanAPI) (name : string)
    (arguments : gmap string value) (w : World) :
  name ∉ catalog_names ->
  dispatch host api name arguments w = (Ok (as_text ("Unknown tool: " +:+ name)), w).
Proof.
  intros Hn. unfold dispatch.
  repeat match goal with
         | |- context [String.eqb name ?s] =>
             destruct (String.eqb_spec name s) as [Heq|_];
             [exfalso; apply Hn; rewrite Heq; unfold catalog_names; simpl;
              in_list|]
         end.
  done.
Qed.

Lemma get_api_client_ready (environ : gmap string string)
    (api_client : option DigitalOceanAPI) (api : DigitalOceanAPI) :
  client_ready environ api_client api ->
  get_api_client environ api_client = (Ok api, Some api).
Proof.
  unfold get_api_client.
  intros [-> | (-> & t & -> & Ht & ->)]; [done|].
  by destruct (String.eqb_spec t "").
Qed.

Lemma call_tool_returns_text (environ : gmap string string) (name : string)
    (arguments : gmap string value) (api_client : option DigitalOceanAPI) (w : World) :
  exists t, (call_tool host environ name arguments api_client w).1.1 = Ok (as_text t).
Proof.
  destruct (get_api_client_cases environ api_client) as [(api & Hc & _) | (_ & -> & Ha)].
  - rewrite (call_tool_with_client environ name arguments api_client api w Hc).
    destruct (dispatch host api name arguments w) as [[tc|c msg] w'] eqn:Hd; simpl.
    + destruct (dispatch_returns_text _ _ _ _ _ _ Hd) as [t ->]. eauto.
    + eauto.
  - rewrite (call_tool_without_credential environ name arguments w Ha). simpl.
    unfold credential_error. eauto.
Qed.

(** The client handle after a call is the one [get_api_client] leaves. *)
Lemma call_tool_client (environ : gmap string string) (name : string)
    (arguments : gmap string value) (api_client : option DigitalOceanAPI) (w : World) :
  (call_tool host environ name arguments api_client w).1.2 =
  (get_api_client environ api_client).2.
Proof.
  unfold call_tool.
  destruct (get_api_client environ api_client) as [[api|c msg] api_client'].
  - by destruct (try_except _ _ w).
  - by destruct (decide (c = ValueError)).
Qed.

(** A create-droplet call that lacks a required argument raises
    [KeyError] for the first one it lacks, before any request. *)
Lemma dispatch_create_missing (api : DigitalOceanAPI)
    (arguments : gmap string value) (w : World) (key : string) :
  key ∈ create_required -> arguments !! key = None ->
  exists missing, missing ∈ create_required /\ arguments !! missing = None /\
    dispatch host api "do_create_droplet" arguments w
    = (Raise KeyError ("'" +:+ missing +:+ "'"), w).
Proof.
  intros Hk Hnone.
  unfold dispatch. simpl. unfold mbind, M_bind, lift, getitem.
  destruct (arguments !! "name") as [v1|] eqn:H1;
    [|exists "name"; unfold create_required; split; [in_list | done]].
  destruct (arguments !! "region") as [v2|] eqn:H2;
    [|exists "region"; unfold create_required; split; [in_list | done]].
  destruct (arguments !! "size") as [v3|] eqn:H3;
    [|exists "size"; unfold create_required; split; [in_list | done]].
  destruct (arguments !! "image") as [v4|] eqn:H4;
    [|exists "image"; unfold create_required; split; [in_list | done]].
  exfalso. unfold create_required in Hk.
  repeat (apply elem_of_cons in Hk as [-> | Hk]; [congruence|]).
  by apply elem_of_nil in Hk.
Qed.

(** Listing the regions succeeds whenever the remote service answers
    the request with the regions. *)
Lemma dispatch_list_regions (api : DigitalOceanAPI) (arguments : gmap string value)
    (w : World) (r : Response) (m : gmap string value) (regions : value) :
  respond host (length (outbox w)) (get_request api "/regions") = Answer r ->
  raise_for_status r = None ->
  json r = Ok (PyDict m) ->
  m !! "regions" = Some regions ->
  dispatch host api "do_list_regions" arguments w
  = (Ok (as_json host regions), sent host (get_request api "/regions") w).
Proof.
  intros Hr Hs Hj Hm. unfold dispatch. simpl.
  unfold get_regions, Server._make_request, mbind, M_bind.
  rewrite make_request_get, Hr, Hs, Hj. simpl. by rewrite Hm.
Qed.

End Dispatch.

(** C6, as the claim states it, fails: without a client and without the
    credential, an unknown name is answered with the credential error, not
    with the text that the operation is unknown. *)
Lemma unknown_tool_text_counterexample :
  ~ (forall (host : Host) (environ : gmap string string) (name : string)
            (arguments : gmap string value)
            (api_client : option Client.DigitalOceanAPI) (w : World),
        name ∉ catalog_names ->
        (Server.call_tool host environ name arguments api_client w).1.1
        = Ok (Server.as_text ("Unknown tool: " +:+ name))).
Proof.
  intros H.
  specialize (H Sim.offline ∅ "do_reboot_droplet" ∅ None Sim.dawn).
  assert ("do_reboot_droplet" ∉ catalog_names) as Hn
    by (unfold catalog_names; simpl; not_in_list).
  specialize (H Hn). vm_compute in H. discriminate H.
Qed.

(** C6 (amended): for a name outside the catalog the dispatcher never
    raises and sends no request; with a client at hand (created earlier,
    or creatable from the credential) it returns the text that the tool is
    unknown; with no client and no credential it returns the credential
    error text. *)
Theorem unknown_tool_dispatch (host : Host) (environ : gmap string string)
    (name : string) (arguments : gmap string value)
    (api_client : option Client.DigitalOceanAPI) (w : World) :
  name ∉ catalog_names ->
  (forall api, client_ready environ api_client api ->
     Server.call_tool host environ name arguments api_client w
     = (Ok (Server.as_text ("Unknown tool: " +:+ name)), Some api, w)) /\
  (api_client = None -> credential_absent environ ->
     Server.call_tool host environ name arguments api_client w
     = (Ok credential_error, None, w)) /\
  (exists t, (Server.call_tool host environ name arguments api_client w).1.1
             = Ok (Server.as_text t)) /\
  (Server.call_tool host environ name arguments api_client w).2 = w.
Proof.
  intros Hn. split; [|split; [|split]].
  - intros api Hready%get_api_client_ready.
    rewrite (call_tool_with_client host environ name arguments api_client api w Hready).
    by rewrite (dispatch_unknown host api name arguments w Hn).
  - intros -> Ha. by apply call_tool_without_credential.
  - apply call_tool_returns_text.
  - destruct (get_api_client_cases environ api_client) as [(api & Hc & _) | (_ & -> & Ha)].
    + rewrite (call_tool_with_client host environ name arguments api_client api w Hc).
      by rewrite (dispatch_unknown host api name arguments w Hn).
    + by rewrite (call_tool_without_credential host environ name arguments w Ha).
Qed.

Lemma unknown_tool_dispatch_witness :
  Server.call_tool Sim.offline {[ "DIGITALOCEAN_API_TOKEN" := "dop_v1_token" ]}
    "do_reboot_droplet" ∅ None Sim.dawn
  = (Ok (Server.as_text "Unknown tool: do_reboot_droplet"),
     Some (Client.__init__ "dop_v1_token"), Sim.dawn).
Proof.
  refine (proj1 (unknown_tool_dispatch Sim.offline
                   {[ "DIGITALOCEAN_API_TOKEN" := "dop_v1_token" ]}
                   "do_reboot_droplet" ∅ None Sim.dawn _)
            (Client.__init__ "dop_v1_token") _).
  - unfold catalog_names; simpl; not_in_list.
  - right. split; [reflexivity|]. exists "dop_v1_token".
    split; [reflexivity|]. split; [discriminate | reflexivity].
Defined.

(** A client error stays inside the dispatcher: a 404 on a droplet comes
    back as text. *)
Example call_tool_contains_client_error :
  let not_found :=
    Sim.response 404 "Not Found"
      (PyDict {[ "id" := PyStr "not_found";
                 "message" := PyStr "The resource you were accessing could not be found." ]}) in
  (Server.call_tool (steady (Answer not_found) Sim.offline) ∅ "do_get_droplet"
     {[ "droplet_id" := PyInt 7 ]} (Some (Client.__init__ "dop_v1_token")) Sim.dawn).1.1
  = Ok (Server.as_text
          "Error: API Error: The resource you were accessing could not be found.").
Proof. reflexivity. Qed.

(** What the catalog declares as required: the four arguments
    create-droplet reads by subscript, and the id of the three tools that
    read it with [.get]. *)
Example required_arguments_of_the_catalog :
  required_arguments "do_create_droplet" = create_required /\
  required_arguments "do_get_snapshot" = ["snapshot_id"] /\
  required_arguments "do_get_droplet" = ["droplet_id"] /\
  required_arguments "do_delete_droplet" = ["droplet_id"] /\
  required_arguments "do_list_regions" = [].
Proof. repeat split; reflexivity. Qed.

(** C7, as the claim states it, fails: a missing required argument of a
    known operation does not always come back as an error text.  Called
    without its droplet id, get-droplet asks the remote service for the
    path ending in None, and when that is answered with a success the
    result is the dump of the answer. *)
Lemma missing_argument_error_text_counterexample :
  ~ (forall (host : Host) (environ : gmap string string) (name key : string)
            (arguments : gmap string value)
            (api_client : option Client.DigitalOceanAPI)
            (api : Client.DigitalOceanAPI) (w : World),
        client_ready environ api_client api ->
        key ∈ required_arguments name ->
        arguments !! key = None ->
        exists msg,
          (Server.call_tool host environ name arguments api_client w).1.1
          = Ok (Server.as_text ("Error: " +:+ msg))).
Proof.
  intros H.
  destruct (H {| respond _ _ := Sim.ok (PyDict {[ "droplet" := PyDict ∅ ]});
                 latency _ := 0; repr _ := EmptyString; dumps _ := "{}" |}
              ∅ "do_get_droplet" "droplet_id" ∅
              (Some (Client.__init__ "dop_v1_token")) (Client.__init__ "dop_v1_token")
              Sim.dawn) as [msg Hmsg].
  - left; reflexivity.
  - vm_compute. in_list.
  - reflexivity.
  - vm_compute in Hmsg. discriminate Hmsg.
Qed.

(** C7 (amended): a tool call never raises: it returns one text item.
    Without a client and without the credential that text is the
    credential error, no client is kept, and a later call with the
    credential set creates the client.  Whatever is raised while
    dispatching, by the client or by create-droplet reading one of its
    four required arguments that is missing, comes back as the text
    [Error: ] and the message.  The client handle survives the failure, a
    later call returns text again, and a later listing of the regions
    succeeds as soon as the remote service answers it. *)
Theorem dispatch_error_containment (host : Host) (environ : gmap string string)
    (name : string) (arguments : gmap string value)
    (api_client : option Client.DigitalOceanAPI) (w : World) :
  let first := Server.call_tool host environ name arguments api_client w in
  (exists t, first.1.1 = Ok (Server.as_text t)) /\
  (api_client = None -> credential_absent environ ->
     first = (Ok credential_error, None, w) /\
     forall (environ2 : gmap string string) (name2 : string)
            (arguments2 : gmap string value) (t : string),
       environ2 !! "DIGITALOCEAN_API_TOKEN" = Some t -> t <> "" ->
       (Server.call_tool host environ2 name2 arguments2 first.1.2 first.2).1.2
       = Some (Client.__init__ t)) /\
  (forall api c msg w',
     client_ready environ api_client api ->
     Server.dispatch host api name arguments w = (Raise c msg, w') ->
     first = (Ok (Server.as_text ("Error: " +:+ msg)), Some api, w')) /\
  (forall api key,
     client_ready environ api_client api ->
     name = "do_create_droplet" ->
     key ∈ create_required -> arguments !! key = None ->
     exists missing,
       missing ∈ create_required /\ arguments !! missing = None /\
       first = (Ok (Server.as_text ("Error: '" +:+ missing +:+ "'")), Some api, w)) /\
  (forall (environ2 : gmap string string) (name2 : string)
          (arguments2 : gmap string value),
     let second :=
       Server.call_tool host environ2 name2 arguments2 first.1.2 first.2 in
     (exists t, second.1.1 = Ok (Server.as_text t)) /\
     (forall api r m regions,
        client_ready environ api_client api ->
        name2 = "do_list_regions" ->
        respond host (length (outbox first.2)) (get_request api "/regions") = Answer r ->
        raise_for_status r = None ->
        json r = Ok (PyDict m) ->
        m !! "regions" = Some regions ->
        second = (Ok (Server.as_json host regions), Some api,
                  sent host (get_request api "/regions") first.2))).
Proof.
  intros first. split; [|split; [|split; [|split]]].
  - apply call_tool_returns_text.
  - intros -> Ha. subst first.
    rewrite (call_tool_without_credential host environ name arguments w Ha).
    split; [done|]. intros environ2 name2 arguments2 t Ht Hne. simpl.
    rewrite call_tool_client.
    rewrite (get_api_client_ready environ2 None (Client.__init__ t)); [done|].
    right. eauto.
  - intros api c msg w' Hready%get_api_client_ready Hd. subst first.
    rewrite (call_tool_with_client host environ name arguments api_client api w Hready).
    by rewrite Hd.
  - intros api key Hready%get_api_client_ready -> Hk Hnone. subst first.
    destruct (dispatch_create_missing host api arguments w key Hk Hnone)
      as (missing & Hin & Hmiss & Hd).
    exists missing. split; [done|]. split; [done|].
    rewrite (call_tool_with_client host environ _ arguments api_client api w Hready).
    by rewrite Hd.
  - intros environ2 name2 arguments2 second. split.
    + apply call_tool_returns_text.
    + intros api r m regions Hready%get_api_client_ready -> Hr Hs Hj Hm.
      subst second.
      assert (first.1.2 = Some api) as Hclient
        by (subst first; by rewrite call_tool_client, Hready).
      rewrite Hclient.
      rewrite (call_tool_with_client host environ2 _ arguments2 (Some api) api first.2
                 eq_refl).
      by rewrite (dispatch_list_regions host api arguments2 first.2 r m regions).
Qed.

Lemma dispatch_error_containment_witness :
  let regions := PyList [PyDict {[ "slug" := PyStr "nyc1" ]}] in
  let host := Sim.scripted [Sim.ok (PyDict {[ "regions" := regions ]})] Sim.offline in
  let api := Client.__init__ "dop_v1_token" in
  let first := Server.call_tool host ∅ "do_create_droplet" ∅ (Some api) Sim.dawn in
  (exists missing,
     missing ∈ create_required /\
     first = (Ok (Server.as_text ("Error: '" +:+ missing +:+ "'")), Some api, Sim.dawn)) /\
  Server.call_tool host ∅ "do_list_regions" ∅ first.1.2 first.2
  = (Ok (Server.as_json host regions), Some api,
     sent host (get_request api "/regions") first.2).
Proof.
  intros regions host api first.
  destruct (dispatch_error_containment host ∅ "do_create_droplet" ∅ (Some api) Sim.dawn)
    as (_ & _ & _ & Hmissing & Hnext).
  split.
  - destruct (Hmissing api "name") as (missing & Hin & _ & Hfirst).
    + left; reflexivity.
    + reflexivity.
    + in_list.
    + reflexivity.
    + exists missing. split; [exact Hin | exact Hfirst].
  - refine (proj2 (Hnext ∅ "do_list_regions" ∅) api
              (Sim.response 200 "OK" (PyDict {[ "regions" := regions ]}))
              {[ "regions" := regions ]} regions _ _ _ _ _ _);
      try reflexivity.
    left; reflexivity.
Defined.

(* ===================================================================== *)
(** ** The poll loop                                                      *)
(* ===================================================================== *)

Section PollLoop.
Import Client Deploy.
Context (host : Host) (api : DigitalOceanAPI) (droplet_id : value).
Context (timeout start_time : Z).

Abbreviation pending_at := (pending_at host api droplet_id).
Abbreviation active_at := (active_at host api droplet_id).
Abbreviation error_at := (error_at host api droplet_id).
Abbreviation round := (round host api droplet_id).
Abbreviation after_rounds := (after_rounds host api droplet_id).
Abbreviation fetched := (fetched host api droplet_id).
Abbreviation poll_request := (poll_request host api droplet_id).
Abbreviation wait_loop fuel := (wait_loop host fuel api droplet_id timeout start_time).

Lemma eq_str_true (v : value) (s : string) : eq_str v s = true <-> v = PyStr s.
Proof.
  destruct v; simpl; try (split; [discriminate | intros [=]]).
  rewrite String.eqb_eq. split; [by intros -> | by intros [= ->]].
Qed.

Lemma eq_str_false (v : value) (s : string) : eq_str v s = false <-> v <> PyStr s.
Proof. rewrite <- eq_str_true. by destruct (eq_str v s). Qed.

Lemma poll_once_unfold (w : World) :
  poll_once host api droplet_id w =
  match get_droplet host api droplet_id w with
  | (Ok droplet, w1) =>
      match get droplet "status" (PyStr "") with
      | Ok status =>
          if eq_str status "active" then (Ok (Some droplet), w1)
          else if eq_str status "error" then
            (Raise Exception (entered_error_state host droplet_id), w1)
          else (Ok None, (time_sleep 5 w1).2)
      | Raise c msg => (Raise c msg, w1)
      end
  | (Raise c msg, w1) => (Raise c msg, w1)
  end.
Proof.
  unfold poll_once, mbind, M_bind, lift.
  destruct (get_droplet host api droplet_id w) as [[droplet|c msg] w1]; [|done].
  destruct (get droplet "status" (PyStr "")) as [status|c msg]; [|done].
  destruct (eq_str status "active"); [done|].
  by destruct (eq_str status "error").
Qed.

Lemma poll_once_active (w : World) (d : value) :
  active_at w d -> poll_once host api droplet_id w = (Ok (Some d), fetched w).
Proof.
  intros [Hp Hs]. rewrite poll_once_unfold.
  unfold polled, fetched in *.
  destruct (get_droplet host api droplet_id w) as [r w1]. simpl in *. subst r.
  by rewrite Hs.
Qed.

Lemma poll_once_error (w : World) (d : value) :
  error_at w d ->
  poll_once host api droplet_id w
  = (Raise Exception (entered_error_state host droplet_id), fetched w).
Proof.
  intros [Hp Hs]. rewrite poll_once_unfold.
  unfold polled, fetched in *.
  destruct (get_droplet host api droplet_id w) as [r w1]. simpl in *. subst r.
  by rewrite Hs.
Qed.

Lemma poll_once_pending (w : World) :
  pending_at w -> poll_once host api droplet_id w = (Ok None, round w).
Proof.
  intros (d & s & [Hp Hs] & Ha%eq_str_false & He%eq_str_false).
  rewrite poll_once_unfold. unfold round, polled, fetched in *.
  destruct (get_droplet host api droplet_id w) as [r w1]. simpl in *. subst r.
  by rewrite Hs, Ha, He.
Qed.

(** The loop body reaches its end only through the sleep. *)
Lemma poll_once_next (w w' : World) :
  poll_once host api droplet_id w = (Ok None, w') -> w' = round w.
Proof.
  rewrite poll_once_unfold. unfold round, fetched.
  destruct (get_droplet host api droplet_id w) as [[droplet|c msg] w1]; [|done].
  destruct (get droplet "status" (PyStr "")) as [status|c msg]; [|done].
  destruct (eq_str status "active"); [done|].
  destruct (eq_str status "error"); [done|].
  by intros [= <-].
Qed.

(** Every poll sends its one request, whatever comes back. *)
Lemma fetched_sent (w : World) : fetched w = sent host poll_request w.
Proof.
  unfold fetched, get_droplet, Deploy._make_request.
  rewrite lift_after_world, make_request_get.
  destruct (respond host _ _) as [r|msg]; [|done].
  by destruct (raise_for_status r).
Qed.

Lemma round_now (w : World) :
  now (round w) = now w + latency host (length (outbox w)) + 5.
Proof. unfold round. by rewrite fetched_sent. Qed.

Lemma round_outbox (w : World) : outbox (round w) = outbox w ++ [poll_request].
Proof. unfold round. by rewrite fetched_sent. Qed.

Lemma after_rounds_succ (n : nat) (w : World) :
  after_rounds (S n) w = round (after_rounds n w).
Proof. revert w; induction n as [|n IH]; intros w; [done|]. simpl. by rewrite <- IH. Qed.

Lemma after_rounds_outbox (n : nat) (w : World) :
  outbox (after_rounds n w) = outbox w ++ replicate n poll_request.
Proof.
  revert w; induction n as [|n IH]; intros w; simpl.
  - by rewrite app_nil_r.
  - by rewrite IH, round_outbox, <- app_assoc.
Qed.

Lemma after_rounds_now (n : nat) (w : World) :
  (forall k, 0 <= latency host k) ->
  now w + 5 * Z.of_nat n <= now (after_rounds n w).
Proof.
  intros Hl. revert w; induction n as [|n IH]; intros w; simpl; [lia|].
  specialize (IH (round w)). rewrite round_now in IH.
  specialize (Hl (length (outbox w))). lia.
Qed.

(** The loop runs through rounds that are within budget and find the
    droplet pending. *)
Lemma wait_loop_rounds (n fuel : nat) (w : World) :
  (forall i, (i < n)%nat -> pending_at (after_rounds i w)) ->
  (forall i, (i < n)%nat -> now (after_rounds i w) - start_time < timeout) ->
  wait_loop (n + fuel) w = wait_loop fuel (after_rounds n w).
Proof.
  revert w; induction n as [|n IH]; intros w Hp Hb; [done|].
  simpl. specialize (Hb 0%nat ltac:(lia)) as Hb0. simpl in Hb0.
  apply Z.ltb_lt in Hb0. rewrite Hb0.
  rewrite (poll_once_pending w (Hp 0%nat ltac:(lia))).
  apply IH; intros i Hi.
  - apply (Hp (S i)). lia.
  - apply (Hb (S i)). lia.
Qed.

(** Once the budget is spent the loop raises, in the same world. *)
Lemma wait_loop_expired (fuel : nat) (w : World) :
  timeout <= now w - start_time ->
  wait_loop (S fuel) w
  = Some (Raise TimeoutError (did_not_become_active host droplet_id timeout), w).
Proof.
  intros H. simpl. apply Z.ltb_ge in H. by rewrite H.
Qed.

(** The loop ends: a round takes 5 units of time at least, so a fuel
    above the budget that is left suffices. *)
Lemma wait_loop_total (fuel : nat) (w : World) :
  (forall k, 0 <= latency host k) ->
  (Z.to_nat (timeout - (now w - start_time)) < fuel)%nat ->
  is_Some (wait_loop fuel w).
Proof.
  intros Hl. revert w; induction fuel as [|fuel IH]; intros w Hf; [lia|].
  simpl. destruct (now w - start_time <? timeout) eqn:Hb; [|eauto].
  apply Z.ltb_lt in Hb.
  destruct (poll_once host api droplet_id w) as [[[d|]|c msg] w'] eqn:Hp; eauto.
  apply poll_once_next in Hp as ->. apply IH.
  rewrite round_now. specialize (Hl (length (outbox w))). lia.
Qed.

(** A droplet that stays pending as long as there is budget makes the
    loop raise the timeout, after some number of rounds. *)
Lemma wait_loop_pending (fuel : nat) (w : World) :
  (forall k, 0 <= latency host k) ->
  (forall i, now (after_rounds i w) - start_time < timeout ->
             pending_at (after_rounds i w)) ->
  (Z.to_nat (timeout - (now w - start_time)) < fuel)%nat ->
  exists n,
    wait_loop fuel w
    = Some (Raise TimeoutError (did_not_become_active host droplet_id timeout),
            after_rounds n w).
Proof.
  intros Hl. revert w; induction fuel as [|fuel IH]; intros w Hp Hf; [lia|].
  destruct (Z.lt_ge_cases (now w - start_time) timeout) as [Hb|Hb].
  - destruct (IH (round w)) as [n Hn].
    + intros i. apply (Hp (S i)).
    + rewrite round_now. specialize (Hl (length (outbox w))). lia.
    + exists (S n). simpl. apply Z.ltb_lt in Hb as Hb'. rewrite Hb'.
      by rewrite (poll_once_pending w (Hp 0%nat Hb)).
  - exists 0%nat. by apply wait_loop_expired.
Qed.

(** The two errors of the loop have different texts. *)
Lemma timeout_text_distinct :
  did_not_become_active host droplet_id timeout <> entered_error_state host droplet_id.
Proof.
  unfold did_not_become_active, entered_error_state. intros H.
  apply (inj (String.append _)) in H.
  apply (inj (String.append _)) in H.
  discriminate H.
Qed.

End PollLoop.

(** C1: when the polls before the [n]-th find the droplet pending, all of
    them within the budget, and the [n]-th reads the status active, the
    workflow returns the document of that poll, in the world where that
    poll came back: no request is sent after it.  With the statuses new,
    new, active, polled every 5 units of time, it returns the third
    document, three requests sent, whatever the remote service would say
    next. *)
Theorem wait_returns_first_active :
  (forall (host : Host) (api : Client.DigitalOceanAPI) (droplet_id : value)
          (timeout : option Z) (w : World) (n fuel : nat) (d : value),
      (forall i, (i < n)%nat ->
                 pending_at host api droplet_id (after_rounds host api droplet_id i w)) ->
      (forall i, (i <= n)%nat ->
                 now (after_rounds host api droplet_id i w) - now w < default 300 timeout) ->
      active_at host api droplet_id (after_rounds host api droplet_id n w) d ->
      (n < fuel)%nat ->
      let w' := fetched host api droplet_id (after_rounds host api droplet_id n w) in
      Deploy.wait_for_droplet host fuel api droplet_id timeout w = Some (Ok d, w') /\
      outbox w' = outbox w ++ replicate (S n) (poll_request host api droplet_id)) /\
  (forall (rt : Host) (api : Client.DigitalOceanAPI) (droplet_id : value)
          (rest : list Reply) (k : nat),
      let host :=
        Sim.scripted
          (Sim.droplet_reply "new" :: Sim.droplet_reply "new"
             :: Sim.droplet_reply "active" :: rest) rt in
      Deploy.wait_for_droplet host (3 + k) api droplet_id None Sim.dawn
      = Some (Ok (Sim.droplet "active"),
              {| now := 10; outbox := replicate 3 (poll_request host api droplet_id) |})).
Proof.
  split.
  - intros host api droplet_id timeout w n fuel d Hp Hb Ha Hf w'.
    split.
    + unfold Deploy.wait_for_droplet.
      replace fuel with (n + S (fuel - S n))%nat by lia.
      rewrite wait_loop_rounds; [|done|intros i Hi; apply Hb; lia].
      simpl. specialize (Hb n ltac:(lia)). apply Z.ltb_lt in Hb. rewrite Hb.
      by rewrite (poll_once_active host api droplet_id _ d Ha).
    + subst w'. rewrite fetched_sent. unfold sent. cbn [outbox].
      rewrite after_rounds_outbox. by rewrite replicate_S_end, app_assoc.
  - intros rt api droplet_id rest k host. reflexivity.
Qed.

Lemma wait_returns_first_active_witness :
  let host := Sim.scripted [Sim.droplet_reply "new"; Sim.droplet_reply "active"]
                Sim.offline in
  let api := Client.__init__ "dop_v1_token" in
  let w' := fetched host api (PyInt 42) (after_rounds host api (PyInt 42) 1 Sim.dawn) in
  Deploy.wait_for_droplet host 2 api (PyInt 42) None Sim.dawn
    = Some (Ok (Sim.droplet "active"), w') /\
  outbox w' = outbox Sim.dawn ++ replicate 2 (poll_request host api (PyInt 42)).
Proof.
  intros host api.
  apply (proj1 wait_returns_first_active host api (PyInt 42) None Sim.dawn 1%nat 2%nat
           (Sim.droplet "active")).
  - intros i Hi. replace i with 0%nat by lia.
    exists (Sim.droplet "new"), (PyStr "new").
    split; [split; reflexivity | split; discriminate].
  - intros i Hi. destruct i as [|[|i]]; [reflexivity | reflexivity | lia].
  - split; reflexivity.
  - lia.
Defined.

(** C2: when the polls before the [n]-th find the droplet pending, all of
    them within the budget, and the [n]-th reads the status error, the
    workflow raises the failure-state error in the world where that poll
    came back: no request is sent after it and nothing is retried.  With
    the statuses new, error it raises on the second poll, two requests
    sent, whatever the remote service would say to a third. *)
Theorem wait_raises_on_error :
  (forall (host : Host) (api : Client.DigitalOceanAPI) (droplet_id : value)
          (timeout : option Z) (w : World) (n fuel : nat) (d : value),
      (forall i, (i < n)%nat ->
                 pending_at host api droplet_id (after_rounds host api droplet_id i w)) ->
      (forall i, (i <= n)%nat ->
                 now (after_rounds host api droplet_id i w) - now w < default 300 timeout) ->
      error_at host api droplet_id (after_rounds host api droplet_id n w) d ->
      (n < fuel)%nat ->
      let w' := fetched host api droplet_id (after_rounds host api droplet_id n w) in
      Deploy.wait_for_droplet host fuel api droplet_id timeout w
      = Some (Raise Exception (Deploy.entered_error_state host droplet_id), w') /\
      outbox w' = outbox w ++ replicate (S n) (poll_request host api droplet_id)) /\
  (forall (rt : Host) (api : Client.DigitalOceanAPI) (droplet_id : value)
          (rest : list Reply) (k : nat),
      let host :=
        Sim.scripted (Sim.droplet_reply "new" :: Sim.droplet_reply "error" :: rest) rt in
      Deploy.wait_for_droplet host (2 + k) api droplet_id None Sim.dawn
      = Some (Raise Exception (Deploy.entered_error_state host droplet_id),
              {| now := 5; outbox := replicate 2 (poll_request host api droplet_id) |})).
Proof.
  split.
  - intros host api droplet_id timeout w n fuel d Hp Hb He Hf w'.
    split.
    + unfold Deploy.wait_for_droplet.
      replace fuel with (n + S (fuel - S n))%nat by lia.
      rewrite wait_loop_rounds; [|done|intros i Hi; apply Hb; lia].
      simpl. specialize (Hb n ltac:(lia)). apply Z.ltb_lt in Hb. rewrite Hb.
      by rewrite (poll_once_error host api droplet_id _ d He).
    + subst w'. rewrite fetched_sent. unfold sent. cbn [outbox].
      rewrite after_rounds_outbox. by rewrite replicate_S_end, app_assoc.
  - intros rt api droplet_id rest k host. reflexivity.
Qed.

Lemma wait_raises_on_error_witness :
  let host := Sim.scripted [Sim.droplet_reply "new"; Sim.droplet_reply "error"]
                Sim.offline in
  let api := Client.__init__ "dop_v1_token" in
  let w' := fetched host api (PyInt 42) (after_rounds host api (PyInt 42) 1 Sim.dawn) in
  Deploy.wait_for_droplet host 2 api (PyInt 42) None Sim.dawn
    = Some (Raise Exception (Deploy.entered_error_state host (PyInt 42)), w') /\
  outbox w' = outbox Sim.dawn ++ replicate 2 (poll_request host api (PyInt 42)).
Proof.
  intros host api.
  apply (proj1 wait_raises_on_error host api (PyInt 42) None Sim.dawn 1%nat 2%nat
           (Sim.droplet "error")).
  - intros i Hi. replace i with 0%nat by lia.
    exists (Sim.droplet "new"), (PyStr "new").
    split; [split; reflexivity | split; discriminate].
  - intros i Hi. destruct i as [|[|i]]; [reflexivity | reflexivity | lia].
  - split; reflexivity.
  - lia.
Defined.

(** C3: when every poll taken within the budget finds the droplet
    pending (and no request takes negative time), the workflow ends by
    raising [TimeoutError]; that error differs from the failure-state
    error in its class and in its text. *)
Theorem wait_times_out (host : Host) (api : Client.DigitalOceanAPI)
    (droplet_id : value) (timeout : option Z) (w : World) (fuel : nat) :
  (forall k, 0 <= latency host k) ->
  (forall i, now (after_rounds host api droplet_id i w) - now w < default 300 timeout ->
             pending_at host api droplet_id (after_rounds host api droplet_id i w)) ->
  (Z.to_nat (default 300%Z timeout) < fuel)%nat ->
  (exists n,
     Deploy.wait_for_droplet host fuel api droplet_id timeout w
     = Some (Raise TimeoutError
               (Deploy.did_not_become_active host droplet_id (default 300 timeout)),
             after_rounds host api droplet_id n w)) /\
  TimeoutError <> Exception /\
  Deploy.did_not_become_active host droplet_id (default 300 timeout)
    <> Deploy.entered_error_state host droplet_id.
Proof.
  intros Hl Hp Hf. split; [|split].
  - unfold Deploy.wait_for_droplet. apply wait_loop_pending; [done | done |].
    replace (now w - now w) with 0 by lia. by rewrite Z.sub_0_r.
  - discriminate.
  - apply timeout_text_distinct.
Qed.

Lemma steady_new_pending (rt : Host) (api : Client.DigitalOceanAPI)
    (droplet_id : value) (w : World) :
  pending_at (steady (Sim.droplet_reply "new") rt) api droplet_id w.
Proof.
  exists (Sim.droplet "new"), (PyStr "new").
  split; [split; reflexivity | split; discriminate].
Qed.

Lemma wait_times_out_witness :
  let host := steady (Sim.droplet_reply "new") Sim.offline in
  let api := Client.__init__ "dop_v1_token" in
  exists n,
    Deploy.wait_for_droplet host 13 api (PyInt 42) (Some 12) Sim.dawn
    = Some (Raise TimeoutError (Deploy.did_not_become_active host (PyInt 42) 12),
            after_rounds host api (PyInt 42) n Sim.dawn).
Proof.
  intros host api.
  apply (proj1 (wait_times_out host api (PyInt 42) (Some 12) Sim.dawn 13
                  (fun _ => Z.le_refl 0)
                  (fun i _ => steady_new_pending Sim.offline api (PyInt 42) _)
                  ltac:(simpl; lia))).
Defined.

(** C10: the budget is tested before every poll.  With a timeout of zero
    or less the workflow raises [TimeoutError] in the world it started in,
    without a single fetch; whenever the loop tests its condition with the
    budget spent it raises [TimeoutError] without a fetch, whatever the
    remote service would answer; and with the statuses new, active and a
    timeout of 5 it raises [TimeoutError] after the one fetch, although
    the next poll would have read active. *)
Theorem budget_tested_before_poll :
  (forall (host : Host) (api : Client.DigitalOceanAPI) (droplet_id : value)
          (timeout : Z) (w : World) (fuel : nat),
      timeout <= 0 ->
      Deploy.wait_for_droplet host (S fuel) api droplet_id (Some timeout) w
      = Some (Raise TimeoutError (Deploy.did_not_become_active host droplet_id timeout),
              w)) /\
  (forall (host : Host) (api : Client.DigitalOceanAPI) (droplet_id : value)
          (timeout start_time : Z) (w : World) (fuel : nat),
      timeout <= now w - start_time ->
      Deploy.wait_loop host (S fuel) api droplet_id timeout start_time w
      = Some (Raise TimeoutError (Deploy.did_not_become_active host droplet_id timeout),
              w)) /\
  (forall (rt : Host) (api : Client.DigitalOceanAPI) (droplet_id : value)
          (rest : list Reply) (k : nat),
      let host :=
        Sim.scripted (Sim.droplet_reply "new" :: Sim.droplet_reply "active" :: rest) rt in
      active_at host api droplet_id (after_rounds host api droplet_id 1 Sim.dawn)
        (Sim.droplet "active") /\
      Deploy.wait_for_droplet host (2 + k) api droplet_id (Some 5) Sim.dawn
      = Some (Raise TimeoutError (Deploy.did_not_become_active host droplet_id 5),
              {| now := 5; outbox := [poll_request host api droplet_id] |})).
Proof.
  split; [|split].
  - intros host api droplet_id timeout w fuel Ht.
    unfold Deploy.wait_for_droplet. apply wait_loop_expired. simpl. lia.
  - intros host api droplet_id timeout start_time w fuel Ht.
    by apply wait_loop_expired.
  - intros rt api droplet_id rest k host. split; [split; reflexivity | reflexivity].
Qed.

Lemma budget_tested_before_poll_witness :
  Deploy.wait_for_droplet (steady (Sim.droplet_reply "active") Sim.offline) 1
    (Client.__init__ "dop_v1_token") (PyInt 42) (Some 0) Sim.dawn
  = Some (Raise TimeoutError
            (Deploy.did_not_become_active
               (steady (Sim.droplet_reply "active") Sim.offline) (PyInt 42) 0),
          Sim.dawn).
Proof.
  apply (proj1 budget_tested_before_poll
           (steady (Sim.droplet_reply "active") Sim.offline)
           (Client.__init__ "dop_v1_token") (PyInt 42) 0 Sim.dawn 0%nat).
  lia.
Defined.

(** The workflow ends: with no request taking negative time, a fuel above
    the timeout always yields an outcome. *)
Lemma wait_for_droplet_total (host : Host) (api : Client.DigitalOceanAPI)
    (droplet_id : value) (timeout : option Z) (w : World) (fuel : nat) :
  (forall k, 0 <= latency host k) ->
  (Z.to_nat (default 300%Z timeout) < fuel)%nat ->
  is_Some (Deploy.wait_for_droplet host fuel api droplet_id timeout w).
Proof.
  intros Hl Hf. unfold Deploy.wait_for_droplet. apply wait_loop_total; [done|].
  replace (now w - now w) with 0 by lia. by rewrite Z.sub_0_r.
Qed.

(* ===================================================================== *)
(** ** More on the request primitive                                      *)
(* ===================================================================== *)

Section RequestPrimitive.
Import Client.
Context (host : Host).

(** For a supported method the client sends [request_of] and reads the
    outcome off the reply. *)
Lemma make_request_supported (with_put : bool) (api : DigitalOceanAPI)
    (method endpoint : string) (data : value) (w : World) :
  supported with_put method ->
  _make_request host with_put api method endpoint data w =
  let req := request_of api method endpoint data in
  match respond host (length (outbox w)) req with
  | Answer r =>
      match raise_for_status r with
      | None => (json r, sent host req w)
      | Some e => (Raise Exception (error_msg_of host e r), sent host req w)
      end
  | Unreachable msg => (Raise RequestException msg, sent host req w)
  end.
Proof.
  intros Hm. unfold _make_request, mbind, M_bind, request_of.
  unfold requests_get, requests_post, requests_delete, requests_put, send.
  destruct (String.eqb_spec (upper method) "GET") as [->|Hg].
  { simpl. destruct (respond _ _ _) as [r|msg]; [|done].
    by destruct (raise_for_status r). }
  destruct (String.eqb_spec (upper method) "POST") as [->|Hp].
  { simpl. destruct (respond _ _ _) as [r|msg]; [|done].
    by destruct (raise_for_status r). }
  destruct (String.eqb_spec (upper method) "DELETE") as [->|Hd].
  { simpl. destruct (respond _ _ _) as [r|msg]; [|done].
    by destruct (raise_for_status r). }
  destruct Hm as [?|[?|[?|[-> ->]]]]; try done.
  simpl. destruct (respond _ _ _) as [r|msg]; [|done].
  by destruct (raise_for_status r).
Qed.

Lemma raise_for_status_success (r : Response) :
  ~ non_success r -> raise_for_status r = None.
Proof.
  unfold non_success, raise_for_status. intros H.
  destruct (400 <=? status_code r) eqn:H1, (status_code r <? 500) eqn:H2,
    (500 <=? status_code r) eqn:H3, (status_code r <? 600) eqn:H4;
    simpl; try done; lia.
Qed.

Lemma raise_for_status_line (r : Response) :
  non_success r -> raise_for_status r = Some (status_line r).
Proof.
  unfold non_success, raise_for_status, status_line. intros H.
  destruct (400 <=? status_code r) eqn:H1; [|lia].
  destruct (status_code r <? 500) eqn:H2; simpl; [done|].
  destruct (500 <=? status_code r) eqn:H3; [|lia].
  destruct (status_code r <? 600) eqn:H4; simpl; [done | lia].
Qed.

End RequestPrimitive.

(** X1: a method spelled in ASCII characters that neither copy has a
    branch for is refused with [ValueError] naming the method as given,
    before anything is sent: the world, its request log included, is
    unchanged. *)
Theorem unsupported_method_refused (host : Host) (with_put : bool)
    (api : Client.DigitalOceanAPI) (method endpoint : string) (data : value)
    (w : World) :
  ascii_only method ->
  ~ supported with_put method ->
  Client._make_request host with_put api method endpoint data w
  = (Raise ValueError ("Unsupported HTTP method: " +:+ method), w).
Proof.
  intros _ Hm. unfold Client._make_request, mbind, M_bind, supported in *.
  destruct (String.eqb_spec (upper method) "GET"); [tauto|].
  destruct (String.eqb_spec (upper method) "POST"); [tauto|].
  destruct (String.eqb_spec (upper method) "DELETE"); [tauto|].
  destruct with_put; simpl; [|done].
  destruct (String.eqb_spec (upper method) "PUT"); [tauto|done].
Qed.

Lemma unsupported_method_refused_witness :
  Deploy._make_request Sim.offline (Client.__init__ "dop_v1_token") "put"
    "/droplets/7" PyNone Sim.dawn
  = (Raise ValueError "Unsupported HTTP method: put", Sim.dawn).
Proof.
  apply (unsupported_method_refused Sim.offline false (Client.__init__ "dop_v1_token")
           "put" "/droplets/7" PyNone Sim.dawn).
  - reflexivity.
  - unfold supported. simpl. intros [H|[H|[H|[H _]]]]; discriminate H.
Defined.

(** X2: for a supported method, in whatever case it is spelled, exactly
    one request leaves: the verb in upper case, the endpoint appended to
    the base URL, the bearer token of the client in the Authorization
    header, JSON as content type, and the data as body for POST and PUT
    only (GET and DELETE drop it).  This holds whether the call then
    returns or raises. *)
Theorem request_sent (host : Host) (with_put : bool) (token : string)
    (method endpoint : string) (data : value) (w : World) :
  supported with_put method ->
  let api := Client.__init__ token in
  let req := request_of api method endpoint data in
  (Client._make_request host with_put api method endpoint data w).2 = sent host req w /\
  outbox (sent host req w) = outbox w ++ [req] /\
  headers req !! "Authorization" = Some ("Bearer " +:+ token) /\
  headers req !! "Content-Type" = Some "application/json" /\
  (body req = Some data <-> upper method = "POST" \/ upper method = "PUT") /\
  (body req = None <-> upper method = "GET" \/ upper method = "DELETE").
Proof.
  intros Hm api req. split; [|split; [done|split; [done|split; [done|]]]].
  - rewrite (make_request_supported host with_put api method endpoint data w Hm).
    fold req. simpl. destruct (respond _ _ _) as [r|msg]; [|done].
    by destruct (raise_for_status r).
  - subst req. unfold request_of. cbn [body].
    destruct (String.eqb_spec (upper method) "POST") as [Hp|Hp];
      destruct (String.eqb_spec (upper method) "PUT") as [Hu|Hu]; simpl.
    + rewrite Hp in Hu. discriminate Hu.
    + rewrite Hp. split; split; try done; try tauto; intros [H|H]; discriminate H.
    + rewrite Hu. split; split; try done; try tauto; intros [H|H]; discriminate H.
    + destruct Hm as [Hg|[?|[Hd|[_ ?]]]]; try done.
      * rewrite Hg. split; split; try done; try tauto; intros [H|H]; discriminate H.
      * rewrite Hd. split; split; try done; try tauto; intros [H|H]; discriminate H.
Qed.

Lemma request_sent_witness :
  (Client._make_request Sim.offline true (Client.__init__ "dop_v1_token") "Delete"
     "/droplets/7" (PyDict ∅) Sim.dawn).2
  = sent Sim.offline
      (request_of (Client.__init__ "dop_v1_token") "Delete" "/droplets/7" (PyDict ∅))
      Sim.dawn.
Proof.
  refine (proj1 (request_sent Sim.offline true "dop_v1_token" "Delete" "/droplets/7"
                   (PyDict ∅) Sim.dawn _)).
  right; right; left; reflexivity.
Defined.

(** X3: a reply whose status is not a 4xx or 5xx (a 2xx, but a 1xx or 3xx
    as well) is a success: the call comes back with whatever
    [response.json()] gives, the parsed body or, for a body that is not
    JSON, the decoding error itself, not wrapped in an API error. *)
Theorem success_returns_body (host : Host) (with_put : bool)
    (api : Client.DigitalOceanAPI) (method endpoint : string) (data : value)
    (w : World) (r : Response) :
  supported with_put method ->
  respond host (length (outbox w)) (request_of api method endpoint data) = Answer r ->
  ~ non_success r ->
  Client._make_request host with_put api method endpoint data w
  = (json r, sent host (request_of api method endpoint data) w).
Proof.
  intros Hm Hr Hs.
  rewrite (make_request_supported host with_put api method endpoint data w Hm).
  simpl. by rewrite Hr, (raise_for_status_success r Hs).
Qed.

Lemma success_returns_body_witness :
  let r := Sim.garbled 204 "No Content" "" in
  let host := steady (Answer r) Sim.offline in
  let api := Client.__init__ "dop_v1_token" in
  Client._make_request host true api "DELETE" "/droplets/7" PyNone Sim.dawn
  = (Raise JSONDecodeError "Expecting value: line 1 column 1 (char 0)",
     sent host (request_of api "DELETE" "/droplets/7" PyNone) Sim.dawn).
Proof.
  intros r host api.
  apply (success_returns_body host true api "DELETE" "/droplets/7" PyNone Sim.dawn r).
  - right; right; left; reflexivity.
  - reflexivity.
  - unfold non_success; simpl; lia.
Defined.

(** X4: a 4xx or 5xx reply whose body is a JSON object without a message
    field raises [Exception] with the status line of the response:
    [API Error: <code> Client Error: <reason> for url: <url>] for a 4xx,
    [Server Error] in its place for a 5xx. *)
Theorem error_without_message (host : Host) (with_put : bool)
    (api : Client.DigitalOceanAPI) (method endpoint : string) (data : value)
    (w : World) (r : Response) (m : gmap string value) :
  supported with_put method ->
  respond host (length (outbox w)) (request_of api method endpoint data) = Answer r ->
  non_success r ->
  json r = Ok (PyDict m) ->
  m !! "message" = None ->
  (Client._make_request host with_put api method endpoint data w).1
  = Raise Exception ("API Error: " +:+ status_line r).
Proof.
  intros Hm Hr Hs Hj Hnone.
  rewrite (make_request_supported host with_put api method endpoint data w Hm).
  simpl. rewrite Hr, (raise_for_status_line r Hs). simpl.
  unfold Client.error_msg_of. rewrite Hj. simpl. by rewrite Hnone.
Qed.

Lemma error_without_message_witness :
  let r := Sim.response 503 "Service Unavailable" (PyDict {[ "id" := PyStr "unavailable" ]}) in
  (Client._make_request (steady (Answer r) Sim.offline) false
     (Client.__init__ "dop_v1_token") "GET" "/regions" PyNone Sim.dawn).1
  = Raise Exception
      "API Error: 503 Server Error: Service Unavailable for url: https://api.digitalocean.com/v2".
Proof.
  intros r.
  apply (error_without_message (steady (Answer r) Sim.offline) false
           (Client.__init__ "dop_v1_token") "GET" "/regions" PyNone Sim.dawn r
           {[ "id" := PyStr "unavailable" ]}).
  - left; reflexivity.
  - reflexivity.
  - unfold non_success; simpl; lia.
  - reflexivity.
  - reflexivity.
Defined.

Section NonObjectBodies.
Import Client.
Context (host : Host).

Lemma existsb_eq_str (l : list value) (s : string) :
  existsb (fun v => eq_str v s) l = true <-> PyStr s ∈ l.
Proof.
  rewrite existsb_exists. split.
  - intros (v & Hin & ->%eq_str_true). by apply list_elem_of_In.
  - intros Hin. exists (PyStr s). split; [by apply list_elem_of_In|].
    by apply eq_str_true.
Qed.

Lemma error_msg_of_scalar (e : string) (r : Response) (v : value) :
  json r = Ok v -> scalar v -> error_msg_of host e r = "API Error: " +:+ text r.
Proof. intros Hj Hv. unfold error_msg_of. rewrite Hj. by destruct v. Qed.

Lemma error_msg_of_list (e : string) (r : Response) (l : list value) :
  json r = Ok (PyList l) ->
  error_msg_of host e r
  = if existsb (fun v => eq_str v "message") l
    then "API Error: " +:+ text r else "API Error: " +:+ e.
Proof.
  intros Hj. unfold error_msg_of. rewrite Hj. simpl.
  by destruct (existsb _ l).
Qed.

Lemma error_msg_of_str (e : string) (r : Response) (s : string) :
  json r = Ok (PyStr s) ->
  error_msg_of host e r
  = if negb (find s "message" =? -1)
    then "API Error: " +:+ text r else "API Error: " +:+ e.
Proof.
  intros Hj. unfold error_msg_of. rewrite Hj. simpl.
  by destruct (negb _).
Qed.

End NonObjectBodies.

(** X5: a 4xx or 5xx reply whose body is JSON but not an object.  For
    [null], a boolean or a number the membership test fails and the text
    falls back to the raw body.  For an array holding the string message,
    or a string in which message occurs, the test passes, the subscript
    fails, and the text is the raw body as well; an array or string
    without it gives the status line. *)
Theorem error_with_non_object_body (host : Host) (with_put : bool)
    (api : Client.DigitalOceanAPI) (method endpoint : string) (data : value)
    (w : World) (r : Response) (v : value) :
  supported with_put method ->
  respond host (length (outbox w)) (request_of api method endpoint data) = Answer r ->
  non_success r ->
  json r = Ok v ->
  let raised := (Client._make_request host with_put api method endpoint data w).1 in
  let raw := Raise Exception ("API Error: " +:+ text r) in
  let line := Raise Exception ("API Error: " +:+ status_line r) in
  (scalar v -> raised = raw) /\
  (forall l, v = PyList l ->
     (PyStr "message" ∈ l -> raised = raw) /\ (PyStr "message" ∉ l -> raised = line)) /\
  (forall s, v = PyStr s ->
     ((exists pre suf, s = pre +:+ "message" +:+ suf) -> raised = raw) /\
     (~ (exists pre suf, s = pre +:+ "message" +:+ suf) -> raised = line)).
Proof.
  intros Hm Hr Hs Hj raised raw line.
  assert (raised = Raise Exception (Client.error_msg_of host (status_line r) r)) as ->.
  { subst raised.
    rewrite (make_request_supported host with_put api method endpoint data w Hm).
    simpl. by rewrite Hr, (raise_for_status_line r Hs). }
  subst raw line. split; [|split].
  - intros Hv. by rewrite (error_msg_of_scalar host _ r v Hj Hv).
  - intros l ->. rewrite (error_msg_of_list host _ r l Hj).
    destruct (existsb _ l) eqn:He.
    + split; [done|]. intros Hn. apply existsb_eq_str in He. done.
    + split; [|done]. intros Hin%existsb_eq_str. congruence.
  - intros s ->. rewrite (error_msg_of_str host _ r s Hj).
    destruct (Z.eqb_spec (find s "message") (-1)) as [He|He]; simpl.
    + split; [|done]. intros Hin%find_found. done.
    + split; [done|]. intros Hn. by apply find_found in He.
Qed.

Lemma error_with_non_object_body_witness :
  let r := {| status_code := 400; reason := "Bad Request";
              final_url := "https://api.digitalocean.com/v2/droplets";
              text := "null"; json := Ok PyNone |} in
  (Client._make_request (steady (Answer r) Sim.offline) true
     (Client.__init__ "dop_v1_token") "POST" "/droplets" (PyDict ∅) Sim.dawn).1
  = Raise Exception "API Error: null".
Proof.
  intros r.
  refine (proj1 (error_with_non_object_body (steady (Answer r) Sim.offline) true
                   (Client.__init__ "dop_v1_token") "POST" "/droplets" (PyDict ∅)
                   Sim.dawn r PyNone _ _ _ _) _).
  - right; left; reflexivity.
  - reflexivity.
  - unfold non_success; simpl; lia.
  - reflexivity.
  - exact I.
Defined.

(** X6: when the remote service cannot be reached, the exception of the
    transport comes out of the call as it is, a [RequestException] with
    its own text and no API-error prefix; the request counts as sent. *)
Theorem transport_failure_propagates (host : Host) (with_put : bool)
    (api : Client.DigitalOceanAPI) (method endpoint : string) (data : value)
    (w : World) (msg : string) :
  supported with_put method ->
  respond host (length (outbox w)) (request_of api method endpoint data)
    = Unreachable msg ->
  Client._make_request host with_put api method endpoint data w
  = (Raise RequestException msg, sent host (request_of api method endpoint data) w).
Proof.
  intros Hm Hr.
  rewrite (make_request_supported host with_put api method endpoint data w Hm).
  simpl. by rewrite Hr.
Qed.

Lemma transport_failure_propagates_witness :
  Client._make_request Sim.offline false (Client.__init__ "dop_v1_token") "get"
    "/regions" PyNone Sim.dawn
  = (Raise RequestException "offline",
     sent Sim.offline
       (request_of (Client.__init__ "dop_v1_token") "get" "/regions" PyNone) Sim.dawn).
Proof.
  apply (transport_failure_propagates Sim.offline false (Client.__init__ "dop_v1_token")
           "get" "/regions" PyNone Sim.dawn "offline").
  - left; reflexivity.
  - reflexivity.
Defined.

(* ===================================================================== *)
(** ** Listings and their envelopes                                       *)
(* ===================================================================== *)

Section Listings.
Import Client.
Context (host : Host).

Lemma make_request_get_answered (with_put : bool) (api : DigitalOceanAPI)
    (endpoint : string) (data : value) (w : World) (v : value) :
  answers_get host api w endpoint v ->
  _make_request host with_put api "GET" endpoint data w
  = (Ok v, sent host (get_request api endpoint) w).
Proof.
  intros (r & Hr & Hs & Hj). by rewrite make_request_get, Hr, Hs, Hj.
Qed.

(** A GET that unwraps one key of the envelope *)
Lemma unwrap_get (with_put : bool) (api : DigitalOceanAPI)
    (endpoint key : string) (dflt : value) (w : World) (v : value) :
  answers_get host api w endpoint v ->
  (response ← _make_request host with_put api "GET" endpoint PyNone;
   lift (get response key dflt)) w
  = (get v key dflt, sent host (get_request api endpoint) w).
Proof.
  intros Ha. unfold mbind, M_bind.
  by rewrite (make_request_get_answered with_put api endpoint PyNone w v Ha).
Qed.

Lemma is_snapshot_dictionary (img : value) :
  dictionary img ->
  exists keep, Server.is_snapshot img = Ok keep /\ (keep = true <-> snapshot_image img).
Proof.
  intros [m ->]. unfold Server.is_snapshot. simpl.
  eexists; split; [reflexivity|]. rewrite eq_str_true. split.
  - intros H. exists m. split; [done|].
    destruct (m !! "type") as [t|]; simpl in H; [by subst | discriminate].
  - intros (m' & [= <-] & ->). done.
Qed.

Lemma filter_list_keeps (cond : value -> result bool) (P : value -> Prop)
    (items : list value) :
  Forall (fun x => exists keep, cond x = Ok keep /\ (keep = true <-> P x)) items ->
  exists kept, filter_list cond items = Ok kept /\ keeps P items kept.
Proof.
  induction 1 as [|x items (keep & Hc & Hk) _ (kept & IHeq & IHk)]; simpl.
  - exists []. split; [done | constructor].
  - rewrite Hc. simpl. rewrite IHeq. simpl. destruct keep.
    + exists (x :: kept). split; [done|]. constructor; [by apply Hk | done].
    + exists kept. split; [done|]. constructor; [|done].
      intros Hp. apply Hk in Hp. discriminate.
Qed.

Lemma filter_list_raises (cond : value -> result bool)
    (before after : list value) (x : value) (c : exn_class) (msg : string) :
  Forall (fun y => exists keep, cond y = Ok keep) before ->
  cond x = Raise c msg ->
  filter_list cond (before ++ x :: after) = Raise c msg.
Proof.
  induction 1 as [|y before [keep Hy] _ IH]; intros Hx; simpl.
  - by rewrite Hx.
  - rewrite Hy. simpl. by rewrite IH.
Qed.

End Listings.

(** X7: [get_snapshots] fetches the images with one GET of [/images] and
    returns exactly the images whose type field is the string snapshot, as
    often and in the order they come; an image without a type field, or
    with another type, is left out. *)
Theorem snapshots_from_images (host : Host) (api : Client.DigitalOceanAPI)
    (w : World) (m : gmap string value) (images : list value) :
  answers_get host api w "/images" (PyDict m) ->
  m !! "images" = Some (PyList images) ->
  Forall dictionary images ->
  exists kept,
    keeps snapshot_image images kept /\
    Server.get_snapshots host api w
    = (Ok (PyList kept), sent host (get_request api "/images") w).
Proof.
  intros Ha Hm Hd.
  destruct (filter_list_keeps Server.is_snapshot snapshot_image images) as (kept & Hf & Hk).
  { eapply Forall_impl; [exact Hd|]. intros img. apply is_snapshot_dictionary. }
  exists kept. split; [done|].
  unfold Server.get_snapshots, Server.get_images, Server._make_request.
  unfold mbind at 1, M_bind at 1.
  rewrite (unwrap_get host true api "/images" "images" (PyList []) w (PyDict m) Ha).
  simpl. rewrite Hm. simpl. unfold lift. simpl. by rewrite Hf.
Qed.

Lemma snapshots_from_images_witness :
  let images := [ PyDict {[ "type" := PyStr "distribution" ]};
                  PyDict {[ "type" := PyStr "snapshot"; "id" := PyInt 5 ]};
                  PyDict {[ "type" := PyStr "snapshot"; "id" := PyInt 9 ]} ] in
  let host := Sim.scripted [Sim.ok (PyDict {[ "images" := PyList images ]})] Sim.offline in
  let api := Client.__init__ "dop_v1_token" in
  exists kept,
    keeps snapshot_image images kept /\
    Server.get_snapshots host api Sim.dawn
    = (Ok (PyList kept), sent host (get_request api "/images") Sim.dawn).
Proof.
  intros images host api.
  apply (snapshots_from_images host api Sim.dawn {[ "images" := PyList images ]} images).
  - eexists. split; [reflexivity|]. split; reflexivity.
  - reflexivity.
  - repeat constructor; eexists; reflexivity.
Defined.

Section MalformedEntries.
Import Client.

Lemma is_gpu_size_malformed (size : value) :
  malformed_size size -> exists msg, is_gpu_size size = Raise AttributeError msg.
Proof.
  intros [Hn | (m & d & -> & Hd & Hs)].
  - destruct size; try (eexists; reflexivity).
    exfalso. apply Hn. by eexists.
  - unfold is_gpu_size. simpl. rewrite Hd. simpl.
    destruct d; try (eexists; reflexivity).
    by destruct (Hs s).
Qed.

Lemma is_gpu_size_returns (size : value) :
  size_document size -> exists keep, is_gpu_size size = Ok keep.
Proof.
  intros Hd. destruct (is_gpu_size_document size Hd) as (keep & Hk & _). eauto.
Qed.

End MalformedEntries.

(** X8: the GPU listing fails as a whole on one malformed entry.  When an
    entry of the fetched sizes is not a dictionary, or has a description
    that is not a string, both copies of [get_gpu_sizes] raise
    [AttributeError], whatever the entries before it and after it are;
    no partial list comes back. *)
Theorem gpu_listing_all_or_nothing (host : Host) (api : Client.DigitalOceanAPI)
    (w : World) (m : gmap string value) (before after : list value) (bad : value) :
  answers_get host api w "/sizes" (PyDict m) ->
  m !! "sizes" = Some (PyList (before ++ bad :: after)) ->
  Forall size_document before ->
  malformed_size bad ->
  exists msg,
    (Deploy.get_gpu_sizes host api w).1 = Raise AttributeError msg /\
    (Server.get_gpu_sizes host api w).1 = Raise AttributeError msg.
Proof.
  intros Ha Hm Hb Hbad.
  destruct (is_gpu_size_malformed bad Hbad) as [msg Hmsg].
  exists msg.
  assert (Client.filter_list Client.is_gpu_size (before ++ bad :: after)
          = Raise AttributeError msg) as Hf.
  { apply filter_list_raises; [|done].
    eapply Forall_impl; [exact Hb|]. intros size. apply is_gpu_size_returns. }
  unfold Deploy.get_gpu_sizes, Server.get_gpu_sizes, Server.get_sizes,
    Deploy._make_request, Server._make_request.
  split.
  - unfold mbind at 1, M_bind at 1.
    rewrite (make_request_get_answered host false api "/sizes" PyNone w (PyDict m) Ha).
    unfold mbind, M_bind, lift. simpl. rewrite Hm. simpl. by rewrite Hf.
  - unfold mbind at 1, M_bind at 1.
    rewrite (unwrap_get host true api "/sizes" "sizes" (PyList []) w (PyDict m) Ha).
    simpl. rewrite Hm. simpl. unfold lift. simpl. by rewrite Hf.
Qed.

Lemma gpu_listing_all_or_nothing_witness :
  let sizes := [ size_described "gpu-h100x1-80gb" "H100 GPU";
                 PyDict {[ "slug" := PyStr "s-1vcpu-1gb"; "description" := PyNone ]};
                 size_described "gpu-l40sx1-48gb" "L40S GPU" ] in
  let host := Sim.scripted [Sim.ok (PyDict {[ "sizes" := PyList sizes ]})] Sim.offline in
  let api := Client.__init__ "dop_v1_token" in
  exists msg,
    (Deploy.get_gpu_sizes host api Sim.dawn).1 = Raise AttributeError msg /\
    (Server.get_gpu_sizes host api Sim.dawn).1 = Raise AttributeError msg.
Proof.
  intros sizes host api.
  apply (gpu_listing_all_or_nothing host api Sim.dawn {[ "sizes" := PyList sizes ]}
           [size_described "gpu-h100x1-80gb" "H100 GPU"]
           [size_described "gpu-l40sx1-48gb" "L40S GPU"]
           (PyDict {[ "slug" := PyStr "s-1vcpu-1gb"; "description" := PyNone ]})).
  - eexists. split; [reflexivity|]. split; reflexivity.
  - reflexivity.
  - repeat constructor. eexists. split; [reflexivity|]. right. eexists. reflexivity.
  - right. eexists _, PyNone. split; [reflexivity|]. split; [reflexivity|]. discriminate.
Defined.

Section Worlds.
Import Client.
Context (host : Host).

(** The world after a call with a supported method, whatever its outcome *)
Lemma make_request_world (with_put : bool) (api : DigitalOceanAPI)
    (method endpoint : string) (data : value) (w : World) :
  supported with_put method ->
  (_make_request host with_put api method endpoint data w).2
  = sent host (request_of api method endpoint data) w.
Proof.
  intros Hm. rewrite (make_request_supported host with_put api method endpoint data w Hm).
  simpl. destruct (respond _ _ _) as [r|msg]; [|done].
  by destruct (raise_for_status r).
Qed.

Lemma make_request_get_world (with_put : bool) (api : DigitalOceanAPI)
    (endpoint : string) (data : value) (w : World) :
  (_make_request host with_put api "GET" endpoint data w).2
  = sent host (get_request api endpoint) w.
Proof. apply make_request_world. by left. Qed.

Lemma make_request_delete_world (with_put : bool) (api : DigitalOceanAPI)
    (endpoint : string) (data : value) (w : World) :
  (_make_request host with_put api "DELETE" endpoint data w).2
  = sent host (delete_request api endpoint) w.
Proof. apply make_request_world. right; right; by left. Qed.

Lemma bind_ret_world {A B} (m : M A) (f : A -> B) (w : World) :
  ((a ← m; mret (f a)) w).2 = (m w).2.
Proof.
  unfold mbind, M_bind, mret, M_ret. destruct (m w) as [[a|c msg] w']; done.
Qed.

End Worlds.

(** X9: what each getter of the server's client fetches and unwraps.  On
    a success whose body parses to [v], each sends one GET to its endpoint
    and returns [v.get(key, default)]: the value under the envelope key,
    the empty list (regions, sizes, images, droplets, ssh_keys) or the
    empty dictionary (snapshot, droplet, account) when the key is
    missing, and [AttributeError] when [v] is not a dictionary. *)
Theorem getters_unwrap_envelope (host : Host) (api : Client.DigitalOceanAPI)
    (w : World) (v id : value) :
  let fetches (op : M value) (endpoint key : string) (dflt : value) : Prop :=
    answers_get host api w endpoint v ->
    op w = (get v key dflt, sent host (get_request api endpoint) w) in
  fetches (Server.get_regions host api) "/regions" "regions" (PyList []) /\
  fetches (Server.get_sizes host api) "/sizes" "sizes" (PyList []) /\
  fetches (Server.get_images host api) "/images" "images" (PyList []) /\
  fetches (Server.get_droplets host api) "/droplets" "droplets" (PyList []) /\
  fetches (Server.get_ssh_keys host api) "/account/keys" "ssh_keys" (PyList []) /\
  fetches (Server.get_account_info host api) "/account" "account" (PyDict ∅) /\
  fetches (Server.get_snapshot host api id)
    ("/snapshots/" +:+ str (repr host) id) "snapshot" (PyDict ∅) /\
  fetches (Server.get_droplet host api id)
    ("/droplets/" +:+ str (repr host) id) "droplet" (PyDict ∅) /\
  fetches (Deploy.get_regions host api) "/regions" "regions" (PyList []) /\
  fetches (Deploy.get_snapshot host api id)
    ("/snapshots/" +:+ str (repr host) id) "snapshot" (PyDict ∅) /\
  fetches (Deploy.get_droplet host api id)
    ("/droplets/" +:+ str (repr host) id) "droplet" (PyDict ∅).
Proof.
  intros fetches. subst fetches. simpl.
  repeat split; intros Ha; by apply unwrap_get.
Qed.

Lemma getters_unwrap_envelope_witness :
  let host := Sim.scripted [Sim.ok (PyDict {[ "links" := PyDict ∅ ]})] Sim.offline in
  let api := Client.__init__ "dop_v1_token" in
  Server.get_droplets host api Sim.dawn
  = (Ok (PyList []), sent host (get_request api "/droplets") Sim.dawn).
Proof.
  intros host api.
  destruct (getters_unwrap_envelope host api Sim.dawn (PyDict {[ "links" := PyDict ∅ ]})
              PyNone) as (_ & _ & _ & H & _).
  apply H. eexists. split; [reflexivity|]. split; reflexivity.
Defined.

(* ===================================================================== *)
(** ** More on the dispatcher                                             *)
(* ===================================================================== *)

Section DispatchRequests.
Import Client Server.
Context (host : Host).

Lemma getitem_present (arguments : gmap string value) (key : string) :
  is_Some (arguments !! key) ->
  getitem (PyDict arguments) key = Ok (default PyNone (arguments !! key)).
Proof. intros [v Hv]. unfold getitem. by rewrite Hv. Qed.

Lemma create_droplet_world (api : DigitalOceanAPI) (name region size image : value)
    (ssh_keys tags user_data monitoring ipv6 private_networking : option value)
    (w : World) :
  (create_droplet host api name region size image ssh_keys tags user_data
     monitoring ipv6 private_networking w).2
  = sent host
      (post_request api "/droplets"
         (PyDict (droplet_data name region size image ssh_keys tags user_data
                    monitoring ipv6 private_networking))) w.
Proof.
  unfold create_droplet, Server._make_request.
  by rewrite lift_after_world, make_request_post_world.
Qed.

(** The world after [dispatch] is the world after the request of the
    tool, whatever the outcome. *)
Lemma dispatch_world (api : DigitalOceanAPI) (name : string)
    (arguments : gmap string value) (w : World) :
  arguments_complete name arguments ->
  (dispatch host api name arguments w).2
  = match tool_request host api name arguments with
    | Some req => sent host req w
    | None => w
    end.
Proof.
  intros Hc. unfold dispatch, tool_request, arg, arg_or.
  destruct (String.eqb_spec name "do_list_regions").
  { unfold get_regions, Server._make_request.
    by rewrite bind_ret_world, lift_after_world, make_request_get_world. }
  destruct (String.eqb_spec name "do_list_sizes").
  { rewrite bind_ret_world.
    destruct (truthy _); unfold get_gpu_sizes, get_sizes, Server._make_request;
      by rewrite ?lift_after_world, make_request_get_world. }
  destruct (String.eqb_spec name "do_list_snapshots").
  { unfold get_snapshots, get_images, Server._make_request.
    by rewrite bind_ret_world, !lift_after_world, make_request_get_world. }
  destruct (String.eqb_spec name "do_get_snapshot").
  { unfold get_snapshot, Server._make_request.
    by rewrite bind_ret_world, lift_after_world, make_request_get_world. }
  destruct (String.eqb_spec name "do_list_droplets").
  { unfold get_droplets, Server._make_request.
    by rewrite bind_ret_world, lift_after_world, make_request_get_world. }
  destruct (String.eqb_spec name "do_get_droplet").
  { unfold get_droplet, Server._make_request.
    by rewrite bind_ret_world, lift_after_world, make_request_get_world. }
  destruct (String.eqb_spec name "do_create_droplet") as [Hname|_].
  { specialize (Hc Hname).
    unfold mbind at 1 2 3 4, M_bind at 1 2 3 4, lift.
    rewrite !getitem_present by (apply Hc; unfold create_required; in_list).
    by rewrite bind_ret_world, create_droplet_world. }
  destruct (String.eqb_spec name "do_delete_droplet").
  { unfold delete_droplet, Server._make_request.
    by rewrite bind_ret_world, make_request_delete_world. }
  destruct (String.eqb_spec name "do_list_ssh_keys").
  { unfold get_ssh_keys, Server._make_request.
    by rewrite bind_ret_world, lift_after_world, make_request_get_world. }
  destruct (String.eqb_spec name "do_get_account_info").
  { unfold get_account_info, Server._make_request.
    by rewrite bind_ret_world, lift_after_world, make_request_get_world. }
  done.
Qed.

Lemma tool_request_none (api : DigitalOceanAPI) (name : string)
    (arguments : gmap string value) :
  tool_request host api name arguments = None <-> name ∉ catalog_names.
Proof.
  unfold tool_request. split.
  - intros H Hin. unfold catalog_names in Hin. simpl in Hin.
    repeat (apply elem_of_cons in Hin as [-> | Hin]; [discriminate H|]).
    by apply elem_of_nil in Hin.
  - intros Hn.
    repeat match goal with
           | |- context [String.eqb name ?s] =>
               destruct (String.eqb_spec name s) as [Heq|_];
               [exfalso; apply Hn; rewrite Heq; unfold catalog_names; simpl;
                in_list|]
           end.
    done.
Qed.

Lemma call_tool_world (environ : gmap string string) (name : string)
    (arguments : gmap string value) (api_client : option DigitalOceanAPI)
    (api : DigitalOceanAPI) (w : World) :
  client_ready environ api_client api ->
  (call_tool host environ name arguments api_client w).2
  = (dispatch host api name arguments w).2.
Proof.
  intros Hr%get_api_client_ready.
  rewrite (call_tool_with_client host environ name arguments api_client api w Hr).
  by destruct (dispatch host api name arguments w) as [[tc|c msg] w'].
Qed.

End DispatchRequests.

(** X10: with a client at hand, a call of a catalog tool sends exactly one
    request, the one of the table [tool_request] (its endpoint, verb, the
    client's headers), whether the call then succeeds or fails: nothing is
    retried and nothing else is contacted.  A name outside the catalog, and
    only such a name, sends nothing. *)
Theorem tool_sends_its_request (host : Host) (environ : gmap string string)
    (name : string) (arguments : gmap string value)
    (api_client : option Client.DigitalOceanAPI) (api : Client.DigitalOceanAPI)
    (w : World) :
  client_ready environ api_client api ->
  arguments_complete name arguments ->
  (name ∈ catalog_names ->
   exists req, tool_request host api name arguments = Some req /\
     (Server.call_tool host environ name arguments api_client w).2 = sent host req w /\
     outbox (sent host req w) = outbox w ++ [req] /\
     headers req = Client.api_headers api) /\
  (name ∉ catalog_names ->
   (Server.call_tool host environ name arguments api_client w).2 = w).
Proof.
  intros Hr Hc.
  rewrite (call_tool_world host environ name arguments api_client api w Hr).
  rewrite (dispatch_world host api name arguments w Hc).
  split.
  - intros Hin.
    destruct (tool_request host api name arguments) as [req|] eqn:Ht.
    + exists req. repeat split.
      unfold tool_request in Ht.
      repeat match type of Ht with
             | context [String.eqb name ?s] =>
                 destruct (String.eqb_spec name s) as [_|_];
                 [by injection Ht as <-|]
             end.
      discriminate Ht.
    + apply tool_request_none in Ht. done.
  - intros Hn. apply (tool_request_none host api name arguments) in Hn.
    by rewrite Hn.
Qed.

Lemma tool_sends_its_request_witness :
  let api := Client.__init__ "dop_v1_token" in
  exists req,
    tool_request Sim.offline api "do_delete_droplet" {[ "droplet_id" := PyInt 7 ]}
      = Some req /\
    (Server.call_tool Sim.offline ∅ "do_delete_droplet" {[ "droplet_id" := PyInt 7 ]}
       (Some api) Sim.dawn).2 = sent Sim.offline req Sim.dawn /\
    outbox (sent Sim.offline req Sim.dawn) = outbox Sim.dawn ++ [req] /\
    headers req = Client.api_headers api.
Proof.
  intros api.
  refine (proj1 (tool_sends_its_request Sim.offline ∅ "do_delete_droplet"
                   {[ "droplet_id" := PyInt 7 ]} (Some api) api Sim.dawn _ _) _).
  - left; reflexivity.
  - intros H; discriminate H.
  - unfold catalog_names; simpl; in_list.
Defined.

(** X11: the client is created once.  After a call that found or created
    the client, every later call works with that same client, and its
    outcome does not depend on the environment any more: a credential
    changed or removed in the meantime goes unnoticed. *)
Theorem client_created_once (host : Host) (environ environ2 environ3 : gmap string string)
    (name name2 : string) (arguments arguments2 : gmap string value)
    (api_client : option Client.DigitalOceanAPI) (api : Client.DigitalOceanAPI)
    (w : World) :
  client_ready environ api_client api ->
  let first := Server.call_tool host environ name arguments api_client w in
  let second := Server.call_tool host environ2 name2 arguments2 first.1.2 first.2 in
  first.1.2 = Some api /\
  second.1.2 = Some api /\
  second = Server.call_tool host environ3 name2 arguments2 first.1.2 first.2.
Proof.
  intros Hr first second.
  assert (first.1.2 = Some api) as Hf.
  { subst first. by rewrite call_tool_client, (get_api_client_ready environ api_client api Hr). }
  subst second. rewrite Hf. split; [done|]. split.
  - by rewrite call_tool_client.
  - by rewrite !(call_tool_with_client host _ name2 arguments2 (Some api) api first.2 eq_refl).
Qed.

Lemma client_created_once_witness :
  let api := Client.__init__ "dop_v1_first" in
  let first :=
    Server.call_tool Sim.offline {[ "DIGITALOCEAN_API_TOKEN" := "dop_v1_first" ]}
      "do_list_regions" ∅ None Sim.dawn in
  let second :=
    Server.call_tool Sim.offline {[ "DIGITALOCEAN_API_TOKEN" := "dop_v1_second" ]}
      "do_list_regions" ∅ first.1.2 first.2 in
  first.1.2 = Some api /\
  second.1.2 = Some api /\
  second = Server.call_tool Sim.offline ∅ "do_list_regions" ∅ first.1.2 first.2.
Proof.
  intros api.
  apply (client_created_once Sim.offline {[ "DIGITALOCEAN_API_TOKEN" := "dop_v1_first" ]}
           {[ "DIGITALOCEAN_API_TOKEN" := "dop_v1_second" ]} ∅
           "do_list_regions" "do_list_regions" ∅ ∅ None api Sim.dawn).
  right. split; [reflexivity|]. exists "dop_v1_first".
  split; [reflexivity|]. split; [discriminate | reflexivity].
Defined.

(** X12: the size listing of the dispatcher.  One GET of [/sizes] either
    way; without [gpu_only], or with a [gpu_only] that counts as false,
    the text is the dump of the sizes as fetched; with a [gpu_only] that
    counts as true (a non-empty string does) it is the dump of the GPU
    sizes. *)
Theorem list_sizes_gpu_only (host : Host) (environ : gmap string string)
    (arguments : gmap string value)
    (api_client : option Client.DigitalOceanAPI) (api : Client.DigitalOceanAPI)
    (w : World) (m : gmap string value) (sizes : list value) :
  client_ready environ api_client api ->
  answers_get host api w "/sizes" (PyDict m) ->
  m !! "sizes" = Some (PyList sizes) ->
  let gpu_only := default (PyBool false) (arguments !! "gpu_only") in
  let out := Server.call_tool host environ "do_list_sizes" arguments api_client w in
  (truthy gpu_only = false ->
   out = (Ok (Server.as_json host (PyList sizes)), Some api,
          sent host (get_request api "/sizes") w)) /\
  (truthy gpu_only = true -> Forall size_document sizes ->
   exists kept,
     keeps gpu_enabled sizes kept /\
     out = (Ok (Server.as_json host (PyList kept)), Some api,
            sent host (get_request api "/sizes") w)).
Proof.
  intros Hr%get_api_client_ready Ha Hm gpu_only out. subst out.
  rewrite (call_tool_with_client host environ _ arguments api_client api w Hr).
  unfold Server.dispatch. simpl. fold gpu_only.
  unfold Server.arg_or. fold gpu_only. split.
  - intros ->. unfold Server.get_sizes, Server._make_request.
    unfold mbind at 1, M_bind at 1.
    rewrite (unwrap_get host true api "/sizes" "sizes" (PyList []) w (PyDict m) Ha).
    simpl. by rewrite Hm.
  - intros -> Hd.
    destruct (filter_list_gpu sizes Hd) as (kept & Hf & Hk).
    exists kept. split; [done|].
    unfold Server.get_gpu_sizes, Server.get_sizes, Server._make_request.
    unfold mbind at 1 2, M_bind at 1 2.
    rewrite (unwrap_get host true api "/sizes" "sizes" (PyList []) w (PyDict m) Ha).
    simpl. rewrite Hm. simpl. unfold lift. simpl. by rewrite Hf.
Qed.

Lemma list_sizes_gpu_only_witness :
  let sizes := [ size_described "s-1vcpu-1gb" "Basic";
                 size_described "gpu-h100x1-80gb" "H100 GPU" ] in
  let host := Sim.scripted [Sim.ok (PyDict {[ "sizes" := PyList sizes ]})] Sim.offline in
  let api := Client.__init__ "dop_v1_token" in
  exists kept,
    keeps gpu_enabled sizes kept /\
    Server.call_tool host ∅ "do_list_sizes" {[ "gpu_only" := PyStr "false" ]}
      (Some api) Sim.dawn
    = (Ok (Server.as_json host (PyList kept)), Some api,
       sent host (get_request api "/sizes") Sim.dawn).
Proof.
  intros sizes host api.
  refine (proj2 (list_sizes_gpu_only host ∅ {[ "gpu_only" := PyStr "false" ]}
                   (Some api) api Sim.dawn {[ "sizes" := PyList sizes ]} sizes _ _ _) _ _).
  - left; reflexivity.
  - eexists. split; [reflexivity|]. split; reflexivity.
  - reflexivity.
  - reflexivity.
  - repeat constructor;
      (eexists; split; [reflexivity | right; eexists; reflexivity]).
Defined.

(** X13: the keys of a create-droplet body are the seven base keys and,
    for each of ssh_keys, tags and user_data, its key when the input
    counts as true; no other key is ever sent, and the image reference
    travels under the key image. *)
Theorem droplet_data_keys (name region size image : value)
    (ssh_keys tags user_data monitoring ipv6 private_networking : option value) :
  let d := Client.droplet_data name region size image ssh_keys tags user_data
             monitoring ipv6 private_networking in
  dom d = base_keys ∪ optional_key "ssh_keys" ssh_keys ∪ optional_key "tags" tags
            ∪ optional_key "user_data" user_data /\
  d !! "name" = Some name /\ d !! "region" = Some region /\
  d !! "size" = Some size /\ d !! "image" = Some image.
Proof.
  intros d. subst d. unfold Client.droplet_data, optional_key, base_keys.
  split.
  - destruct (truthy (default PyNone ssh_keys)), (truthy (default PyNone tags)),
      (truthy (default PyNone user_data));
      rewrite ?dom_insert_L, ?dom_singleton_L; set_solver.
  - repeat split; repeat case_match; by simplify_map_eq.
Qed.

(** X14: a deletion the remote service confirms without a JSON body, as
    a 204 does, is reported as an error.  [delete_droplet] returns the
    parsed response, so on a success whose body does not parse the
    decoding error is raised after the DELETE has been sent, and the
    dispatcher answers with [Error: ] and the text of that error. *)
Theorem delete_without_body_reports_error (host : Host)
    (environ : gmap string string) (arguments : gmap string value)
    (api_client : option Client.DigitalOceanAPI) (api : Client.DigitalOceanAPI)
    (w : World) (r : Response) (c : exn_class) (msg : string) :
  client_ready environ api_client api ->
  let req := delete_request api
               ("/droplets/" +:+ str (repr host) (default PyNone (arguments !! "droplet_id"))) in
  respond host (length (outbox w)) req = Answer r ->
  ~ non_success r ->
  json r = Raise c msg ->
  Server.delete_droplet host api (default PyNone (arguments !! "droplet_id")) w
    = (Raise c msg, sent host req w) /\
  Server.call_tool host environ "do_delete_droplet" arguments api_client w
    = (Ok (Server.as_text ("Error: " +:+ msg)), Some api, sent host req w).
Proof.
  intros Hr%get_api_client_ready req Ha Hs Hj.
  assert (Server.delete_droplet host api (default PyNone (arguments !! "droplet_id")) w
          = (Raise c msg, sent host req w)) as Hd.
  { unfold Server.delete_droplet, Server._make_request.
    rewrite make_request_supported by (right; right; by left).
    change (request_of api "DELETE" _ PyNone) with req. cbv zeta.
    by rewrite Ha, (raise_for_status_success r Hs), Hj. }
  split; [done|].
  rewrite (call_tool_with_client host environ _ arguments api_client api w Hr).
  unfold Server.dispatch. simpl. unfold Server.arg.
  unfold mbind, M_bind. by rewrite Hd.
Qed.

Lemma delete_without_body_reports_error_witness :
  let r := Sim.garbled 204 "No Content" "" in
  let host := steady (Answer r) Sim.offline in
  let api := Client.__init__ "dop_v1_token" in
  Server.call_tool host ∅ "do_delete_droplet" {[ "droplet_id" := PyInt 7 ]} (Some api)
    Sim.dawn
  = (Ok (Server.as_text "Error: Expecting value: line 1 column 1 (char 0)"), Some api,
     sent host (delete_request api "/droplets/7") Sim.dawn).
Proof.
  intros r host api.
  refine (proj2 (delete_without_body_reports_error host ∅ {[ "droplet_id" := PyInt 7 ]}
                   (Some api) api Sim.dawn r JSONDecodeError
                   "Expecting value: line 1 column 1 (char 0)" _ _ _ _)).
  - left; reflexivity.
  - reflexivity.
  - unfold non_success; simpl; lia.
  - reflexivity.
Defined.

(* ===================================================================== *)
(** ** More on the poll loop                                              *)
(* ===================================================================== *)

Section PollCases.
Import Client Deploy.
Context (host : Host) (api : DigitalOceanAPI) (droplet_id : value).

Lemma poll_once_fails (w : World) (c : exn_class) (msg : string) :
  poll_fails host api droplet_id w c msg ->
  poll_once host api droplet_id w = (Raise c msg, fetched host api droplet_id w).
Proof.
  rewrite poll_once_unfold. unfold poll_fails, polled, fetched.
  intros [Hp | (d & Hp & Hs)];
    destruct (get_droplet host api droplet_id w) as [res w1]; simpl in *; subst res.
  - done.
  - by rewrite Hs.
Qed.

(** What one evaluation of the loop body amounts to *)
Lemma poll_once_cases (w : World) (o : result (option value)) (w' : World) :
  poll_once host api droplet_id w = (o, w') ->
  (o = Ok None /\ pending_at host api droplet_id w /\ w' = round host api droplet_id w) \/
  (exists r, poll_ends host api droplet_id w r /\ w' = fetched host api droplet_id w /\
             match r with Ok d => o = Ok (Some d) | Raise c msg => o = Raise c msg end).
Proof.
  rewrite poll_once_unfold.
  unfold pending_at, poll_ends, poll_fails, active_at, error_at, poll_reads,
    polled, round, fetched.
  destruct (get_droplet host api droplet_id w) as [[d|c msg] w1]; simpl.
  2:{ intros [= <- <-]. right. exists (Raise c msg). eauto 10. }
  destruct (get d "status" (PyStr "")) as [s|c msg] eqn:Hs.
  2:{ intros [= <- <-]. right. exists (Raise c msg). split; [|done].
      right; right. exists c, msg. split; [done|]. right. eauto. }
  destruct (eq_str s "active") eqn:Ha.
  { intros [= <- <-]. apply eq_str_true in Ha as ->.
    right. exists (Ok d). split; [|done]. left. eauto. }
  destruct (eq_str s "error") eqn:He.
  { intros [= <- <-]. apply eq_str_true in He as ->.
    right. eexists (Raise Exception _). split; [|done]. right; left. eauto. }
  intros [= <- <-]. left. split; [done|]. split; [|done].
  exists d, s. apply eq_str_false in Ha, He. done.
Qed.

End PollCases.

Section LoopOutcomes.
Import Client Deploy.
Context (host : Host) (api : DigitalOceanAPI) (droplet_id : value).
Context (timeout start_time : Z).

(** Every run of the loop that ends, ends after some number of pending
    rounds, by the timeout or by the poll that follows them. *)
Lemma wait_loop_ends (fuel : nat) (w : World) (r : result value) (w' : World) :
  wait_loop host fuel api droplet_id timeout start_time w = Some (r, w') ->
  exists n, ends_after host api droplet_id timeout start_time n w r w'.
Proof.
  revert w; induction fuel as [|fuel IH]; intros w H; [discriminate H|].
  simpl in H. destruct (now w - start_time <? timeout) eqn:Hb.
  - apply Z.ltb_lt in Hb.
    destruct (poll_once host api droplet_id w) as [o w1] eqn:Hp.
    apply poll_once_cases in Hp as [(-> & Hpend & ->) | (r0 & Hends & -> & Hmatch)].
    + destruct (IH _ H) as (n & Hbefore & Hlast).
      exists (S n). split; [|exact Hlast].
      intros [|i] Hi; [done|]. apply Hbefore. lia.
    + exists 0%nat. split; [intros i Hi; lia|]. right. simpl.
      destruct r0 as [d|c msg]; subst o; injection H as <- <-; done.
  - apply Z.ltb_ge in Hb. injection H as <- <-.
    exists 0%nat. split; [intros i Hi; lia|]. left. done.
Qed.

Lemma fetched_now (w : World) :
  now (fetched host api droplet_id w) = now w + latency host (length (outbox w)).
Proof. by rewrite fetched_sent. Qed.

Lemma fetched_outbox (w : World) :
  outbox (fetched host api droplet_id w)
  = outbox w ++ [poll_request host api droplet_id].
Proof. by rewrite fetched_sent. Qed.

End LoopOutcomes.

(** X15: a poll that fails ends the wait at once.  When, after rounds
    that found the droplet pending, the fetch of the next poll raises (the
    remote service answers with an error status, cannot be reached, sends
    a body that is no JSON or no dictionary) or the fetched droplet is not
    a dictionary, [wait_for_droplet] raises that very exception in the
    world where that poll came back: no retry, no further poll. *)
Theorem poll_failure_is_fatal (host : Host) (api : Client.DigitalOceanAPI)
    (droplet_id : value) (timeout : option Z) (w : World) (n fuel : nat)
    (c : exn_class) (msg : string) :
  (forall i, (i < n)%nat ->
             pending_at host api droplet_id (after_rounds host api droplet_id i w)) ->
  (forall i, (i <= n)%nat ->
             now (after_rounds host api droplet_id i w) - now w < default 300 timeout) ->
  poll_fails host api droplet_id (after_rounds host api droplet_id n w) c msg ->
  (n < fuel)%nat ->
  let w' := fetched host api droplet_id (after_rounds host api droplet_id n w) in
  Deploy.wait_for_droplet host fuel api droplet_id timeout w = Some (Raise c msg, w') /\
  outbox w' = outbox w ++ replicate (S n) (poll_request host api droplet_id).
Proof.
  intros Hp Hb Hfail Hf w'. split.
  - unfold Deploy.wait_for_droplet.
    replace fuel with (n + S (fuel - S n))%nat by lia.
    rewrite wait_loop_rounds; [|done|intros i Hi; apply Hb; lia].
    simpl. specialize (Hb n ltac:(lia)). apply Z.ltb_lt in Hb. rewrite Hb.
    by rewrite (poll_once_fails host api droplet_id _ c msg Hfail).
  - subst w'. rewrite fetched_outbox, after_rounds_outbox.
    by rewrite replicate_S_end, app_assoc.
Qed.

Lemma poll_failure_is_fatal_witness :
  let gone :=
    Sim.response 404 "Not Found"
      (PyDict {[ "id" := PyStr "not_found";
                 "message" := PyStr "The resource you were accessing could not be found." ]}) in
  let host := Sim.scripted [Sim.droplet_reply "new"; Answer gone; Sim.droplet_reply "active"]
                Sim.offline in
  let api := Client.__init__ "dop_v1_token" in
  let w' := fetched host api (PyInt 42) (after_rounds host api (PyInt 42) 1 Sim.dawn) in
  Deploy.wait_for_droplet host 5 api (PyInt 42) None Sim.dawn
    = Some (Raise Exception
              "API Error: The resource you were accessing could not be found.", w') /\
  outbox w' = outbox Sim.dawn ++ replicate 2 (poll_request host api (PyInt 42)).
Proof.
  intros gone host api.
  apply (poll_failure_is_fatal host api (PyInt 42) None Sim.dawn 1%nat 5%nat Exception
           "API Error: The resource you were accessing could not be found.").
  - intros i Hi. replace i with 0%nat by lia.
    exists (Sim.droplet "new"), (PyStr "new").
    split; [split; reflexivity | split; discriminate].
  - intros i Hi. destruct i as [|[|i]]; [reflexivity | reflexivity | lia].
  - left. reflexivity.
  - lia.
Defined.

(** X16: what [wait_for_droplet] returns is an active droplet.  Whenever
    the call returns a document, that document is a dictionary whose
    status field is the string active; it is the document of the last
    poll, every poll before it found the droplet pending, and all
    requests of the call are polls of that one droplet. *)
Theorem wait_returns_only_active (host : Host) (api : Client.DigitalOceanAPI)
    (droplet_id : value) (timeout : option Z) (w w' : World) (fuel : nat) (d : value) :
  Deploy.wait_for_droplet host fuel api droplet_id timeout w = Some (Ok d, w') ->
  (exists m, d = PyDict m /\ m !! "status" = Some (PyStr "active")) /\
  exists n,
    (forall i, (i < n)%nat ->
       pending_at host api droplet_id (after_rounds host api droplet_id i w)) /\
    active_at host api droplet_id (after_rounds host api droplet_id n w) d /\
    outbox w' = outbox w ++ replicate (S n) (poll_request host api droplet_id).
Proof.
  unfold Deploy.wait_for_droplet. intros H.
  apply wait_loop_ends in H as (n & Hbefore & Hlast). simpl in Hlast.
  destruct Hlast as [(_ & [=] & _) | (Hb & Hends & ->)].
  destruct Hends as [(d' & [= <-] & Ha) | [(d' & [=] & _) | (c & msg & [=] & _)]].
  split.
  - destruct Ha as [_ Hs]. destruct d as [| | | | |m]; try discriminate Hs.
    exists m. split; [done|]. simpl in Hs.
    destruct (m !! "status") as [s|]; simpl in Hs; [|discriminate Hs].
    by injection Hs as ->.
  - exists n. split; [intros i Hi; by apply Hbefore|]. split; [done|].
    rewrite fetched_outbox, after_rounds_outbox.
    by rewrite replicate_S_end, app_assoc.
Qed.

Lemma wait_returns_only_active_witness :
  let host := Sim.scripted [Sim.droplet_reply "new"; Sim.droplet_reply "active"]
                Sim.offline in
  let api := Client.__init__ "dop_v1_token" in
  exists m, Sim.droplet "active" = PyDict m /\ m !! "status" = Some (PyStr "active").
Proof.
  intros host api.
  refine (proj1 (wait_returns_only_active host api (PyInt 42) None Sim.dawn
                   {| now := 5; outbox := replicate 2 (poll_request host api (PyInt 42)) |}
                   2%nat (Sim.droplet "active") _)).
  reflexivity.
Defined.

(** X17: the number of polls is bounded by the budget.  When no request
    takes negative time, a call that ends has sent only polls of its
    droplet, [n] of them, and every poll but the first started at least 5
    units of time after the one before: [n] is zero, or [5 * (n - 1)] is
    below the timeout.  With the default of 300 that is 60 polls at
    most; with a timeout of zero or less, none.  Time never runs
    backwards over the call. *)
Theorem polls_bounded_by_budget (host : Host) (api : Client.DigitalOceanAPI)
    (droplet_id : value) (timeout : option Z) (w w' : World) (fuel : nat)
    (r : result value) :
  (forall k, 0 <= latency host k) ->
  Deploy.wait_for_droplet host fuel api droplet_id timeout w = Some (r, w') ->
  exists n : nat,
    outbox w' = outbox w ++ replicate n (poll_request host api droplet_id) /\
    (n = 0%nat \/ 5 * (Z.of_nat n - 1) < default 300 timeout) /\
    now w <= now w'.
Proof.
  intros Hl H. unfold Deploy.wait_for_droplet in H.
  apply wait_loop_ends in H as (n & Hbefore & Hlast). simpl in Hlast.
  pose proof (after_rounds_now host api droplet_id n w Hl) as Hn.
  destruct Hlast as [(Hb & -> & ->) | (Hb & _ & ->)].
  - exists n. split; [by rewrite after_rounds_outbox|]. split; [|lia].
    destruct n as [|n]; [by left|]. right.
    destruct (Hbefore n ltac:(lia)) as [_ Hbn].
    pose proof (after_rounds_now host api droplet_id n w Hl). lia.
  - exists (S n). split; [|split].
    + rewrite fetched_outbox, after_rounds_outbox.
      by rewrite replicate_S_end, app_assoc.
    + right. lia.
    + rewrite fetched_now.
      specialize (Hl (length (outbox (after_rounds host api droplet_id n w)))). lia.
Qed.

Lemma polls_bounded_by_budget_witness :
  let host := steady (Sim.droplet_reply "new") Sim.offline in
  let api := Client.__init__ "dop_v1_token" in
  exists n : nat,
    outbox (after_rounds host api (PyInt 42) 3 Sim.dawn)
    = outbox Sim.dawn ++ replicate n (poll_request host api (PyInt 42)) /\
    (n = 0%nat \/ 5 * (Z.of_nat n - 1) < 12) /\
    now Sim.dawn <= now (after_rounds host api (PyInt 42) 3 Sim.dawn).
Proof.
  intros host api.
  apply (polls_bounded_by_budget host api (PyInt 42) (Some 12) Sim.dawn
           (after_rounds host api (PyInt 42) 3 Sim.dawn) 13
           (Raise TimeoutError (Deploy.did_not_become_active host (PyInt 42) 12))).
  - intros k. simpl. lia.
  - reflexivity.
Defined.

(* ===================================================================== *)
(** ** The list settings of the workflow                                  *)
(* ===================================================================== *)

Section Splitting.

Lemma split_not_nil (s : string) (sep : ascii) : split s sep <> [].
Proof.
  destruct s as [|c s]; simpl; [done|].
  destruct (Ascii.eqb c sep); [done|]. by destruct (split s sep).
Qed.

Lemma join_cons (sep piece : string) (rest : list string) :
  rest <> [] -> join sep (piece :: rest) = piece +:+ sep +:+ join sep rest.
Proof. by destruct rest. Qed.

Lemma join_split (s : string) (sep : ascii) :
  join (String sep EmptyString) (split s sep) = s.
Proof.
  induction s as [|c s IH]; simpl; [done|].
  destruct (Ascii.eqb_spec c sep) as [->|Hc].
  - rewrite join_cons by apply split_not_nil. simpl. by rewrite IH.
  - pose proof (split_not_nil s sep) as Hn.
    destruct (split s sep) as [|piece rest]; [done|].
    destruct rest as [|piece' rest].
    + simpl in *. by rewrite IH.
    + change (join (String sep "") (String c piece :: piece' :: rest))
        with (String c (piece +:+ String sep "" +:+ join (String sep "") (piece' :: rest))).
      by rewrite <- IH.
Qed.

Lemma split_pieces (s : string) (sep : ascii) :
  Forall (fun piece => ~ has_char sep piece) (split s sep).
Proof.
  induction s as [|c s IH]; simpl.
  - constructor; [|constructor]. intros [].
  - destruct (Ascii.eqb_spec c sep) as [->|Hc].
    + constructor; [intros [] | done].
    + pose proof (split_not_nil s sep) as Hn.
      destruct (split s sep) as [|piece rest]; [done|].
      inversion IH as [|? ? Hp Hrest]; subst.
      constructor; [|done].
      intros [Heq | Hin]; [congruence | by apply Hp].
Qed.

Lemma list_reads_split (environ : gmap string string) (key : string) :
  list_reads environ key
    (if Deploy.getenv_truthy environ key
     then Some (split (Deploy.getenv_or environ key "") ",")
     else None).
Proof.
  unfold list_reads, Deploy.getenv_truthy, Deploy.getenv_or, Deploy.getenv.
  destruct (environ !! key) as [v|]; simpl; [|done].
  destruct (String.eqb v ""); simpl; [done|].
  eexists. split; [done|]. split; [apply split_not_nil|].
  split; [apply join_split | apply split_pieces].
Qed.

End Splitting.

(** X18: the list settings of the workflow.  With [SSH_KEYS] (or
    [DROPLET_TAGS]) unset or empty there is no list; otherwise the list is
    what the commas of the variable separate: it is never empty, no piece
    holds a comma, and joining the pieces with commas gives the variable
    back, so empty pieces and blanks around a piece are kept as they
    are. *)
Theorem config_lists (environ : gmap string string) :
  list_reads environ "SSH_KEYS" (Deploy.ssh_keys (Deploy.config environ)) /\
  list_reads environ "DROPLET_TAGS" (Deploy.tags (Deploy.config environ)).
Proof.
  split.
  - apply (list_reads_split environ "SSH_KEYS").
  - apply (list_reads_split environ "DROPLET_TAGS").
Qed.

(* ===================================================================== *)
(** ** [main]                                                             *)
(* ===================================================================== *)

Section Statements.
Import Client Script.
Context (host : Host).

Lemma say_then {A} (line : string) (k : S A) (p : Process) :
  (_ ← say line; k) p = k (said line p).
Proof. reflexivity. Qed.

Lemma eval_then {A B} (r : result A) (k : A -> S B) (p : Process) :
  (x ← eval r; k x) p
  = match r with Ok a => k a p | Raise c msg => Some (Raise c msg, p) end.
Proof. unfold mbind, S_bind, eval. by destruct r. Qed.

Lemma call_then {A B} (m : M A) (k : A -> S B) (p : Process) :
  (x ← call m; k x) p
  = match m (world p) with
    | (Ok a, w') => k a (moved w' p)
    | (Raise c msg, w') => Some (Raise c msg, moved w' p)
    end.
Proof.
  unfold mbind, S_bind, call. by destruct (m (world p)) as [[a|c msg] w'].
Qed.

Lemma quiet_say (line : string) : quiet (say line).
Proof. intros p. by eexists _, _. Qed.

Lemma quiet_eval {A} (r : result A) : quiet (eval r).
Proof. intros p. by eexists _, _. Qed.

Lemma quiet_ret {A} (a : A) : quiet (mret a : S A).
Proof. intros p. by eexists _, _. Qed.

Lemma quiet_bind {A B} (m : S A) (k : A -> S B) :
  quiet m -> (forall a, quiet (k a)) -> quiet (x ← m; k x).
Proof.
  intros Hm Hk p. destruct (Hm p) as (r & p1 & Hr & Hw & He).
  unfold mbind, S_bind. rewrite Hr. destruct r as [a|c msg].
  - destruct (Hk a p1) as (r' & p2 & Hr' & Hw' & He').
    exists r', p2. split; [done|]. split; congruence.
  - by eexists _, _.
Qed.

Lemma quiet_for_each (items : list value) (body : value -> S unit) :
  (forall x, quiet (body x)) -> quiet (for_each items body).
Proof.
  intros Hb. induction items as [|x items IH]; simpl.
  - apply quiet_ret.
  - apply quiet_bind; [apply Hb | intros _; apply IH].
Qed.

(** A call followed by quiet statements: the world is the one the call
    leaves, and what the call raises is what the whole raises. *)
Lemma call_then_quiet {A B} (m : M A) (k : A -> S B) (p : Process) :
  (forall a, quiet (k a)) ->
  exists r p',
    (x ← call m; k x) p = Some (r, p') /\
    world p' = (m (world p)).2 /\ stderr p' = stderr p /\
    (forall c msg, (m (world p)).1 = Raise c msg ->
                   r = Raise c msg /\ p' = moved (m (world p)).2 p).
Proof.
  intros Hk. rewrite call_then.
  destruct (m (world p)) as [[a|c msg] w'] eqn:Hm; simpl.
  - destruct (Hk a (moved w' p)) as (r & p' & Hr & Hw & He).
    exists r, p'. split; [done|]. split; [done|]. split; [done|].
    intros c msg [=].
  - eexists _, _. split; [done|]. split; [done|]. split; [done|].
    by intros ? ? [= <- <-].
Qed.

Lemma call_then_quiet_ends {A B} (m : M A) (k : A -> S B) (p : Process) (w' : World) :
  (forall a, quiet (k a)) ->
  (m (world p)).2 = w' ->
  exists r p',
    (x ← call m; k x) p = Some (r, p') /\ world p' = w' /\ stderr p' = stderr p.
Proof.
  intros Hk <-. destruct (call_then_quiet m k p Hk) as (r & p' & Hr & Hw & He & _).
  by exists r, p'.
Qed.

Lemma quiet_report (droplet : value) : quiet (report host droplet).
Proof.
  unfold report. repeat (apply quiet_bind; [apply quiet_say | intros _]).
  apply quiet_say.
Qed.

End Statements.

(** X19: a missing setting ends [main] before anything is sent.  With the
    credential unset or empty, and otherwise with the snapshot id unset or
    empty, [main] prints the two lines that name the missing variable on
    the standard stream and exits with status 1; the world of the client
    and the error stream are untouched. *)
Theorem main_refuses_missing_settings (host : Host) (fuel : nat)
    (environ : gmap string string) (p : Script.Process) :
  (unset_or_empty environ "DIGITALOCEAN_API_TOKEN" ->
   Script.main host fuel environ p
   = Some (Script.Exits 1,
           Script.said "Please set it using: export DIGITALOCEAN_API_TOKEN='your-token'"
             (Script.said "Error: DIGITALOCEAN_API_TOKEN environment variable not set" p))) /\
  (~ unset_or_empty environ "DIGITALOCEAN_API_TOKEN" ->
   unset_or_empty environ "SNAPSHOT_ID" ->
   Script.main host fuel environ p
   = Some (Script.Exits 1,
           Script.said "Please set it using: export SNAPSHOT_ID='snapshot-id-or-slug'"
             (Script.said "Error: SNAPSHOT_ID environment variable is required" p))).
Proof.
  unfold unset_or_empty, Script.main, Deploy.getenv_truthy, Deploy.getenv. split.
  - by intros [-> | ->].
  - intros Ht Hs.
    destruct (environ !! "DIGITALOCEAN_API_TOKEN") as [t|]; [|tauto].
    destruct (String.eqb_spec t ""); [subst; tauto|]. simpl.
    unfold Deploy.getenv.
    by destruct Hs as [-> | ->].
Qed.

Lemma main_refuses_missing_settings_witness :
  Script.main Sim.offline 0 {[ "DIGITALOCEAN_API_TOKEN" := "dop_v1_token" ]}
    {| Script.stdout := []; Script.stderr := []; Script.world := Sim.dawn |}
  = Some (Script.Exits 1,
          {| Script.stdout :=
               [ "Error: SNAPSHOT_ID environment variable is required";
                 "Please set it using: export SNAPSHOT_ID='snapshot-id-or-slug'" ];
             Script.stderr := []; Script.world := Sim.dawn |}).
Proof.
  refine (proj2 (main_refuses_missing_settings Sim.offline 0
                   {[ "DIGITALOCEAN_API_TOKEN" := "dop_v1_token" ]} _) _ _).
  - intros [H | H]; discriminate H.
  - left; reflexivity.
Defined.

Section MainSteps.
Import Client Script.
Context (host : Host).

(** Statements after which the world is the one the first left *)
Lemma bind_pure_world {A B} (m : M A) (k : A -> M B) (w : World) :
  (forall a w1, (k a w1).2 = w1) -> ((a ← m; k a) w).2 = (m w).2.
Proof.
  intros Hk. unfold mbind, M_bind.
  destruct (m w) as [[a|c msg] w1]; simpl; [apply Hk | done].
Qed.

Lemma get_snapshot_world (api : DigitalOceanAPI) (snapshot_id : string) (w : World) :
  (Deploy.get_snapshot host api (PyStr snapshot_id) w).2
  = sent host (snapshot_request api snapshot_id) w.
Proof.
  unfold Deploy.get_snapshot, Deploy._make_request.
  by rewrite lift_after_world, make_request_get_world.
Qed.

Lemma get_gpu_sizes_world (api : DigitalOceanAPI) (w : World) :
  (Deploy.get_gpu_sizes host api w).2 = sent host (sizes_request api) w.
Proof.
  unfold Deploy.get_gpu_sizes, Deploy._make_request.
  rewrite bind_pure_world; [apply make_request_get_world|].
  intros a w1. unfold mbind, M_bind, lift. by destruct (get a "sizes" (PyList [])).
Qed.

Lemma create_from_config_world (api : DigitalOceanAPI) (config : Deploy.Config)
    (snapshot_id : string) (w : World) :
  (create_from_config host api config snapshot_id w).2
  = sent host (creation_request api config snapshot_id) w.
Proof.
  unfold create_from_config, Deploy.create_droplet, Deploy._make_request.
  by rewrite lift_after_world, make_request_post_world.
Qed.

Lemma quiet_show_line (size : value) :
  quiet (slug ← eval (get size "slug" PyNone);
         description ← eval (get size "description" PyNone);
         say ("  - " +:+ show host slug +:+ ": " +:+ show host description)).
Proof.
  apply quiet_bind; [apply quiet_eval | intros slug].
  apply quiet_bind; [apply quiet_eval | intros description]. apply quiet_say.
Qed.

Lemma quiet_after_sizes (gpu_sizes : value) :
  quiet (if truthy gpu_sizes then
           _ ← say "Available GPU sizes:";
           shown ← eval (first_five gpu_sizes);
           for_each shown (fun size =>
             slug ← eval (get size "slug" PyNone);
             description ← eval (get size "description" PyNone);
             say ("  - " +:+ show host slug +:+ ": " +:+ show host description))
         else
           say "Warning: No GPU sizes found. Make sure you're using a GPU-enabled size slug.").
Proof.
  destruct (truthy gpu_sizes); [|apply quiet_say].
  apply quiet_bind; [apply quiet_say | intros _].
  apply quiet_bind; [apply quiet_eval | intros shown].
  apply quiet_for_each. intros size. apply quiet_show_line.
Qed.

Lemma quiet_address_line (addr : value) :
  quiet (addr_type ← eval (get addr "type" (PyStr "unknown"));
         ip ← eval (get addr "ip_address" (PyStr "N/A"));
         shouted ← eval (str_upper addr_type);
         say ("  " +:+ shouted +:+ ": " +:+ show host ip)).
Proof.
  apply quiet_bind; [apply quiet_eval | intros addr_type].
  apply quiet_bind; [apply quiet_eval | intros ip].
  apply quiet_bind; [apply quiet_eval | intros shouted]. apply quiet_say.
Qed.

Lemma quiet_after_wait (droplet : value) :
  quiet (_ ← say "✓ Droplet is now active!";
         networks ← eval (get droplet "networks" (PyDict ∅));
         v4_addresses ← eval (get networks "v4" (PyList []));
         _ ← (if truthy v4_addresses then
                _ ← say (nl +:+ "Network Information:");
                addresses ← eval (iterate v4_addresses);
                for_each addresses (fun addr =>
                  addr_type ← eval (get addr "type" (PyStr "unknown"));
                  ip ← eval (get addr "ip_address" (PyStr "N/A"));
                  shouted ← eval (str_upper addr_type);
                  say ("  " +:+ shouted +:+ ": " +:+ show host ip))
              else mret tt);
         mret droplet).
Proof.
  apply quiet_bind; [apply quiet_say | intros _].
  apply quiet_bind; [apply quiet_eval | intros networks].
  apply quiet_bind; [apply quiet_eval | intros v4_addresses].
  apply quiet_bind; [|intros _; apply quiet_ret].
  destruct (truthy v4_addresses); [|apply quiet_ret].
  apply quiet_bind; [apply quiet_say | intros _].
  apply quiet_bind; [apply quiet_eval | intros addresses].
  apply quiet_for_each. intros addr. apply quiet_address_line.
Qed.

Lemma quiet_after_create (droplet : value) :
  quiet (droplet_id ← eval (get droplet "id" PyNone);
         _ ← say (nl +:+ "✓ Droplet created successfully!");
         _ ← say ("  Droplet ID: " +:+ show host droplet_id);
         name ← eval (get droplet "name" PyNone);
         _ ← say ("  Name: " +:+ show host name);
         status ← eval (get droplet "status" PyNone);
         _ ← say ("  Status: " +:+ show host status);
         mret (droplet, droplet_id)).
Proof.
  apply quiet_bind; [apply quiet_eval | intros droplet_id].
  apply quiet_bind; [apply quiet_say | intros _].
  apply quiet_bind; [apply quiet_say | intros _].
  apply quiet_bind; [apply quiet_eval | intros name].
  apply quiet_bind; [apply quiet_say | intros _].
  apply quiet_bind; [apply quiet_eval | intros status].
  apply quiet_bind; [apply quiet_say | intros _].
  apply quiet_ret.
Qed.

(** Each of the three steps before the wait sends its one request,
    whatever becomes of it. *)
Lemma verify_snapshot_ends (api : DigitalOceanAPI) (snapshot_id : string) (p : Process) :
  exists r p',
    verify_snapshot host api snapshot_id p = Some (r, p') /\
    world p' = sent host (snapshot_request api snapshot_id) (world p) /\
    stderr p' = stderr p.
Proof.
  unfold verify_snapshot. rewrite say_then.
  refine (call_then_quiet_ends _ _ (said _ p) _ _ _).
  - intros snapshot.
    apply quiet_bind; [apply quiet_eval | intros name].
    apply quiet_bind; [apply quiet_eval | intros id]. apply quiet_say.
  - apply get_snapshot_world.
Qed.

Lemma show_gpu_sizes_ends (api : DigitalOceanAPI) (p : Process) :
  exists r p',
    show_gpu_sizes host api p = Some (r, p') /\
    world p' = sent host (sizes_request api) (world p) /\
    stderr p' = stderr p.
Proof.
  unfold show_gpu_sizes. rewrite say_then.
  refine (call_then_quiet_ends _ _ (said _ p) _ _ _).
  - intros gpu_sizes. apply quiet_after_sizes.
  - apply get_gpu_sizes_world.
Qed.

Lemma create_ends (api : DigitalOceanAPI) (config : Deploy.Config)
    (snapshot_id : string) (p : Process) :
  exists r p',
    create host api config snapshot_id p = Some (r, p') /\
    world p' = sent host (creation_request api config snapshot_id) (world p) /\
    stderr p' = stderr p.
Proof.
  unfold create. rewrite !say_then.
  refine (call_then_quiet_ends _ _ (said _ (said _ (said _ (said _ p)))) _ _ _).
  - intros droplet. apply quiet_after_create.
  - apply create_from_config_world.
Qed.

End MainSteps.

Section MainRequests.
Import Client Script.
Context (host : Host).

Lemma S_bind_inv {A B} (m : S A) (k : A -> S B) (p p' : Process) (r : result B) :
  (x ← m; k x) p = Some (r, p') ->
  (exists a p1, m p = Some (Ok a, p1) /\ k a p1 = Some (r, p')) \/
  (exists c msg, m p = Some (Raise c msg, p') /\ r = Raise c msg).
Proof.
  unfold mbind, S_bind. destruct (m p) as [[[a|c msg] p1]|]; [| |done].
  - intros H. left. eauto.
  - intros [= <- <-]. right. eauto.
Qed.

Lemma quiet_inv {A} (m : S A) (p p' : Process) (r : result A) :
  quiet m -> m p = Some (r, p') -> world p' = world p /\ stderr p' = stderr p.
Proof.
  intros Hq H. destruct (Hq p) as (r0 & p0 & H0 & Hw & He).
  rewrite H0 in H. by injection H as <- <-.
Qed.

(** All requests of a wait are polls of the droplet, and when no request
    takes negative time every poll but the first starts 5 units of time
    or more after the one before. *)
Lemma wait_only_polls (fuel : nat) (api : DigitalOceanAPI) (droplet_id : value)
    (timeout : option Z) (w w' : World) (r : result value) :
  Deploy.wait_for_droplet host fuel api droplet_id timeout w = Some (r, w') ->
  exists n : nat,
    outbox w' = outbox w ++ replicate n (poll_request host api droplet_id) /\
    ((forall j, 0 <= latency host j) ->
     n = 0%nat \/ 5 * (Z.of_nat n - 1) < default 300 timeout).
Proof.
  unfold Deploy.wait_for_droplet. intros H.
  apply wait_loop_ends in H as (n & Hbefore & Hlast). simpl in Hlast.
  destruct Hlast as [(_ & _ & ->) | (Hb & _ & ->)].
  - exists n. split; [apply after_rounds_outbox|]. intros Hl.
    destruct n as [|n]; [by left|]. right.
    destruct (Hbefore n ltac:(lia)) as [_ Hbn].
    pose proof (after_rounds_now host api droplet_id n w Hl). lia.
  - exists (Datatypes.S n). split.
    + rewrite fetched_outbox, after_rounds_outbox.
      by rewrite replicate_S_end, app_assoc.
    + intros Hl. right.
      pose proof (after_rounds_now host api droplet_id n w Hl). lia.
Qed.

Lemma await_ends (fuel : nat) (api : DigitalOceanAPI) (droplet_id : value)
    (p p' : Process) (r : result value) :
  await host fuel api droplet_id p = Some (r, p') ->
  stderr p' = stderr p /\
  exists n : nat,
    outbox (world p')
    = outbox (world p) ++ replicate n (poll_request host api droplet_id) /\
    ((forall j, 0 <= latency host j) -> (n <= 60)%nat).
Proof.
  unfold await. rewrite say_then. intros H.
  apply S_bind_inv in H as [(d & p1 & H1 & H) | (c & msg & H1 & ->)].
  - destruct (Deploy.wait_for_droplet _ _ _ _ _ _) as [[r0 w']|] eqn:Hw; [|done].
    injection H1 as -> <-.
    apply (quiet_inv _ _ _ _ (quiet_after_wait host d)) in H as [Hw' He].
    split; [by rewrite He|]. rewrite Hw'. simpl.
    apply wait_only_polls in Hw as (n & Hn & Hbound).
    exists n. split; [done|]. intros Hl. specialize (Hbound Hl). simpl in Hbound. lia.
  - destruct (Deploy.wait_for_droplet _ _ _ _ _ _) as [[r0 w']|] eqn:Hw; [|done].
    injection H1 as -> <-. split; [done|]. simpl.
    apply wait_only_polls in Hw as (n & Hn & Hbound).
    exists n. split; [done|]. intros Hl. specialize (Hbound Hl). simpl in Hbound. lia.
Qed.

(** The requests of the [try] block: the lookup of the snapshot, the
    listing of the sizes, the creation, then polls; the block stops at the
    first step that raises. *)
Lemma attempt_requests (fuel : nat) (api : DigitalOceanAPI) (config : Deploy.Config)
    (snapshot_id : string) (p p' : Process) (r : result unit) :
  attempt host fuel api config snapshot_id p = Some (r, p') ->
  stderr p' = stderr p /\
  exists (k n : nat) (droplet_id : value),
    outbox (world p')
    = outbox (world p)
        ++ take k [ snapshot_request api snapshot_id; sizes_request api;
                    creation_request api config snapshot_id ]
        ++ replicate n (poll_request host api droplet_id) /\
    ((k < 3)%nat -> n = 0%nat) /\
    (Deploy.wait_for_active config = false -> n = 0%nat) /\
    ((exists a, r = Ok a) -> k = 3%nat) /\
    ((forall j, 0 <= latency host j) -> (n <= 60)%nat).
Proof.
  unfold attempt. intros H.
  destruct (verify_snapshot_ends host api snapshot_id p) as (r1 & p1 & H1 & Hw1 & He1).
  apply S_bind_inv in H as [(a1 & q1 & E1 & H) | (c & msg & E1 & ->)];
    rewrite H1 in E1; injection E1 as -> <-.
  2:{ split; [done|]. exists 1%nat, 0%nat, PyNone. rewrite Hw1. simpl.
      split; [done|]. split; [done|]. split; [done|].
      split; [by intros [a [=]] | lia]. }
  destruct (show_gpu_sizes_ends host api p1) as (r2 & p2 & H2 & Hw2 & He2).
  apply S_bind_inv in H as [(a2 & q2 & E2 & H) | (c & msg & E2 & ->)];
    rewrite H2 in E2; injection E2 as -> <-.
  2:{ split; [congruence|]. exists 2%nat, 0%nat, PyNone. rewrite Hw2, Hw1. simpl.
      rewrite <- app_assoc. split; [done|]. split; [done|]. split; [done|].
      split; [by intros [a [=]] | lia]. }
  destruct (create_ends host api config snapshot_id p2) as (r3 & p3 & H3 & Hw3 & He3).
  apply S_bind_inv in H as [(created & q3 & E3 & H) | (c & msg & E3 & ->)];
    rewrite H3 in E3; injection E3 as -> <-.
  2:{ split; [congruence|]. exists 3%nat, 0%nat, PyNone. rewrite Hw3, Hw2, Hw1. simpl.
      rewrite <- !app_assoc. split; [done|]. split; [done|]. split; [done|].
      split; [by intros [a [=]] | lia]. }
  assert (outbox (world p3)
          = outbox (world p)
              ++ [ snapshot_request api snapshot_id; sizes_request api;
                   creation_request api config snapshot_id ]) as Hthree.
  { rewrite Hw3, Hw2, Hw1. simpl. by rewrite <- !app_assoc. }
  destruct (Deploy.wait_for_active config) eqn:Hwait.
  - apply S_bind_inv in H as [(d & p4 & E4 & H) | (c & msg & E4 & ->)].
    + apply await_ends in E4 as (He4 & n & Hn & Hbound).
      apply (quiet_inv _ _ _ _ (quiet_report host d)) in H as [Hw5 He5].
      split; [congruence|]. exists 3%nat, n, created.2.
      rewrite Hw5, Hn, Hthree. rewrite <- app_assoc.
      split; [done|]. split; [lia|]. split; [done|]. done.
    + apply await_ends in E4 as (He4 & n & Hn & Hbound).
      split; [congruence|]. exists 3%nat, n, created.2.
      rewrite Hn, Hthree. rewrite <- app_assoc.
      split; [done|]. split; [lia|]. split; [done|]. done.
  - change ((droplet ← mret created.1; report host droplet) p3)
      with (report host created.1 p3) in H.
    apply (quiet_inv _ _ _ _ (quiet_report host created.1)) in H as [Hw5 He5].
    split; [congruence|]. exists 3%nat, 0%nat, PyNone.
    rewrite Hw5, Hthree. simpl.
    split; [done|]. split; [done|]. split; [done|]. split; [done | lia].
Qed.

Lemma main_configured (fuel : nat) (environ : gmap string string)
    (token snapshot_id : string) (p : Process) :
  configured environ token snapshot_id ->
  main host fuel environ p
  = match attempt host fuel (__init__ token) (Deploy.config environ) snapshot_id
            (said "Initializing DigitalOcean API client..." p) with
    | Some (Ok _, p') => Some (Returns, p')
    | Some (Raise _ msg, p') => Some (Exits 1, complain (nl +:+ "✗ Error: " +:+ msg) p')
    | None => None
    end.
Proof.
  intros (Ht & Hne & Hs & Hsne). unfold main.
  unfold Deploy.getenv_truthy, Deploy.getenv_or, Deploy.getenv. rewrite Ht. simpl.
  destruct (String.eqb_spec token ""); [done|]. simpl.
  unfold Deploy.getenv. rewrite Hs.
  destruct (String.eqb_spec snapshot_id ""); [done|].
  by rewrite say_then.
Qed.

End MainRequests.

Section MainOutcomes.
Import Client Script.
Context (host : Host).

Lemma S_bind_ok {A B} (m : S A) (k : A -> S B) (p p1 : Process) (a : A) :
  m p = Some (Ok a, p1) -> (x ← m; k x) p = k a p1.
Proof. intros H. unfold mbind, S_bind. by rewrite H. Qed.

Lemma S_bind_raise {A B} (m : S A) (k : A -> S B) (p p1 : Process)
    (c : exn_class) (msg : string) :
  m p = Some (Raise c msg, p1) -> (x ← m; k x) p = Some (Raise c msg, p1).
Proof. intros H. unfold mbind, S_bind. by rewrite H. Qed.

Lemma verify_snapshot_raises (api : DigitalOceanAPI) (snapshot_id : string)
    (p : Process) (c : exn_class) (msg : string) :
  (Deploy.get_snapshot host api (PyStr snapshot_id) (world p)).1 = Raise c msg ->
  exists p',
    verify_snapshot host api snapshot_id p = Some (Raise c msg, p') /\
    world p' = sent host (snapshot_request api snapshot_id) (world p) /\
    stderr p' = stderr p.
Proof.
  intros H. unfold verify_snapshot. rewrite say_then, call_then.
  pose proof (get_snapshot_world host api snapshot_id (world p)) as Hw.
  simpl in *.
  destruct (Deploy.get_snapshot host api (PyStr snapshot_id) (world p)) as [r w1].
  simpl in *. subst r w1. by eexists.
Qed.

Lemma verify_snapshot_ok (api : DigitalOceanAPI) (snapshot_id : string)
    (p : Process) (ms : gmap string value) (w1 : World) :
  Deploy.get_snapshot host api (PyStr snapshot_id) (world p) = (Ok (PyDict ms), w1) ->
  exists p',
    verify_snapshot host api snapshot_id p = Some (Ok tt, p') /\
    world p' = w1 /\ stderr p' = stderr p.
Proof.
  intros H. unfold verify_snapshot. rewrite say_then, call_then. simpl.
  rewrite H. rewrite !eval_then. simpl. by eexists.
Qed.

Lemma show_gpu_sizes_raises (api : DigitalOceanAPI) (p : Process)
    (c : exn_class) (msg : string) :
  (Deploy.get_gpu_sizes host api (world p)).1 = Raise c msg ->
  exists p',
    show_gpu_sizes host api p = Some (Raise c msg, p') /\
    world p' = sent host (sizes_request api) (world p) /\
    stderr p' = stderr p.
Proof.
  intros H. unfold show_gpu_sizes. rewrite say_then, call_then.
  pose proof (get_gpu_sizes_world host api (world p)) as Hw.
  simpl in *.
  destruct (Deploy.get_gpu_sizes host api (world p)) as [r w1].
  simpl in *. subst r w1. by eexists.
Qed.

Lemma is_gpu_size_dictionary (size : value) (keep : bool) :
  is_gpu_size size = Ok keep -> dictionary size.
Proof. destruct size; try discriminate. intros _. by eexists. Qed.

Lemma filter_list_gpu_dictionaries (sizes kept : list value) :
  filter_list is_gpu_size sizes = Ok kept -> Forall dictionary kept.
Proof.
  revert kept; induction sizes as [|size sizes IH]; intros kept; simpl.
  - intros [= <-]. constructor.
  - destruct (is_gpu_size size) as [keep|] eqn:Hs; simpl; [|discriminate].
    destruct (filter_list is_gpu_size sizes) as [kept'|]; simpl; [|discriminate].
    intros [= <-]. destruct keep; [|by apply IH].
    constructor; [by eapply is_gpu_size_dictionary | by apply IH].
Qed.

Lemma filter_list_strings (strings : list string) (kept : list value) :
  filter_list is_gpu_size (PyStr <$> strings) = Ok kept -> kept = [].
Proof. destruct strings; simpl; [by intros [= <-] | discriminate]. Qed.

Lemma characters_strings (s : string) : exists strings, characters s = PyStr <$> strings.
Proof.
  induction s as [|c s [strings IH]]; [by exists []|].
  exists (String c EmptyString :: strings). simpl. by rewrite IH.
Qed.

(** What [get_gpu_sizes] returns is a list of dictionaries. *)
Lemma get_gpu_sizes_returns (api : DigitalOceanAPI) (w w' : World) (v : value) :
  Deploy.get_gpu_sizes host api w = (Ok v, w') ->
  exists kept, v = PyList kept /\ Forall dictionary kept.
Proof.
  unfold Deploy.get_gpu_sizes, mbind, M_bind, lift.
  destruct (Deploy._make_request host api "GET" "/sizes" PyNone w) as [[response|] w1];
    [|discriminate].
  destruct (get response "sizes" (PyList [])) as [sizes|]; [|discriminate].
  intros [= H _]. unfold comprehension in H.
  destruct sizes as [| | |s|l|m]; try discriminate H.
  - destruct (characters_strings s) as [strings Hs]. rewrite Hs in H.
    destruct (filter_list is_gpu_size (PyStr <$> strings)) as [kept|] eqn:Hf;
      [|discriminate H].
    injection H as <-. apply filter_list_strings in Hf as ->.
    exists []. split; [done | constructor].
  - destruct (filter_list is_gpu_size l) as [kept|] eqn:Hf; [|discriminate H].
    injection H as <-. exists kept. split; [done|].
    by apply filter_list_gpu_dictionaries in Hf.
  - destruct (filter_list is_gpu_size (PyStr <$> (map_to_list m).*1)) as [kept|] eqn:Hf;
      [|discriminate H].
    injection H as <-. apply filter_list_strings in Hf as ->.
    exists []. split; [done | constructor].
Qed.

Lemma for_each_ok (items : list value) (body : value -> S unit) (p : Process) :
  Forall (fun x => forall q, exists q',
            body x q = Some (Ok tt, q') /\ world q' = world q /\ stderr q' = stderr q)
         items ->
  exists p',
    for_each items body p = Some (Ok tt, p') /\
    world p' = world p /\ stderr p' = stderr p.
Proof.
  intros H. revert p. induction H as [|x items Hx _ IH]; intros p; simpl.
  - by eexists.
  - destruct (Hx p) as (p1 & H1 & Hw1 & He1).
    rewrite (S_bind_ok _ _ p p1 tt H1).
    destruct (IH p1) as (p' & Hp & Hw & He).
    exists p'. split; [exact Hp|]. split; congruence.
Qed.

Lemma for_each_sizes_ok (items : list value) (p : Process) :
  Forall dictionary items ->
  exists p',
    for_each items (fun size =>
      slug ← eval (get size "slug" PyNone);
      description ← eval (get size "description" PyNone);
      say ("  - " +:+ show host slug +:+ ": " +:+ show host description)) p
    = Some (Ok tt, p') /\
    world p' = world p /\ stderr p' = stderr p.
Proof.
  intros H. apply for_each_ok.
  eapply Forall_impl; [exact H|]. intros size [m ->] q.
  rewrite !eval_then. simpl. by eexists.
Qed.

Lemma show_gpu_sizes_ok (api : DigitalOceanAPI) (p : Process) (v : value) (w2 : World) :
  Deploy.get_gpu_sizes host api (world p) = (Ok v, w2) ->
  exists p',
    show_gpu_sizes host api p = Some (Ok tt, p') /\
    world p' = w2 /\ stderr p' = stderr p.
Proof.
  intros H. destruct (get_gpu_sizes_returns api _ _ _ H) as (kept & -> & Hd).
  unfold show_gpu_sizes. rewrite say_then, call_then. simpl. rewrite H.
  destruct kept as [|size kept]; simpl; [by eexists|].
  rewrite say_then, eval_then. simpl.
  apply (Forall_take _ 5%nat) in Hd.
  destruct (for_each_sizes_ok (take 5 (size :: kept))
              (said "Available GPU sizes:"
                 (moved w2 (said (nl +:+ "Fetching available GPU sizes...") p))) Hd)
    as (p' & Hp & Hw & He).
  exists p'. split; [exact Hp|]. done.
Qed.

Lemma create_ok (api : DigitalOceanAPI) (config : Deploy.Config) (snapshot_id : string)
    (p : Process) (md : gmap string value) (w3 : World) :
  create_from_config host api config snapshot_id (world p) = (Ok (PyDict md), w3) ->
  exists p',
    create host api config snapshot_id p
    = Some (Ok (PyDict md, default PyNone (md !! "id")), p') /\
    world p' = w3 /\ stderr p' = stderr p.
Proof.
  intros H. unfold create. rewrite !say_then, call_then. simpl. rewrite H.
  rewrite eval_then. simpl. rewrite !say_then, eval_then. simpl.
  rewrite say_then, eval_then. simpl. rewrite say_then. by eexists.
Qed.

Lemma report_ok (droplet : value) (p : Process) :
  exists p',
    report host droplet p = Some (Ok tt, p') /\
    world p' = world p /\ stderr p' = stderr p /\
    last (stdout p') = Some (dumps host droplet).
Proof.
  unfold report. rewrite !say_then. eexists. split; [reflexivity|].
  split; [done|]. split; [done|]. simpl. apply last_snoc.
Qed.

Lemma for_each_addresses_ok (items : list value) (p : Process) :
  Forall address_entry items ->
  exists p',
    for_each items (fun addr =>
      addr_type ← eval (get addr "type" (PyStr "unknown"));
      ip ← eval (get addr "ip_address" (PyStr "N/A"));
      shouted ← eval (str_upper addr_type);
      say ("  " +:+ shouted +:+ ": " +:+ show host ip)) p
    = Some (Ok tt, p') /\
    world p' = world p /\ stderr p' = stderr p.
Proof.
  intros H. apply for_each_ok.
  eapply Forall_impl; [exact H|]. intros addr (ma & -> & Ht) q.
  assert (exists s, default (PyStr "unknown") (ma !! "type") = PyStr s) as [s Hs].
  { destruct Ht as [-> | [s ->]]; simpl; eauto. }
  rewrite !eval_then. simpl. rewrite Hs. simpl. rewrite eval_then. by eexists.
Qed.

(** The statements of [await] after the wait, for a droplet whose
    addresses can be printed *)
Lemma after_wait_ok (d : value) (p : Process) :
  networks_printable d ->
  exists p',
    (_ ← say "✓ Droplet is now active!";
     networks ← eval (get d "networks" (PyDict ∅));
     v4_addresses ← eval (get networks "v4" (PyList []));
     _ ← (if truthy v4_addresses then
            _ ← say (nl +:+ "Network Information:");
            addresses ← eval (iterate v4_addresses);
            for_each addresses (fun addr =>
              addr_type ← eval (get addr "type" (PyStr "unknown"));
              ip ← eval (get addr "ip_address" (PyStr "N/A"));
              shouted ← eval (str_upper addr_type);
              say ("  " +:+ shouted +:+ ": " +:+ show host ip))
          else mret tt);
     mret d) p
    = Some (Ok d, p') /\
    world p' = world p /\ stderr p' = stderr p.
Proof.
  intros (m & -> & Hn). rewrite say_then, eval_then. simpl.
  destruct (m !! "networks") as [[| | | | |mn]|]; simpl in *; try done.
  - rewrite eval_then. simpl.
    destruct (mn !! "v4") as [[| | | |addrs|]|]; simpl in *; try done.
    + destruct addrs as [|addr addrs]; simpl; [by eexists|].
      destruct (for_each_addresses_ok (addr :: addrs)
                  (said (nl +:+ "Network Information:")
                     (said "✓ Droplet is now active!" p)) Hn)
        as (p' & Hp & Hw' & He).
      rewrite (S_bind_ok _ _ _ p' tt).
      * exists p'. split; [reflexivity|]. done.
      * rewrite say_then, eval_then. exact Hp.
    + by eexists.
  - rewrite eval_then. simpl. by eexists.
Qed.

Lemma await_ok (fuel : nat) (api : DigitalOceanAPI) (droplet_id : value)
    (p : Process) (d : value) (w4 : World) :
  Deploy.wait_for_droplet host fuel api droplet_id None (world p) = Some (Ok d, w4) ->
  networks_printable d ->
  exists p',
    await host fuel api droplet_id p = Some (Ok d, p') /\
    world p' = w4 /\ stderr p' = stderr p.
Proof.
  intros Hw Hn. unfold await. rewrite say_then.
  rewrite (S_bind_ok _ _ _
             (moved w4 (said (nl +:+ "Waiting for droplet to become active...") p))
             d) by (simpl; by rewrite Hw).
  destruct (after_wait_ok d
              (moved w4 (said (nl +:+ "Waiting for droplet to become active...") p)) Hn)
    as (p' & Hp & Hw' & He).
  exists p'. split; [exact Hp|]. done.
Qed.

Lemma await_raises (fuel : nat) (api : DigitalOceanAPI) (droplet_id : value)
    (p : Process) (c : exn_class) (msg : string) (w4 : World) :
  Deploy.wait_for_droplet host fuel api droplet_id None (world p)
    = Some (Raise c msg, w4) ->
  exists p',
    await host fuel api droplet_id p = Some (Raise c msg, p') /\
    world p' = w4 /\ stderr p' = stderr p.
Proof.
  intros Hw. unfold await. rewrite say_then.
  exists (moved w4 (said (nl +:+ "Waiting for droplet to become active...") p)).
  split; [|done]. apply S_bind_raise. simpl. by rewrite Hw.
Qed.

End MainOutcomes.

Section MainCases.
Import Client Script.
Context (host : Host).

Lemma main_cases (fuel : nat) (environ : gmap string string) (p : Process) :
  (exists token snapshot_id, configured environ token snapshot_id) \/
  (exists p', main host fuel environ p = Some (Exits 1, p') /\
              world p' = world p /\ stderr p' = stderr p).
Proof.
  unfold configured, main, Deploy.getenv_truthy, Deploy.getenv.
  destruct (environ !! "DIGITALOCEAN_API_TOKEN") as [t|] eqn:Ht;
    [|right; by eexists].
  destruct (String.eqb_spec t ""); [right; by eexists|]. simpl.
  unfold Deploy.getenv.
  destruct (environ !! "SNAPSHOT_ID") as [sid|] eqn:Hs; [|right; by eexists].
  destruct (String.eqb_spec sid ""); [right; by eexists|].
  left. by exists t, sid.
Qed.

Lemma configured_reads (environ : gmap string string) (token snapshot_id : string) :
  configured environ token snapshot_id ->
  Deploy.getenv_or environ "DIGITALOCEAN_API_TOKEN" "" = token /\
  Deploy.snapshot_id (Deploy.config environ) = Some snapshot_id.
Proof.
  intros (Ht & _ & Hs & _). unfold Deploy.getenv_or. simpl. unfold Deploy.getenv.
  by rewrite Ht, Hs.
Qed.

End MainCases.

(** X20: the requests of a run of [main].  Whatever the environment and
    the remote service, a run that ends returns or exits with status 1,
    and has sent, in this order, a beginning of: the lookup of the
    snapshot, the listing of the sizes, one creation, then polls of one
    droplet.  Polls come only after the creation and only when waiting is
    on; a run that returns has made the creation; nothing is deleted and
    no second creation is made. *)
Theorem main_requests (host : Host) (fuel : nat) (environ : gmap string string)
    (p p' : Script.Process) (e : Script.Ending) :
  Script.main host fuel environ p = Some (e, p') ->
  let api := Client.__init__ (Deploy.getenv_or environ "DIGITALOCEAN_API_TOKEN" "") in
  let config := Deploy.config environ in
  let snapshot_id := default "" (Deploy.snapshot_id config) in
  (e = Script.Returns \/ e = Script.Exits 1) /\
  (e = Script.Returns -> Script.stderr p' = Script.stderr p) /\
  exists (k n : nat) (droplet_id : value),
    outbox (Script.world p')
    = outbox (Script.world p)
        ++ take k [ snapshot_request api snapshot_id; sizes_request api;
                    creation_request api config snapshot_id ]
        ++ replicate n (poll_request host api droplet_id) /\
    ((k < 3)%nat -> n = 0%nat) /\
    (Deploy.wait_for_active config = false -> n = 0%nat) /\
    (e = Script.Returns -> k = 3%nat).
Proof.
  intros H api config snapshot_id.
  destruct (main_cases host fuel environ p)
    as [(token & sid & Hc) | (q & Hq & Hw & He)].
  - destruct (configured_reads environ token sid Hc) as [Htoken Hsid].
    subst api snapshot_id config. rewrite Htoken, Hsid. simpl.
    rewrite (main_configured host fuel environ token sid p Hc) in H.
    destruct (Script.attempt _ _ _ _ _ _) as [[[a|c msg] q]|] eqn:Ha; [| |done].
    + injection H as <- <-.
      apply attempt_requests in Ha as (He & k & n & id & Hout & Hk & Hwait & Hok & _).
      split; [by left|]. split; [done|].
      exists k, n, id. split; [exact Hout|]. split; [done|]. split; [done|].
      intros _. apply Hok. eauto.
    + injection H as <- <-.
      apply attempt_requests in Ha as (He & k & n & id & Hout & Hk & Hwait & Hok & _).
      split; [by right|]. split; [done|].
      exists k, n, id. split; [exact Hout|]. split; [done|]. split; [done|]. done.
  - rewrite Hq in H. injection H as <- <-.
    split; [by right|]. split; [done|].
    exists 0%nat, 0%nat, PyNone. rewrite Hw. simpl. rewrite app_nil_r.
    split; [done|]. split; [done|]. split; [done|]. done.
Qed.

Lemma main_requests_witness :
  let p := {| Script.stdout := []; Script.stderr := []; Script.world := Sim.dawn |} in
  let environ : gmap string string :=
    {[ "DIGITALOCEAN_API_TOKEN" := "dop_v1_token"; "SNAPSHOT_ID" := "snap-1" ]} in
  let api := Client.__init__ "dop_v1_token" in
  let p' := Script.complain (Script.nl +:+ "✗ Error: offline")
              (Script.moved (sent Sim.offline (snapshot_request api "snap-1") Sim.dawn)
                 (Script.said "Verifying snapshot: snap-1"
                    (Script.said "Initializing DigitalOcean API client..." p))) in
  exists (k n : nat) (droplet_id : value),
    outbox (Script.world p')
    = outbox (Script.world p)
        ++ take k [ snapshot_request api "snap-1"; sizes_request api;
                    creation_request api (Deploy.config environ) "snap-1" ]
        ++ replicate n (poll_request Sim.offline api droplet_id) /\
    ((k < 3)%nat -> n = 0%nat) /\
    (Deploy.wait_for_active (Deploy.config environ) = false -> n = 0%nat) /\
    (Script.Exits 1 = Script.Returns -> k = 3%nat).
Proof.
  intros p environ api p'.
  refine (proj2 (proj2 (main_requests Sim.offline 0 environ p p' (Script.Exits 1) _))).
  reflexivity.
Defined.

(** X21: a failure before the creation leaves nothing created.  When the
    lookup of the snapshot raises, [main] exits with status 1 after that
    one request; when the lookup succeeds and the listing of the GPU
    sizes raises, [main] exits with status 1 after those two requests.
    Either way the line with the error is the only addition to the error
    stream, and the creation request is never sent. *)
Theorem main_fails_before_creation (host : Host) (fuel : nat)
    (environ : gmap string string) (token snapshot_id : string) (p : Script.Process) :
  configured environ token snapshot_id ->
  let api := Client.__init__ token in
  let w := Script.world p in
  (forall c msg,
     (Deploy.get_snapshot host api (PyStr snapshot_id) w).1 = Raise c msg ->
     exists p',
       Script.main host fuel environ p = Some (Script.Exits 1, p') /\
       outbox (Script.world p') = outbox w ++ [snapshot_request api snapshot_id] /\
       Script.stderr p' = Script.stderr p ++ [Script.nl +:+ "✗ Error: " +:+ msg]) /\
  (forall ms w1 c msg,
     Deploy.get_snapshot host api (PyStr snapshot_id) w = (Ok (PyDict ms), w1) ->
     (Deploy.get_gpu_sizes host api w1).1 = Raise c msg ->
     exists p',
       Script.main host fuel environ p = Some (Script.Exits 1, p') /\
       outbox (Script.world p')
       = outbox w ++ [snapshot_request api snapshot_id; sizes_request api] /\
       Script.stderr p' = Script.stderr p ++ [Script.nl +:+ "✗ Error: " +:+ msg]).
Proof.
  intros Hc api w. split.
  - intros c msg Hraise.
    rewrite (main_configured host fuel environ token snapshot_id p Hc).
    destruct (verify_snapshot_raises host api snapshot_id
                (Script.said "Initializing DigitalOcean API client..." p) c msg Hraise)
      as (p1 & H1 & Hw1 & He1).
    unfold Script.attempt. rewrite (S_bind_raise _ _ _ _ _ _ H1).
    eexists. split; [reflexivity|]. simpl. by rewrite Hw1, He1.
  - intros ms w1 c msg Hsnap Hraise.
    rewrite (main_configured host fuel environ token snapshot_id p Hc).
    destruct (verify_snapshot_ok host api snapshot_id
                (Script.said "Initializing DigitalOcean API client..." p) ms w1 Hsnap)
      as (p1 & H1 & Hw1 & He1).
    unfold Script.attempt. rewrite (S_bind_ok _ _ _ _ _ H1).
    rewrite <- Hw1 in Hraise.
    destruct (show_gpu_sizes_raises host api p1 c msg Hraise) as (p2 & H2 & Hw2 & He2).
    rewrite (S_bind_raise _ _ _ _ _ _ H2).
    eexists. split; [reflexivity|]. simpl. rewrite Hw2, He2, He1, Hw1. simpl.
    split; [|done].
    pose proof (get_snapshot_world host api snapshot_id w) as Hsent.
    rewrite Hsnap in Hsent. simpl in Hsent. rewrite Hsent. simpl.
    by rewrite <- app_assoc.
Qed.

Lemma main_fails_before_creation_witness :
  let sizes_down := Answer (Sim.response 503 "Service Unavailable" (PyDict ∅)) in
  let host :=
    Sim.scripted [Sim.ok (PyDict {[ "snapshot" := PyDict {[ "name" := PyStr "lab" ]} ]});
                  sizes_down] Sim.offline in
  let environ : gmap string string :=
    {[ "DIGITALOCEAN_API_TOKEN" := "dop_v1_token"; "SNAPSHOT_ID" := "snap-1" ]} in
  let api := Client.__init__ "dop_v1_token" in
  let p := {| Script.stdout := []; Script.stderr := []; Script.world := Sim.dawn |} in
  exists p',
    Script.main host 0 environ p = Some (Script.Exits 1, p') /\
    outbox (Script.world p') = [snapshot_request api "snap-1"; sizes_request api] /\
    Script.stderr p'
    = [Script.nl +:+ "✗ Error: API Error: 503 Server Error: Service Unavailable for url: https://api.digitalocean.com/v2"].
Proof.
  intros sizes_down host environ api p.
  refine (proj2 (main_fails_before_creation host 0 environ "dop_v1_token" "snap-1" p _)
            {[ "name" := PyStr "lab" ]} _ Exception _ _ _).
  - repeat split; try reflexivity; discriminate.
  - reflexivity.
  - reflexivity.
Defined.

Section MainEnd.
Import Client Script.
Context (host : Host).

(** The [try] block up to the creation, when its three calls succeed *)
Lemma attempt_created (fuel : nat) (api : DigitalOceanAPI) (config : Deploy.Config)
    (snapshot_id : string) (p : Process)
    (ms md : gmap string value) (v : value) (w1 w2 w3 : World) :
  Deploy.get_snapshot host api (PyStr snapshot_id) (world p) = (Ok (PyDict ms), w1) ->
  Deploy.get_gpu_sizes host api w1 = (Ok v, w2) ->
  create_from_config host api config snapshot_id w2 = (Ok (PyDict md), w3) ->
  exists p3,
    world p3 = w3 /\ stderr p3 = stderr p /\
    attempt host fuel api config snapshot_id p
    = (droplet ← (if Deploy.wait_for_active config
                  then await host fuel api (default PyNone (md !! "id"))
                  else mret (PyDict md));
       report host droplet) p3.
Proof.
  intros Hsnap Hsizes Hcreate.
  destruct (verify_snapshot_ok host api snapshot_id p ms w1 Hsnap) as (p1 & H1 & Hw1 & He1).
  rewrite <- Hw1 in Hsizes.
  destruct (show_gpu_sizes_ok host api p1 v w2 Hsizes) as (p2 & H2 & Hw2 & He2).
  rewrite <- Hw2 in Hcreate.
  destruct (create_ok host api config snapshot_id p2 md w3 Hcreate)
    as (p3 & H3 & Hw3 & He3).
  exists p3. split; [done|]. split; [congruence|].
  unfold attempt.
  by rewrite (S_bind_ok _ _ _ _ _ H1), (S_bind_ok _ _ _ _ _ H2), (S_bind_ok _ _ _ _ _ H3).
Qed.

End MainEnd.

(** X22: a run that goes well.  With the settings in place, the snapshot
    found, the sizes listed and the droplet created, [main] returns (exit
    status 0), leaves the error stream alone, and the last thing it prints
    is the dump of the droplet: of the creation response when waiting is
    off, three requests in all; of the active droplet the wait returned
    when waiting is on and its addresses can be printed. *)
Theorem main_succeeds (host : Host) (fuel : nat) (environ : gmap string string)
    (token snapshot_id : string) (p : Script.Process)
    (ms md : gmap string value) (v : value) (w1 w2 w3 : World) :
  configured environ token snapshot_id ->
  let api := Client.__init__ token in
  let config := Deploy.config environ in
  Deploy.get_snapshot host api (PyStr snapshot_id) (Script.world p)
    = (Ok (PyDict ms), w1) ->
  Deploy.get_gpu_sizes host api w1 = (Ok v, w2) ->
  Script.create_from_config host api config snapshot_id w2 = (Ok (PyDict md), w3) ->
  (Deploy.wait_for_active config = false ->
   exists p',
     Script.main host fuel environ p = Some (Script.Returns, p') /\
     Script.world p' = w3 /\
     outbox w3 = outbox (Script.world p)
                   ++ [ snapshot_request api snapshot_id; sizes_request api;
                        creation_request api config snapshot_id ] /\
     Script.stderr p' = Script.stderr p /\
     last (Script.stdout p') = Some (dumps host (PyDict md))) /\
  (Deploy.wait_for_active config = true ->
   forall d w4,
     Deploy.wait_for_droplet host fuel api (default PyNone (md !! "id")) None w3
       = Some (Ok d, w4) ->
     networks_printable d ->
     exists p',
       Script.main host fuel environ p = Some (Script.Returns, p') /\
       Script.world p' = w4 /\
       Script.stderr p' = Script.stderr p /\
       last (Script.stdout p') = Some (dumps host d)).
Proof.
  intros Hc api config Hsnap Hsizes Hcreate.
  destruct (attempt_created host fuel api config snapshot_id
              (Script.said "Initializing DigitalOcean API client..." p)
              ms md v w1 w2 w3 Hsnap Hsizes Hcreate)
    as (p3 & Hw3 & He3 & Hattempt).
  simpl in He3. split.
  - intros Hwait.
    rewrite (main_configured host fuel environ token snapshot_id p Hc).
    fold api config. rewrite Hattempt, Hwait.
    change ((droplet ← mret (PyDict md); Script.report host droplet) p3)
      with (Script.report host (PyDict md) p3).
    destruct (report_ok host (PyDict md) p3) as (p' & Hp & Hw & He & Hlast).
    rewrite Hp. exists p'. split; [done|]. split; [congruence|].
    split; [|split; [congruence | done]].
    pose proof (get_snapshot_world host api snapshot_id (Script.world p)) as S1.
    pose proof (get_gpu_sizes_world host api w1) as S2.
    pose proof (create_from_config_world host api config snapshot_id w2) as S3.
    rewrite Hsnap in S1. rewrite Hsizes in S2. rewrite Hcreate in S3.
    simpl in S1, S2, S3. rewrite S3, S2, S1. simpl. by rewrite <- !app_assoc.
  - intros Hwait d w4 Hd Hn.
    rewrite (main_configured host fuel environ token snapshot_id p Hc).
    fold api config. rewrite Hattempt, Hwait.
    rewrite <- Hw3 in Hd.
    destruct (await_ok host fuel api _ p3 d w4 Hd Hn) as (p4 & H4 & Hw4 & He4).
    rewrite (S_bind_ok _ _ _ _ _ H4).
    destruct (report_ok host d p4) as (p' & Hp & Hw & He & Hlast).
    rewrite Hp. exists p'. split; [done|]. split; [congruence|].
    split; [congruence | done].
Qed.

Lemma main_succeeds_witness :
  let created := PyDict {[ "id" := PyInt 42; "status" := PyStr "new" ]} in
  let host :=
    Sim.scripted [Sim.ok (PyDict {[ "snapshot" := PyDict {[ "name" := PyStr "lab" ]} ]});
                  Sim.ok (PyDict {[ "sizes" := PyList [] ]});
                  Sim.ok (PyDict {[ "droplet" := created ]})] Sim.offline in
  let environ : gmap string string :=
    {[ "DIGITALOCEAN_API_TOKEN" := "dop_v1_token"; "SNAPSHOT_ID" := "snap-1";
       "WAIT_FOR_ACTIVE" := "no" ]} in
  let p := {| Script.stdout := []; Script.stderr := []; Script.world := Sim.dawn |} in
  exists p',
    Script.main host 0 environ p = Some (Script.Returns, p') /\
    Script.stderr p' = [] /\
    last (Script.stdout p') = Some (dumps host created).
Proof.
  intros created host environ p.
  destruct (proj1 (main_succeeds host 0 environ "dop_v1_token" "snap-1" p
                     {[ "name" := PyStr "lab" ]}
                     {[ "id" := PyInt 42; "status" := PyStr "new" ]}
                     (PyList []) _ _ _
                     ltac:(repeat split; try reflexivity; discriminate)
                     eq_refl eq_refl eq_refl) eq_refl)
    as (p' & Hmain & _ & _ & Herr & Hlast).
  exists p'. split; [exact Hmain|]. split; [exact Herr | exact Hlast].
Defined.

(** X23: a wait that fails ends [main] with status 1 and the droplet
    stays.  When the creation succeeded and the wait raises (the timeout,
    the error state, a failed poll), [main] exits with status 1, the line
    with the error is the only addition to the error stream, and the
    world is the one the wait left: nothing is sent after the last poll,
    so the droplet that was created is not deleted. *)
Theorem main_wait_failure (host : Host) (fuel : nat) (environ : gmap string string)
    (token snapshot_id : string) (p : Script.Process)
    (ms md : gmap string value) (v : value) (w1 w2 w3 w4 : World)
    (c : exn_class) (msg : string) :
  configured environ token snapshot_id ->
  let api := Client.__init__ token in
  let config := Deploy.config environ in
  Deploy.get_snapshot host api (PyStr snapshot_id) (Script.world p)
    = (Ok (PyDict ms), w1) ->
  Deploy.get_gpu_sizes host api w1 = (Ok v, w2) ->
  Script.create_from_config host api config snapshot_id w2 = (Ok (PyDict md), w3) ->
  Deploy.wait_for_active config = true ->
  Deploy.wait_for_droplet host fuel api (default PyNone (md !! "id")) None w3
    = Some (Raise c msg, w4) ->
  exists p',
    Script.main host fuel environ p = Some (Script.Exits 1, p') /\
    Script.world p' = w4 /\
    Script.stderr p' = Script.stderr p ++ [Script.nl +:+ "✗ Error: " +:+ msg].
Proof.
  intros Hc api config Hsnap Hsizes Hcreate Hwait Hd.
  destruct (attempt_created host fuel api config snapshot_id
              (Script.said "Initializing DigitalOcean API client..." p)
              ms md v w1 w2 w3 Hsnap Hsizes Hcreate)
    as (p3 & Hw3 & He3 & Hattempt).
  simpl in He3.
  rewrite (main_configured host fuel environ token snapshot_id p Hc).
  fold api config. rewrite Hattempt, Hwait.
  rewrite <- Hw3 in Hd.
  destruct (await_raises host fuel api _ p3 c msg w4 Hd) as (p4 & H4 & Hw4 & He4).
  rewrite (S_bind_raise _ _ _ _ _ _ H4).
  eexists. split; [reflexivity|]. simpl. split; [done|]. by rewrite He4, He3.
Qed.

Lemma main_wait_failure_witness :
  let created := PyDict {[ "id" := PyInt 42; "status" := PyStr "new" ]} in
  let host :=
    Sim.scripted [Sim.ok (PyDict {[ "snapshot" := PyDict {[ "name" := PyStr "lab" ]} ]});
                  Sim.ok (PyDict {[ "sizes" := PyList [] ]});
                  Sim.ok (PyDict {[ "droplet" := created ]});
                  Sim.droplet_reply "error"] Sim.offline in
  let environ : gmap string string :=
    {[ "DIGITALOCEAN_API_TOKEN" := "dop_v1_token"; "SNAPSHOT_ID" := "snap-1" ]} in
  let p := {| Script.stdout := []; Script.stderr := []; Script.world := Sim.dawn |} in
  exists p',
    Script.main host 1 environ p = Some (Script.Exits 1, p') /\
    Script.stderr p' = [Script.nl +:+ "✗ Error: Droplet 42 entered error state"].
Proof.
  intros created host environ p.
  destruct (main_wait_failure host 1 environ "dop_v1_token" "snap-1" p
              {[ "name" := PyStr "lab" ]}
              {[ "id" := PyInt 42; "status" := PyStr "new" ]}
              (PyList []) _ _ _ _ Exception "Droplet 42 entered error state"
              ltac:(repeat split; try reflexivity; discriminate)
              eq_refl eq_refl eq_refl eq_refl eq_refl)
    as (p' & Hmain & _ & Herr).
  exists p'. split; [exact Hmain | exact Herr].
Defined.

Section CreationBody.
Import Client Script.

Lemma truthy_list_value (pieces : option (list string)) :
  truthy (list_value pieces)
  = match pieces with Some (_ :: _) => true | _ => false end.
Proof. by destruct pieces as [[|piece pieces]|]. Qed.

Lemma body_list_reads_split (environ : gmap string string) (variable : string)
    (entry : option value) :
  let pieces := if Deploy.getenv_truthy environ variable
                then Some (split (Deploy.getenv_or environ variable "") ",")
                else None in
  entry = (if truthy (list_value pieces) then Some (list_value pieces) else None) ->
  body_list_reads environ variable entry.
Proof.
  unfold body_list_reads, Deploy.getenv_truthy, Deploy.getenv_or, Deploy.getenv.
  destruct (environ !! variable) as [v|]; simpl; [|done].
  destruct (String.eqb v ""); simpl; [done|].
  pose proof (split_not_nil v ",") as Hn.
  by destruct (split v ",").
Qed.

Lemma droplet_data_lookups (name region size image : value)
    (ssh_keys tags user_data monitoring ipv6 private_networking : option value) :
  let d := droplet_data name region size image ssh_keys tags user_data
             monitoring ipv6 private_networking in
  let sent_if (given : option value) :=
    if truthy (default PyNone given) then Some (default PyNone given) else None in
  d !! "ssh_keys" = sent_if ssh_keys /\
  d !! "tags" = sent_if tags /\
  d !! "user_data" = sent_if user_data /\
  d !! "image" = Some image /\
  d !! "monitoring" = Some (default (PyBool false) monitoring) /\
  d !! "ipv6" = Some (default (PyBool false) ipv6) /\
  d !! "private_networking" = Some (default (PyBool true) private_networking).
Proof.
  intros d sent_if. subst d sent_if. unfold droplet_data.
  repeat split; repeat case_match; by simplify_map_eq.
Qed.

End CreationBody.

(** X24: the creation request of [main], read off the environment.  It
    is the one POST [create_from_config] sends; the snapshot id travels
    under the key image; the body never has a user_data key; it has an
    ssh_keys (a tags) key exactly when [SSH_KEYS] ([DROPLET_TAGS]) is set
    and not empty, with the list of the pieces between its commas; and
    the three flags are always there, as parsed from the environment. *)
Theorem creation_from_settings (host : Host) (api : Client.DigitalOceanAPI)
    (environ : gmap string string) (snapshot_id : string) (w : World) :
  let config := Deploy.config environ in
  let d := creation_body config snapshot_id in
  (Script.create_from_config host api config snapshot_id w).2
    = sent host (post_request api "/droplets" (PyDict d)) w /\
  d !! "image" = Some (PyStr snapshot_id) /\
  d !! "user_data" = None /\
  body_list_reads environ "SSH_KEYS" (d !! "ssh_keys") /\
  body_list_reads environ "DROPLET_TAGS" (d !! "tags") /\
  d !! "monitoring" = Some (PyBool (Deploy.monitoring config)) /\
  d !! "ipv6" = Some (PyBool (Deploy.ipv6 config)) /\
  d !! "private_networking" = Some (PyBool (Deploy.private_networking config)).
Proof.
  intros config d.
  split; [apply create_from_config_world|].
  destruct (droplet_data_lookups
              (PyStr (Deploy.droplet_name config)) (PyStr (Deploy.region config))
              (PyStr (Deploy.size config)) (PyStr snapshot_id)
              (Some (Script.list_value (Deploy.ssh_keys config)))
              (Some (Script.list_value (Deploy.tags config)))
              None
              (Some (PyBool (Deploy.monitoring config)))
              (Some (PyBool (Deploy.ipv6 config)))
              (Some (PyBool (Deploy.private_networking config))))
    as (Hkeys & Htags & Hdata & Himage & Hm & Hi & Hp).
  fold (creation_body config snapshot_id) in Hkeys, Htags, Hdata, Himage, Hm, Hi, Hp.
  fold d in Hkeys, Htags, Hdata, Himage, Hm, Hi, Hp.
  split; [done|]. split; [done|].
  split; [by apply (body_list_reads_split environ "SSH_KEYS")|].
  split; [by apply (body_list_reads_split environ "DROPLET_TAGS")|].
  done.
Qed.

(** X25: a run of [main] sends 63 requests at most.  The wait in [main]
    runs with the default timeout of 300 and a pause of 5 between polls;
    so, when no request takes negative time, a run that ends has made the
    lookup, the listing, the creation and 60 polls at most. *)
Theorem main_request_bound (host : Host) (fuel : nat) (environ : gmap string string)
    (p p' : Script.Process) (e : Script.Ending) :
  (forall j, 0 <= latency host j) ->
  Script.main host fuel environ p = Some (e, p') ->
  (length (outbox (Script.world p')) <= length (outbox (Script.world p)) + 63)%nat.
Proof.
  intros Hl H.
  destruct (main_cases host fuel environ p)
    as [(token & sid & Hc) | (q & Hq & Hw & He)].
  - rewrite (main_configured host fuel environ token sid p Hc) in H.
    destruct (Script.attempt _ _ _ _ _ _) as [[r q]|] eqn:Ha; [|by destruct e].
    apply attempt_requests in Ha as (_ & k & n & id & Hout & _ & _ & _ & Hbound).
    specialize (Hbound Hl).
    assert (Script.world p' = Script.world q) as ->
      by (destruct r; injection H as <- <-; done).
    rewrite Hout. simpl. rewrite !length_app, length_take, length_replicate. simpl. lia.
  - rewrite Hq in H. injection H as <- <-. rewrite Hw. lia.
Qed.

Lemma main_request_bound_witness :
  let created := PyDict {[ "id" := PyInt 42; "status" := PyStr "new" ]} in
  let host :=
    Sim.scripted [Sim.ok (PyDict {[ "snapshot" := PyDict {[ "name" := PyStr "lab" ]} ]});
                  Sim.ok (PyDict {[ "sizes" := PyList [] ]});
                  Sim.ok (PyDict {[ "droplet" := created ]});
                  Sim.droplet_reply "active"] Sim.offline in
  let environ : gmap string string :=
    {[ "DIGITALOCEAN_API_TOKEN" := "dop_v1_token"; "SNAPSHOT_ID" := "snap-1" ]} in
  let p := {| Script.stdout := []; Script.stderr := []; Script.world := Sim.dawn |} in
  exists e p',
    Script.main host 1 environ p = Some (e, p') /\
    (length (outbox (Script.world p')) <= 63)%nat.
Proof.
  intros created host environ p.
  destruct (Script.main host 1 environ p) as [[e p']|] eqn:H.
  - exists e, p'. split; [reflexivity|].
    apply (main_request_bound host 1 environ p p' e (fun _ => Z.le_refl 0) H).
  - vm_compute in H. discriminate H.
Defined.

(** X26: a tool called without its id still goes to the remote service.
    The dispatcher reads [snapshot_id] and [droplet_id] with [.get], so
    with the argument missing (or [null]) the id is [None] and the call
    sends its request for the path ending in [None]: a GET of
    [/snapshots/None] or [/droplets/None], and for the deletion a DELETE
    of [/droplets/None]. *)
Theorem missing_id_requests_none (host : Host) (environ : gmap string string)
    (arguments : gmap string value)
    (api_client : option Client.DigitalOceanAPI) (api : Client.DigitalOceanAPI)
    (w : World) :
  client_ready environ api_client api ->
  let after name := (Server.call_tool host environ name arguments api_client w).2 in
  (default PyNone (arguments !! "snapshot_id") = PyNone ->
   after "do_get_snapshot" = sent host (get_request api "/snapshots/None") w) /\
  (default PyNone (arguments !! "droplet_id") = PyNone ->
   after "do_get_droplet" = sent host (get_request api "/droplets/None") w /\
   after "do_delete_droplet" = sent host (delete_request api "/droplets/None") w).
Proof.
  intros Hr after. subst after. simpl.
  rewrite !(call_tool_world host environ _ arguments api_client api w Hr).
  rewrite !dispatch_world by (intros H; discriminate H).
  unfold tool_request. simpl.
  split; [by intros -> | by intros ->].
Qed.

Lemma missing_id_requests_none_witness :
  let api := Client.__init__ "dop_v1_token" in
  (Server.call_tool Sim.offline ∅ "do_delete_droplet" ∅ (Some api) Sim.dawn).2
  = sent Sim.offline (delete_request api "/droplets/None") Sim.dawn.
Proof.
  intros api.
  refine (proj2 (proj2 (missing_id_requests_none Sim.offline ∅ ∅ (Some api) api
                          Sim.dawn _) _)).
  - left; reflexivity.
  - reflexivity.
Defined.
